(** * Backtest engines of expert_adviser: a shallow embedding

    The repository holds four variants of one single-instrument backtest
    bot: [main.py] (fixed stop/take), [main2.py] (no stop-loss),
    [main3.py] (volatility-adaptive, clustering thresholds) and
    [main_revised.py] (refactored fixed stop/take).  Each variant is
    embedded in a module of its own ([Main], [Main2], [Main3],
    [MainRevised]) over a shared model of the numbers, of the pandas
    series and frames, of the object store and of the wall clock.

    Numbers.  The code computes on binary64 floats.  They are modelled by
    [num]: exact rationals extended with the IEEE special values NaN,
    +inf and -inf, with the IEEE rules for the special values (x/0,
    inf-inf, 0*inf, comparisons with NaN are false).  Rounding and the
    sign of zero are not modelled.  Finite results are kept in lowest
    terms so that equal values are equal terms.

    Effects.  A bot is a record passed through its methods.  Frames are
    objects in a store, passed by reference, since [run] receives the
    caller's frame.  [datetime.now()] is an oracle from the number of
    earlier readings to the time read; each reading in the source, also
    those inside [print], advances the count.  The text printed is not
    modelled.  Exceptions are values: a method that may raise returns the
    state it leaves together with the exception, if any.

    Libraries.  The pandas calls are modelled by their batch semantics on
    the default index.  The clustering of scikit-learn is a parameter
    [kmeans] of [Main3.run]: with its fixed seed it is a function of the
    samples. *)

From Stdlib Require Import QArith Qreduction Qabs Lqa.
From stdpp Require Import gmap strings list fin_maps.

Open Scope Z_scope.

(** ** Numbers *)

Inductive num : Type :=
  | NaN
  | PInf
  | NInf
  | Fin (q : Q).

Arguments Fin q%_Q.

Declare Scope num_scope.
Delimit Scope num_scope with num.
Bind Scope num_scope with num.

Definition Qltb (a b : Q) : bool := negb (Qle_bool b a).

Definition isna (x : num) : bool :=
  match x with NaN => true | _ => false end.

Definition is_finite (x : num) : bool :=
  match x with Fin _ => true | _ => false end.

Definition nneg (x : num) : num :=
  match x with
  | NaN => NaN
  | PInf => NInf
  | NInf => PInf
  | Fin a => Fin (Qred (- a))
  end.

Definition nadd (x y : num) : num :=
  match x, y with
  | NaN, _ | _, NaN => NaN
  | PInf, NInf | NInf, PInf => NaN
  | PInf, _ | _, PInf => PInf
  | NInf, _ | _, NInf => NInf
  | Fin a, Fin b => Fin (Qred (a + b))
  end.

Definition nsub (x y : num) : num :=
  match x, y with
  | NaN, _ | _, NaN => NaN
  | PInf, PInf | NInf, NInf => NaN
  | PInf, _ | _, NInf => PInf
  | NInf, _ | _, PInf => NInf
  | Fin a, Fin b => Fin (Qred (a - b))
  end.

(** The infinity of the sign of [q] times the sign of [pos]; NaN at zero. *)
Definition inf_signed (pos : bool) (q : Q) : num :=
  if Qeq_bool q 0 then NaN
  else if Bool.eqb pos (Qltb 0 q) then PInf else NInf.

Definition nmul (x y : num) : num :=
  match x, y with
  | NaN, _ | _, NaN => NaN
  | PInf, PInf | NInf, NInf => PInf
  | PInf, NInf | NInf, PInf => NInf
  | PInf, Fin b | Fin b, PInf => inf_signed true b
  | NInf, Fin b | Fin b, NInf => inf_signed false b
  | Fin a, Fin b => Fin (Qred (a * b))
  end.

Definition ndiv (x y : num) : num :=
  match x, y with
  | NaN, _ | _, NaN => NaN
  | (PInf | NInf), (PInf | NInf) => NaN
  | PInf, Fin b => if Qltb b 0 then NInf else PInf
  | NInf, Fin b => if Qltb b 0 then PInf else NInf
  | Fin _, (PInf | NInf) => Fin 0
  | Fin a, Fin b =>
      if Qeq_bool b 0 then inf_signed true a else Fin (Qred (a / b))
  end.

Definition nabs (x : num) : num :=
  match x with
  | NaN => NaN
  | PInf | NInf => PInf
  | Fin a => Fin (Qred (Qabs a))
  end.

(** Comparisons: every comparison with NaN is [false], as in Python. *)
Definition nle (x y : num) : bool :=
  match x, y with
  | NaN, _ | _, NaN => false
  | NInf, _ | _, PInf => true
  | PInf, _ | _, NInf => false
  | Fin a, Fin b => Qle_bool a b
  end.

Definition nlt (x y : num) : bool :=
  match x, y with
  | NaN, _ | _, NaN => false
  | PInf, _ | _, NInf => false
  | NInf, _ | _, PInf => true
  | Fin a, Fin b => Qltb a b
  end.

Definition nge (x y : num) : bool := nle y x.
Definition ngt (x y : num) : bool := nlt y x.

(** [x != y]: [true] as soon as one side is NaN. *)
Definition nne (x y : num) : bool :=
  match x, y with
  | NaN, _ | _, NaN => true
  | PInf, PInf | NInf, NInf => false
  | Fin a, Fin b => negb (Qeq_bool a b)
  | _, _ => true
  end.

Notation "x + y" := (nadd x y) : num_scope.
Notation "x - y" := (nsub x y) : num_scope.
Notation "x * y" := (nmul x y) : num_scope.
Notation "x / y" := (ndiv x y) : num_scope.
Notation "- x" := (nneg x) : num_scope.
Notation "x <? y" := (nlt x y) : num_scope.
Notation "x <=? y" := (nle x y) : num_scope.
Notation "x >? y" := (ngt x y) : num_scope.
Notation "x >=? y" := (nge x y) : num_scope.

(** Integer values of the source ([len], window sizes), as numbers. *)
Definition of_Z (z : Z) : num := Fin (inject_Z z).
Definition of_nat (n : nat) : num := of_Z (Z.of_nat n).

(** ** Series: the pandas operations the bots use

    A [Series] is the list of its values in index order (the index is the
    default [0..n-1] range).  Each operation below is the batch semantics
    of the pandas call named in its comment. *)

Abbreviation Series := (list num).

Definition at_ (s : Series) (i : nat) : num := nth i s NaN.

(** Element-wise binary operation of two aligned series. *)
Fixpoint zip_with_num (f : num -> num -> num) (xs ys : Series) : Series :=
  match xs, ys with
  | x :: xs', y :: ys' => f x y :: zip_with_num f xs' ys'
  | _, _ => []
  end.

(** [s.shift(1)] *)
Definition shift1 (s : Series) : Series :=
  match s with
  | [] => []
  | _ => NaN :: removelast s
  end.

(** [s.diff()] *)
Definition diff (s : Series) : Series := zip_with_num nsub s (shift1 s).

(** [s.where(cond, other)], the condition given on the element. *)
Definition where_ (cond : num -> bool) (other : num) (s : Series) : Series :=
  map (fun x => if cond x then x else other) s.

(** The [w] values ending at index [i]. *)
Definition window (w i : nat) (s : Series) : list num :=
  take w (drop (S i - w) s).

Definition total (xs : list num) : num := fold_left nadd xs (Fin 0).

Definition mean (xs : list num) : num :=
  (total xs / of_nat (length xs))%num.

(** [s.rolling(window=w).mean()]: undefined until [w] values are seen and
    wherever the window holds a value that is not finite (pandas turns
    infinities into NaN before it rolls, and [min_periods] is [w]). *)
Definition rolling_mean (w : nat) (s : Series) : Series :=
  map (fun i =>
         if (S i <? w)%nat then NaN
         else let win := window w i s in
              if forallb is_finite win then mean win else NaN)
      (seq 0 (length s)).

(** [s.ewm(span=span, adjust=adjust, min_periods=minp).mean()], the
    recurrence pandas runs ([ignore_na=False]): [weighted] is the running
    mean, [old_wt] the weight it carries, [nobs] the observations seen. *)
Record ewm_state := { weighted : num; old_wt : num; nobs : nat }.

Definition ewm_alpha (span : nat) : num :=
  (Fin 2 / (of_nat span + Fin 1))%num.

Definition ewm_step (alpha : num) (adjust : bool) (st : ewm_state) (cur : num)
  : ewm_state :=
  let new_wt := if adjust then Fin 1 else alpha in
  let is_observation := negb (isna cur) in
  let nobs' := if is_observation then S (nobs st) else nobs st in
  if negb (isna (weighted st)) then
    let old_wt1 := (old_wt st * (Fin 1 - alpha))%num in
    if is_observation then
      {| weighted :=
           if nne (weighted st) cur
           then ((old_wt1 * weighted st + new_wt * cur) / (old_wt1 + new_wt))%num
           else weighted st;
         old_wt := if adjust then (old_wt1 + new_wt)%num else Fin 1;
         nobs := nobs' |}
    else {| weighted := weighted st; old_wt := old_wt1; nobs := nobs' |}
  else if is_observation then
    {| weighted := cur; old_wt := old_wt st; nobs := nobs' |}
  else {| weighted := weighted st; old_wt := old_wt st; nobs := nobs' |}.

Definition ewm_out (minp : nat) (st : ewm_state) : num :=
  if (Nat.max minp 1 <=? nobs st)%nat then weighted st else NaN.

Fixpoint ewm_from (alpha : num) (adjust : bool) (minp : nat)
    (st : ewm_state) (s : Series) : Series :=
  match s with
  | [] => []
  | cur :: s' =>
      let st' := ewm_step alpha adjust st cur in
      ewm_out minp st' :: ewm_from alpha adjust minp st' s'
  end.

Definition ewm_mean (span : nat) (adjust : bool) (minp : nat) (s : Series)
  : Series :=
  match s with
  | [] => []
  | x :: s' =>
      let st := {| weighted := x; old_wt := Fin 1;
                   nobs := if isna x then 0 else 1 |} in
      ewm_out minp st :: ewm_from (ewm_alpha span) adjust minp st s'
  end.

(** [max(axis=1)] of one row: the largest value that is not NaN. *)
Definition max_skipna (xs : list num) : num :=
  fold_left (fun acc x =>
               if isna x then acc
               else if isna acc then x
               else if nlt acc x then x else acc) xs NaN.

(** [s.dropna()] *)
Definition dropna (s : Series) : Series := filter (fun x => isna x = false) s.

(** The relative strength index of a pair of average gain and loss:
    [100 - (100 / (1 + gain / loss))]. *)
Definition rsi_of (gain loss : num) : num :=
  (Fin 100 - (Fin 100 / (Fin 1 + gain / loss)))%num.

(** The directional moves every variant derives from the closes:
    [delta = close.diff()], then [delta.where(delta > 0, 0)] and
    [-delta.where(delta < 0, 0)]. *)
Definition gains (close : Series) : Series :=
  where_ (fun d => d >? Fin 0)%num (Fin 0) (diff close).

Definition losses (close : Series) : Series :=
  map nneg (where_ (fun d => d <? Fin 0)%num (Fin 0) (diff close)).

(** ** Frames and the object store

    A [DataFrame] has a number of rows ([len(df)]) and named columns, each
    holding one value per row.  Frames are mutable objects that the caller
    and the bot may share, so they live in a store and are passed by
    reference. *)

Record DataFrame := { nrows : nat; columns : gmap string Series }.

Definition set_col (c : string) (s : Series) (df : DataFrame) : DataFrame :=
  {| nrows := nrows df; columns := <[c := s]> (columns df) |}.

(** One row of a frame ([df.iloc[i]]), read by column name.  Every column
    the bots read from a row has been set by [calculate_indicators] or
    checked by it, so the value for a missing column is never used. *)
Definition Row := string -> num.

Definition iloc (df : DataFrame) (i : nat) : Row :=
  fun c => match columns df !! c with
           | Some s => at_ s i
           | None => NaN
           end.

Abbreviation loc := nat.
Abbreviation store := (list DataFrame).

(** [df.copy()]: a new object with the same content. *)
Definition copy (h : store) (df : DataFrame) : store * loc :=
  (h ++ [df], length h).

(** The exceptions of the source.  [DanglingReference] is what the model
    answers to a reference outside the store; no caller passes one. *)
Inductive exn : Type :=
  | KeyError (key : string)
  | ValueError
  | DanglingReference.

(** The readings of [datetime.now()], by the number of earlier readings. *)
Definition clock := nat -> Z.

(** ** Trade records: the dictionaries appended to [self.trades] *)

(** The six strings of the ['type'] key of [main.py] and
    [main_revised.py]: close of a long and of a short position on the
    exit signal, on the stop-loss, on the take-profit.  The records of
    [main2.py] and [main3.py] have no such key. *)
Inductive trade_type : Type :=
  | CloseLong | CloseShort
  | StopLong | StopShort
  | TakeLong | TakeShort.

Module Trade.
Record t := {
  symbol : string;
  type : option trade_type;
  entry_price : num;
  exit_price : num;
  profit_loss : num;
  lot_size : num;
  timestamp : Z
}.
End Trade.

(** ** Results of calls that may raise, and of whole runs *)

Inductive result (A : Type) : Type :=
  | Ok (a : A)
  | Raise (e : exn).

Arguments Ok {A} a.
Arguments Raise {A} e.

(** What a call of [run] leaves behind: the bot, the store, the number of
    clock readings made so far, and the exception that escaped, if any. *)
Record Outcome (B : Type) := {
  final : B;
  heap : store;
  ticks : nat;
  raised : option exn
}.

Arguments final {B} _.
Arguments heap {B} _.
Arguments ticks {B} _.
Arguments raised {B} _.

(** A method that changes the frame behind a reference in place. *)
Definition update_frame (h : store) (l : loc)
    (f : DataFrame -> DataFrame * option exn) : store * option exn :=
  match h !! l with
  | None => (h, Some DanglingReference)
  | Some df => let (df', e) := f df in (<[l := df']> h, e)
  end.

(** * [main.py]: fixed stop-loss and take-profit *)

Module Main.

Record QuantTradingBot := {
  symbol : string;
  balance : num;
  lot_size : num;
  stop_loss : num;
  take_profit : num;
  position : Z;
  entry_price : num;
  trades : list Trade.t
}.

(** [__init__] *)
Definition __init__ (symbol : string)
    (initial_balance lot_size stop_loss take_profit : num)
  : result QuantTradingBot :=
  Ok {| symbol := symbol;
        balance := initial_balance;
        lot_size := lot_size;
        stop_loss := stop_loss;
        take_profit := take_profit;
        position := 0;
        entry_price := Fin 0;
        trades := [] |}.

(** The frame after [calculate_indicators], or the exception it raises. *)
Definition indicators (data : DataFrame) : DataFrame * option exn :=
  match columns data !! "Close" with
  | None => (data, Some (KeyError "Close"))
  | Some close =>
      let data := set_col "SMA20" (rolling_mean 20 close) data in
      let data := set_col "SMA50" (rolling_mean 50 close) data in
      let gain := rolling_mean 14 (gains close) in
      let loss := rolling_mean 14 (losses close) in
      (set_col "RSI" (zip_with_num rsi_of gain loss) data, None)
  end.

Definition calculate_indicators (h : store) (data : loc) : store * option exn :=
  update_frame h data indicators.

Definition should_enter_trade (current_row previous_row : Row) : Z :=
  if isna (current_row "SMA20") || isna (current_row "SMA50")
     || isna (current_row "RSI")
  then 0
  else if (current_row "SMA20" >? current_row "SMA50")%num
          && (current_row "Close" >? current_row "SMA20")%num
          && (previous_row "Close" <=? previous_row "SMA20")%num
          && (current_row "RSI" <? Fin 70)%num
  then 1
  else if (current_row "SMA20" <? current_row "SMA50")%num
          && (current_row "Close" <? current_row "SMA20")%num
          && (previous_row "Close" >=? previous_row "SMA20")%num
          && (current_row "RSI" >? Fin 30)%num
  then -1
  else 0.

Definition should_exit_trade (self : QuantTradingBot) (current_row : Row) : Z :=
  if position self =? 0 then 0
  else if position self =? 1 then
    if (current_row "RSI" >? Fin 70)%num
       || (current_row "Close" <? current_row "SMA20")%num
    then 0 else position self
  else if position self =? -1 then
    if (current_row "RSI" <? Fin 30)%num
       || (current_row "Close" >? current_row "SMA20")%num
    then 0 else position self
  else position self.

(** The record appended on a close; [now_] is the reading of the clock
    taken inside the dictionary. *)
Definition closed_trade (self : QuantTradingBot) (ty : trade_type)
    (exit_price profit_loss : num) (now_ : Z) : Trade.t :=
  {| Trade.symbol := symbol self;
     Trade.type := Some ty;
     Trade.entry_price := entry_price self;
     Trade.exit_price := exit_price;
     Trade.profit_loss := profit_loss;
     Trade.lot_size := lot_size self;
     Trade.timestamp := now_ |}.

(** The three closing branches end alike: balance, ledger, reset.  The
    [print] before the append reads the clock once (reading [t]); the
    dictionary reads it again (reading [S t]). *)
Definition close (now : clock) (t : nat) (self : QuantTradingBot) (ty : trade_type)
    (exit_price profit_loss : num) : QuantTradingBot * nat :=
  ({| symbol := symbol self;
      balance := (balance self + profit_loss)%num;
      lot_size := lot_size self;
      stop_loss := stop_loss self;
      take_profit := take_profit self;
      position := 0;
      entry_price := Fin 0;
      trades := trades self
                ++ [closed_trade self ty exit_price profit_loss (now (S t))] |},
   S (S t)).

Definition execute_trade (now : clock) (t : nat) (self : QuantTradingBot)
    (price : num) (signal : Z) : QuantTradingBot * nat :=
  if (position self =? 0) && negb (signal =? 0) then
    ({| symbol := symbol self;
        balance := balance self;
        lot_size := lot_size self;
        stop_loss := stop_loss self;
        take_profit := take_profit self;
        position := signal;
        entry_price := price;
        trades := trades self |}, S t)
  else if negb (position self =? 0) && (signal =? 0) then
    let profit_loss :=
      if position self =? 1
      then ((price - entry_price self) * lot_size self * Fin 100000)%num
      else ((entry_price self - price) * lot_size self * Fin 100000)%num in
    close now t self (if position self =? 1 then CloseLong else CloseShort)
          price profit_loss
  else if negb (position self =? 0) then
    let price_diff :=
      if position self =? 1 then (price - entry_price self)%num
      else (entry_price self - price)%num in
    if (price_diff <=? - stop_loss self)%num then
      let exit_price :=
        if position self =? 1 then (entry_price self - stop_loss self)%num
        else (entry_price self + stop_loss self)%num in
      let profit_loss :=
        if position self =? 1
        then ((exit_price - entry_price self) * lot_size self * Fin 100000)%num
        else ((entry_price self - exit_price) * lot_size self * Fin 100000)%num in
      close now t self (if position self =? 1 then StopLong else StopShort)
            exit_price profit_loss
    else if (price_diff >=? take_profit self)%num then
      let exit_price :=
        if position self =? 1 then (entry_price self + take_profit self)%num
        else (entry_price self - take_profit self)%num in
      let profit_loss :=
        if position self =? 1
        then ((exit_price - entry_price self) * lot_size self * Fin 100000)%num
        else ((entry_price self - exit_price) * lot_size self * Fin 100000)%num in
      close now t self (if position self =? 1 then TakeLong else TakeShort)
            exit_price profit_loss
    else (self, t)
  else (self, t).

(** The body of the loop of [run] at index [i]. *)
Definition bar (now : clock) (data : DataFrame)
    (st : QuantTradingBot * nat) (i : nat)
  : QuantTradingBot * nat :=
  if (i =? 0)%nat then st
  else
    let current_row := iloc data i in
    let previous_row := iloc data (i - 1) in
    let entry_signal := should_enter_trade current_row previous_row in
    let exit_signal := should_exit_trade st.1 current_row in
    if negb (position st.1 =? 0)
    then execute_trade now st.2 st.1 (current_row "Close") exit_signal
    else execute_trade now st.2 st.1 (current_row "Close") entry_signal.

Definition bars (now : clock) (data : DataFrame) (upto : nat)
    (st : QuantTradingBot * nat)
  : QuantTradingBot * nat :=
  fold_left (bar now data) (seq 0 upto) st.

(** [run]: the indicators are computed on a copy of the caller's frame. *)
Definition run (now : clock) (h : store) (t : nat) (self : QuantTradingBot)
    (price_data : loc) : Outcome QuantTradingBot :=
  match h !! price_data with
  | None => {| final := self; heap := h; ticks := t;
               raised := Some DanglingReference |}
  | Some df =>
      let (h1, c) := copy h df in
      let (h2, e) := calculate_indicators h1 c in
      match e, h2 !! c with
      | None, Some data_with_indicators =>
          let st := bars now data_with_indicators
                         (nrows data_with_indicators) (self, t) in
          {| final := st.1; heap := h2; ticks := st.2; raised := None |}
      | Some e, _ => {| final := self; heap := h2; ticks := t; raised := Some e |}
      | None, None => {| final := self; heap := h2; ticks := t;
                         raised := Some DanglingReference |}
      end
  end.

End Main.

(** * [main2.py]: the bot without a stop-loss mechanism *)

Module Main2.

Record QuantTradingBot := {
  symbol : string;
  balance : num;
  risk_per_trade : num;
  position : Z;
  entry_price : num;
  stop_loss : num;
  take_profit : num;
  trades : list Trade.t;
  lot_size : num
}.

(** [__init__] *)
Definition __init__ (symbol : string) (initial_balance risk_per_trade : num)
  : result QuantTradingBot :=
  Ok {| symbol := symbol;
        balance := initial_balance;
        risk_per_trade := risk_per_trade;
        position := 0;
        entry_price := Fin 0;
        stop_loss := Fin 0;
        take_profit := Fin 0;
        trades := [];
        lot_size := Fin 0.01 |}.

Definition indicators (data : DataFrame) : DataFrame * option exn :=
  match columns data !! "Close" with
  | None => (data, Some (KeyError "Close"))
  | Some close =>
      let data := set_col "SMA20" (rolling_mean 20 close) data in
      let data := set_col "SMA50" (rolling_mean 50 close) data in
      let gain := rolling_mean 10 (gains close) in
      let loss := rolling_mean 10 (losses close) in
      let data := set_col "RSI" (zip_with_num rsi_of gain loss) data in
      let ema12 := ewm_mean 12 false 0 close in
      let ema26 := ewm_mean 26 false 0 close in
      let data := set_col "EMA12" ema12 data in
      let data := set_col "EMA26" ema26 data in
      let macd := zip_with_num nsub ema12 ema26 in
      let data := set_col "MACD" macd data in
      let data := set_col "Signal" (ewm_mean 9 false 0 macd) data in
      match columns data !! "High" with
      | None => (data, Some (KeyError "High"))
      | Some high =>
          match columns data !! "Low" with
          | None => (data, Some (KeyError "Low"))
          | Some low =>
              (set_col "ATR" (rolling_mean 14 (zip_with_num nsub high low)) data,
               None)
          end
      end
  end.

Definition calculate_indicators (h : store) (data : loc) : store * option exn :=
  update_frame h data indicators.

Definition should_enter_trade (self : QuantTradingBot)
    (current_row previous_row : Row)
  : Z * num :=
  if isna (current_row "SMA20") || isna (current_row "SMA50")
     || isna (current_row "RSI")
  then (0, lot_size self)
  else
    let lot_size := lot_size self in
    if (current_row "SMA20" >? current_row "SMA50")%num
       && (current_row "Close" >? current_row "SMA20")%num
       && (previous_row "Close" <=? previous_row "SMA20")%num
       && (current_row "RSI" <? Fin 70)%num
    then (1, lot_size)
    else if (current_row "SMA20" <? current_row "SMA50")%num
            && (current_row "Close" <? current_row "SMA20")%num
            && (previous_row "Close" >=? previous_row "SMA20")%num
            && (current_row "RSI" >? Fin 30)%num
    then (-1, lot_size)
    else (0, lot_size).

Definition execute_trade (now : clock) (t : nat) (self : QuantTradingBot)
    (price : num) (signal : Z) (lot_size_ : num) : QuantTradingBot * nat :=
  if (position self =? 0) && negb (signal =? 0) then
    ({| symbol := symbol self;
        balance := balance self;
        risk_per_trade := risk_per_trade self;
        position := signal;
        entry_price := price;
        stop_loss := stop_loss self;
        take_profit := take_profit self;
        trades := trades self;
        lot_size := lot_size_ |}, S t)
  else if negb (position self =? 0)
          && ((price >=? take_profit self)%num || (price <=? stop_loss self)%num)
  then
    let profit_loss :=
      if position self =? 1
      then ((price - entry_price self) * lot_size_ * Fin 100000)%num
      else ((entry_price self - price) * lot_size_ * Fin 100000)%num in
    ({| symbol := symbol self;
        balance := (balance self + profit_loss)%num;
        risk_per_trade := risk_per_trade self;
        position := 0;
        entry_price := Fin 0;
        stop_loss := stop_loss self;
        take_profit := take_profit self;
        trades := trades self
                  ++ [{| Trade.symbol := symbol self;
                         Trade.type := None;
                         Trade.entry_price := entry_price self;
                         Trade.exit_price := price;
                         Trade.profit_loss := profit_loss;
                         Trade.lot_size := lot_size_;
                         Trade.timestamp := now (S t) |}];
        lot_size := lot_size self |}, S (S t))
  else (self, t).

(** The body of the loop of [run] at index [i]. *)
Definition bar (now : clock) (data : DataFrame)
    (st : QuantTradingBot * nat) (i : nat)
  : QuantTradingBot * nat :=
  let current_row := iloc data i in
  let previous_row := iloc data (i - 1) in
  let '(entry_signal, lot_size_) :=
    should_enter_trade st.1 current_row previous_row in
  if position st.1 =? 0
  then execute_trade now st.2 st.1 (current_row "Close") entry_signal lot_size_
  else execute_trade now st.2 st.1 (current_row "Close") (position st.1)
                     (lot_size st.1).

(** The state after the bars [1 .. upto]. *)
Definition bars (now : clock) (data : DataFrame) (upto : nat)
    (st : QuantTradingBot * nat)
  : QuantTradingBot * nat :=
  fold_left (bar now data) (seq 1 upto) st.

Definition run (now : clock) (h : store) (t : nat) (self : QuantTradingBot)
    (price_data : loc) : Outcome QuantTradingBot :=
  match h !! price_data with
  | None => {| final := self; heap := h; ticks := t;
               raised := Some DanglingReference |}
  | Some df =>
      let (h1, c) := copy h df in
      let (h2, e) := calculate_indicators h1 c in
      match e, h2 !! c with
      | None, Some data_with_indicators =>
          let st := bars now data_with_indicators
                         (nrows data_with_indicators - 1) (self, t) in
          {| final := st.1; heap := h2; ticks := st.2; raised := None |}
      | Some e, _ => {| final := self; heap := h2; ticks := t; raised := Some e |}
      | None, None => {| final := self; heap := h2; ticks := t;
                         raised := Some DanglingReference |}
      end
  end.

End Main2.

(** * [main3.py]: the volatility-adaptive bot *)

Module Main3.

Record AdaptiveTradingBot := {
  symbol : string;
  balance : num;
  lot_size : num;
  risk_reward_ratio : num;
  position : Z;
  entry_price : num;
  trades : list Trade.t;
  contract_size : num
}.

(** [__init__] *)
Definition __init__ (symbol : string)
    (initial_balance lot_size risk_reward_ratio contract_size : num)
  : result AdaptiveTradingBot :=
  Ok {| symbol := symbol;
        balance := initial_balance;
        lot_size := lot_size;
        risk_reward_ratio := risk_reward_ratio;
        position := 0;
        entry_price := Fin 0;
        trades := [];
        contract_size := contract_size |}.

(** The true range of one bar: the row maximum of the three helper columns. *)
Fixpoint row_max (a b c : Series) : Series :=
  match a, b, c with
  | x :: a', y :: b', z :: c' => max_skipna [x; y; z] :: row_max a' b' c'
  | _, _, _ => []
  end.

Definition indicators (data : DataFrame) : DataFrame * option exn :=
  match columns data !! "Close" with
  | None => (data, Some (KeyError "Close"))
  | Some close =>
      let data := set_col "SMA" (rolling_mean 20 close) data in
      let data := set_col "EMA" (ewm_mean 15 false 0 close) data in
      let gain := rolling_mean 14 (gains close) in
      let loss := rolling_mean 14 (losses close) in
      let data := set_col "RSI" (zip_with_num rsi_of gain loss) data in
      match columns data !! "High" with
      | None => (data, Some (KeyError "High"))
      | Some high =>
          match columns data !! "Low" with
          | None => (data, Some (KeyError "Low"))
          | Some low =>
              let high_low := zip_with_num nsub high low in
              let high_close := map nabs (zip_with_num nsub high (shift1 close)) in
              let low_close := map nabs (zip_with_num nsub low (shift1 close)) in
              let data := set_col "High-Low" high_low data in
              let data := set_col "High-Close" high_close data in
              let data := set_col "Low-Close" low_close data in
              let tr := row_max high_low high_close low_close in
              let data := set_col "TR" tr data in
              (set_col "ATR" (rolling_mean 14 tr) data, None)
          end
      end
  end.

Definition calculate_indicators (h : store) (data : loc) : store * option exn :=
  update_frame h data indicators.

(** [sorted] on numbers. *)
Fixpoint insert_sorted (x : num) (l : list num) : list num :=
  match l with
  | [] => [x]
  | y :: l' => if (y <? x)%num then y :: insert_sorted x l' else x :: y :: l'
  end.

Definition sorted (l : list num) : list num := foldr insert_sorted [] l.

(** [dynamic_rsi_threshold].  [kmeans] stands for
    [KMeans(n_clusters=3, random_state=42).fit(..).cluster_centers_.flatten()],
    a function of the samples since the seed is fixed; scikit-learn raises
    [ValueError] on fewer samples than clusters. *)
Definition dynamic_rsi_threshold (kmeans : list num -> list num)
    (data : DataFrame) : result (num * num) :=
  match columns data !! "RSI" with
  | None => Raise (KeyError "RSI")
  | Some rsi =>
      let rsi_values := dropna rsi in
      if (length rsi_values <? 3)%nat then Raise ValueError
      else
        match sorted (kmeans rsi_values) with
        | [oversold; neutral; overbought] => Ok (oversold, overbought)
        | _ => Raise ValueError
        end
  end.

Definition should_enter_trade (self : AdaptiveTradingBot)
    (current_row previous_row : Row)
    (oversold overbought : num) : Z * num * num :=
  if isna (current_row "SMA") || isna (current_row "RSI")
     || isna (current_row "ATR")
  then (0, Fin 0, Fin 0)
  else
    let atr := current_row "ATR" in
    let stop_loss := (atr * Fin 1.5)%num in
    let take_profit := (stop_loss * risk_reward_ratio self)%num in
    if (current_row "SMA" >? current_row "EMA")%num
       && (previous_row "RSI" <? oversold)%num
       && (current_row "RSI" >? previous_row "RSI")%num
    then (1, stop_loss, take_profit)
    else if (current_row "SMA" <? current_row "EMA")%num
            && (previous_row "RSI" >? overbought)%num
            && (current_row "RSI" <? previous_row "RSI")%num
    then (-1, stop_loss, take_profit)
    else (0, Fin 0, Fin 0).

Definition should_exit_trade (self : AdaptiveTradingBot) (current_row : Row) : Z :=
  if (position self =? 1) && (current_row "RSI" >? Fin 70)%num then 0
  else if (position self =? -1) && (current_row "RSI" <? Fin 30)%num then 0
  else position self.

(** The record appended by the stop-loss and take-profit branches. *)
Definition closed_trade (self : AdaptiveTradingBot)
    (exit_price profit_loss : num) (now_ : Z)
  : Trade.t :=
  {| Trade.symbol := symbol self;
     Trade.type := None;
     Trade.entry_price := entry_price self;
     Trade.exit_price := exit_price;
     Trade.profit_loss := profit_loss;
     Trade.lot_size := lot_size self;
     Trade.timestamp := now_ |}.

Definition execute_trade (now : clock) (t : nat) (self : AdaptiveTradingBot)
    (price : num) (signal : Z) (stop_loss take_profit : num)
  : AdaptiveTradingBot * nat :=
  if (position self =? 0) && negb (signal =? 0) then
    ({| symbol := symbol self;
        balance := balance self;
        lot_size := lot_size self;
        risk_reward_ratio := risk_reward_ratio self;
        position := signal;
        entry_price := price;
        trades := trades self;
        contract_size := contract_size self |}, S t)
  else if negb (position self =? 0) && (signal =? 0) then
    let profit_loss :=
      if position self =? 1
      then ((price - entry_price self) * lot_size self * contract_size self)%num
      else ((entry_price self - price) * lot_size self * contract_size self)%num in
    ({| symbol := symbol self;
        balance := (balance self + profit_loss)%num;
        lot_size := lot_size self;
        risk_reward_ratio := risk_reward_ratio self;
        position := 0;
        entry_price := Fin 0;
        trades := trades self;
        contract_size := contract_size self |}, S t)
  else if negb (position self =? 0) then
    let price_diff :=
      if position self =? 1 then (price - entry_price self)%num
      else (entry_price self - price)%num in
    if (price_diff <=? - stop_loss)%num then
      ({| symbol := symbol self;
          balance := balance self;
          lot_size := lot_size self;
          risk_reward_ratio := risk_reward_ratio self;
          position := 0;
          entry_price := entry_price self;
          trades := trades self
                    ++ [closed_trade self price
                          (- stop_loss * lot_size self * contract_size self)%num
                          (now t)];
          contract_size := contract_size self |}, S t)
    else if (price_diff >=? take_profit)%num then
      ({| symbol := symbol self;
          balance := balance self;
          lot_size := lot_size self;
          risk_reward_ratio := risk_reward_ratio self;
          position := 0;
          entry_price := entry_price self;
          trades := trades self
                    ++ [closed_trade self price
                          (take_profit * lot_size self * contract_size self)%num
                          (now t)];
          contract_size := contract_size self |}, S t)
    else (self, t)
  else (self, t).

(** The body of the loop of [run] at index [i]. *)
Definition bar (now : clock) (data : DataFrame) (oversold overbought : num)
    (st : AdaptiveTradingBot * nat) (i : nat) : AdaptiveTradingBot * nat :=
  let current_row := iloc data i in
  let previous_row := iloc data (i - 1) in
  let '(entry_signal, stop_loss, take_profit) :=
    should_enter_trade st.1 current_row previous_row oversold overbought in
  let exit_signal := should_exit_trade st.1 current_row in
  if negb (position st.1 =? 0)
  then execute_trade now st.2 st.1 (current_row "Close") exit_signal
                     stop_loss take_profit
  else execute_trade now st.2 st.1 (current_row "Close") entry_signal
                     stop_loss take_profit.

(** The state after the bars [1 .. upto]. *)
Definition bars (now : clock) (data : DataFrame) (oversold overbought : num)
    (upto : nat) (st : AdaptiveTradingBot * nat) : AdaptiveTradingBot * nat :=
  fold_left (bar now data oversold overbought) (seq 1 upto) st.

Definition run (kmeans : list num -> list num) (now : clock) (h : store)
    (t : nat) (self : AdaptiveTradingBot) (price_data : loc)
  : Outcome AdaptiveTradingBot :=
  match h !! price_data with
  | None => {| final := self; heap := h; ticks := t;
               raised := Some DanglingReference |}
  | Some df =>
      let (h1, c) := copy h df in
      let (h2, e) := calculate_indicators h1 c in
      match e, h2 !! c with
      | None, Some data_with_indicators =>
          match dynamic_rsi_threshold kmeans data_with_indicators with
          | Raise e =>
              {| final := self; heap := h2; ticks := t; raised := Some e |}
          | Ok (oversold, overbought) =>
              let st := bars now data_with_indicators oversold overbought
                             (nrows data_with_indicators - 1) (self, t) in
              {| final := st.1; heap := h2; ticks := st.2; raised := None |}
          end
      | Some e, _ => {| final := self; heap := h2; ticks := t; raised := Some e |}
      | None, None => {| final := self; heap := h2; ticks := t;
                         raised := Some DanglingReference |}
      end
  end.

End Main3.

(** * [main_revised.py]: the refactored fixed-risk bot *)

Module MainRevised.

Record QuantTradingBot := {
  symbol : string;
  balance : num;
  lot_size : num;
  stop_loss : num;
  take_profit : num;
  position : Z;
  entry_price : num;
  trades : list Trade.t
}.

(** [__init__] *)
Definition __init__ (symbol : string)
    (initial_balance lot_size stop_loss take_profit : num)
  : result QuantTradingBot :=
  Ok {| symbol := symbol;
        balance := initial_balance;
        lot_size := lot_size;
        stop_loss := stop_loss;
        take_profit := take_profit;
        position := 0;
        entry_price := Fin 0;
        trades := [] |}.

Definition indicators (data : DataFrame) : DataFrame * option exn :=
  match columns data !! "Close" with
  | None => (data, Some (KeyError "Close"))
  | Some close =>
      let data := set_col "SMA20" (rolling_mean 20 close) data in
      let data := set_col "SMA50" (rolling_mean 50 close) data in
      let avg_gain := ewm_mean 14 true 14 (gains close) in
      let avg_loss := ewm_mean 14 true 14 (losses close) in
      (set_col "RSI" (zip_with_num rsi_of avg_gain avg_loss) data, None)
  end.

Definition calculate_indicators (h : store) (data : loc) : store * option exn :=
  update_frame h data indicators.

Definition should_enter_trade (current previous : Row) : Z :=
  if isna (current "SMA20") || isna (current "SMA50") || isna (current "RSI")
  then 0
  else if (current "SMA20" >? current "SMA50")%num
          && (current "Close" >? current "SMA20")%num
          && (previous "Close" <=? previous "SMA20")%num
          && (current "RSI" <? Fin 70)%num
  then 1
  else if (current "SMA20" <? current "SMA50")%num
          && (current "Close" <? current "SMA20")%num
          && (previous "Close" >=? previous "SMA20")%num
          && (current "RSI" >? Fin 30)%num
  then -1
  else 0.

Definition should_exit_trade (self : QuantTradingBot) (current : Row) : Z :=
  if (position self =? 1)
     && ((current "RSI" >? Fin 70)%num
         || (current "Close" <? current "SMA20")%num)
  then 0
  else if (position self =? -1)
          && ((current "RSI" <? Fin 30)%num
              || (current "Close" >? current "SMA20")%num)
  then 0
  else position self.

(** [_record_trade]: the [print] reads the clock once (reading [t]), the
    dictionary once more (reading [S t]). *)
Definition _record_trade (now : clock) (t : nat) (self : QuantTradingBot)
    (ty : trade_type) (exit_price profit_loss : num) : QuantTradingBot * nat :=
  ({| symbol := symbol self;
      balance := (balance self + profit_loss)%num;
      lot_size := lot_size self;
      stop_loss := stop_loss self;
      take_profit := take_profit self;
      position := 0;
      entry_price := Fin 0;
      trades := trades self
                ++ [{| Trade.symbol := symbol self;
                       Trade.type := Some ty;
                       Trade.entry_price := entry_price self;
                       Trade.exit_price := exit_price;
                       Trade.profit_loss := profit_loss;
                       Trade.lot_size := lot_size self;
                       Trade.timestamp := now (S t) |}] |},
   S (S t)).

Definition execute_trade (now : clock) (t : nat) (self : QuantTradingBot)
    (price : num) (signal : Z) : QuantTradingBot * nat :=
  if (position self =? 0) && negb (signal =? 0) then
    ({| symbol := symbol self;
        balance := balance self;
        lot_size := lot_size self;
        stop_loss := stop_loss self;
        take_profit := take_profit self;
        position := signal;
        entry_price := price;
        trades := trades self |}, S t)
  else if negb (position self =? 0) && (signal =? 0) then
    let profit_loss :=
      if position self =? 1
      then ((price - entry_price self) * lot_size self * Fin 100000)%num
      else ((entry_price self - price) * lot_size self * Fin 100000)%num in
    let ty := if position self =? 1 then CloseLong else CloseShort in
    _record_trade now t self ty price profit_loss
  else if negb (position self =? 0) then
    let price_diff :=
      if position self =? 1 then (price - entry_price self)%num
      else (entry_price self - price)%num in
    if (price_diff <=? - stop_loss self)%num
       || (price_diff >=? take_profit self)%num
    then
      let exit_price :=
        (entry_price self
         + (if (price_diff >=? take_profit self)%num then take_profit self
            else - stop_loss self))%num in
      let profit_loss :=
        if position self =? 1
        then ((exit_price - entry_price self) * lot_size self * Fin 100000)%num
        else ((entry_price self - exit_price) * lot_size self * Fin 100000)%num in
      let ty := if (price_diff >=? take_profit self)%num
                then TakeLong else StopLong in
      let ty := if (position self =? -1)
                   && (price_diff >=? take_profit self)%num
                then TakeShort else ty in
      let ty := if (position self =? -1)
                   && (price_diff <=? - stop_loss self)%num
                then StopShort else ty in
      _record_trade now t self ty exit_price profit_loss
    else (self, t)
  else (self, t).

(** The body of the loop of [run] at index [i]. *)
Definition bar (now : clock) (data : DataFrame)
    (st : QuantTradingBot * nat) (i : nat)
  : QuantTradingBot * nat :=
  if (i =? 0)%nat then st
  else
    let current := iloc data i in
    let previous := iloc data (i - 1) in
    if negb (position st.1 =? 0)
    then execute_trade now st.2 st.1 (current "Close")
                       (should_exit_trade st.1 current)
    else execute_trade now st.2 st.1 (current "Close")
                       (should_enter_trade current previous).

Definition bars (now : clock) (data : DataFrame) (upto : nat)
    (st : QuantTradingBot * nat)
  : QuantTradingBot * nat :=
  fold_left (bar now data) (seq 0 upto) st.

(** [run]: the indicators are computed on the caller's frame itself. *)
Definition run (now : clock) (h : store) (t : nat) (self : QuantTradingBot)
    (price_data : loc) : Outcome QuantTradingBot :=
  let (h1, e) := calculate_indicators h price_data in
  match e, h1 !! price_data with
  | None, Some data =>
      let st := bars now data (nrows data) (self, t) in
      {| final := st.1; heap := h1; ticks := st.2; raised := None |}
  | Some e, _ => {| final := self; heap := h1; ticks := t; raised := Some e |}
  | None, None => {| final := self; heap := h1; ticks := t;
                     raised := Some DanglingReference |}
  end.

End MainRevised.

(** * What one bar may do to the position

    The part of a bot that the position engine is about, common to the
    four variants. *)

Record View := {
  v_position : Z;
  v_entry_price : num;
  v_balance : num;
  v_trades : list Trade.t
}.

(** The steps a bar may take: open a position at the bar's close, close
    the open position (appending at most one record), or leave the
    position state as it is. *)
Inductive transition (close : num) (v v' : View) : Prop :=
  | Opened :
      v_position v = 0 -> v_position v' <> 0 ->
      v_entry_price v' = close ->
      v_trades v' = v_trades v -> v_balance v' = v_balance v ->
      transition close v v'
  | Closed :
      v_position v <> 0 -> v_position v' = 0 ->
      (v_trades v' = v_trades v
       \/ exists tr, v_trades v' = v_trades v ++ [tr]) ->
      transition close v v'
  | Stayed :
      v' = v -> transition close v v'.

(** The balance a ledger accounts for: the profits and losses of its
    records added, in order, to the balance the bot started with. *)
Definition ledger_total (initial_balance : num) (ledger : list Trade.t) : num :=
  fold_left (fun b tr => (b + Trade.profit_loss tr)%num) ledger initial_balance.

(** A record without its wall-clock reading. *)
Definition untimed (tr : Trade.t) : Trade.t :=
  {| Trade.symbol := Trade.symbol tr;
     Trade.type := Trade.type tr;
     Trade.entry_price := Trade.entry_price tr;
     Trade.exit_price := Trade.exit_price tr;
     Trade.profit_loss := Trade.profit_loss tr;
     Trade.lot_size := Trade.lot_size tr;
     Trade.timestamp := 0 |}.

Definition view_main (b : Main.QuantTradingBot) : View :=
  {| v_position := Main.position b; v_entry_price := Main.entry_price b;
     v_balance := Main.balance b; v_trades := Main.trades b |}.

Definition view_main2 (b : Main2.QuantTradingBot) : View :=
  {| v_position := Main2.position b; v_entry_price := Main2.entry_price b;
     v_balance := Main2.balance b; v_trades := Main2.trades b |}.

Definition view_main3 (b : Main3.AdaptiveTradingBot) : View :=
  {| v_position := Main3.position b; v_entry_price := Main3.entry_price b;
     v_balance := Main3.balance b; v_trades := Main3.trades b |}.

Definition view_revised (b : MainRevised.QuantTradingBot) : View :=
  {| v_position := MainRevised.position b;
     v_entry_price := MainRevised.entry_price b;
     v_balance := MainRevised.balance b; v_trades := MainRevised.trades b |}.

(** * Definitions used by the statements *)

(** A bot with the wall-clock readings of its ledger blanked. *)
Definition main_untimed (b : Main.QuantTradingBot) : Main.QuantTradingBot :=
  {| Main.symbol := Main.symbol b;
     Main.balance := Main.balance b;
     Main.lot_size := Main.lot_size b;
     Main.stop_loss := Main.stop_loss b;
     Main.take_profit := Main.take_profit b;
     Main.position := Main.position b;
     Main.entry_price := Main.entry_price b;
     Main.trades := map untimed (Main.trades b) |}.

Definition main2_untimed (b : Main2.QuantTradingBot) : Main2.QuantTradingBot :=
  {| Main2.symbol := Main2.symbol b;
     Main2.balance := Main2.balance b;
     Main2.risk_per_trade := Main2.risk_per_trade b;
     Main2.position := Main2.position b;
     Main2.entry_price := Main2.entry_price b;
     Main2.stop_loss := Main2.stop_loss b;
     Main2.take_profit := Main2.take_profit b;
     Main2.trades := map untimed (Main2.trades b);
     Main2.lot_size := Main2.lot_size b |}.

Definition revised_untimed (b : MainRevised.QuantTradingBot)
  : MainRevised.QuantTradingBot :=
  {| MainRevised.symbol := MainRevised.symbol b;
     MainRevised.balance := MainRevised.balance b;
     MainRevised.lot_size := MainRevised.lot_size b;
     MainRevised.stop_loss := MainRevised.stop_loss b;
     MainRevised.take_profit := MainRevised.take_profit b;
     MainRevised.position := MainRevised.position b;
     MainRevised.entry_price := MainRevised.entry_price b;
     MainRevised.trades := map untimed (MainRevised.trades b) |}.

Definition main3_untimed (b : Main3.AdaptiveTradingBot)
  : Main3.AdaptiveTradingBot :=
  {| Main3.symbol := Main3.symbol b;
     Main3.balance := Main3.balance b;
     Main3.lot_size := Main3.lot_size b;
     Main3.risk_reward_ratio := Main3.risk_reward_ratio b;
     Main3.position := Main3.position b;
     Main3.entry_price := Main3.entry_price b;
     Main3.trades := map untimed (Main3.trades b);
     Main3.contract_size := Main3.contract_size b |}.

(** Values the averages of gains and losses can take: not negative, and
    possibly NaN. *)
Definition nonneg (x : num) : bool := (Fin 0 <=? x)%num.
Definition nonneg_or_nan (x : num) : bool := isna x || nonneg x.

(** The invariant of the state of [ewm_mean] on such values: the running
    mean is not negative and carries a positive weight. *)
Definition ewm_ok (st : ewm_state) : Prop :=
  nonneg (weighted st) = true
  /\ exists o, old_wt st = Fin o /\ (0 < o)%Q.

(** A defined oscillator value within its band. *)
Definition in_band (x : num) : bool := (Fin 0 <=? x)%num && (x <=? Fin 100)%num.

(** ** Concrete inputs *)

(** A wall clock that advances by one at each reading. *)
Definition ticking : clock := fun n => 1700000000 + Z.of_nat n.

Definition close_frame (close : Series) : DataFrame :=
  {| nrows := length close; columns := {[ "Close" := close ]} |}.

(** 53 closes: a zigzag falling from 2.000 to 1.952 over 49 bars, a bounce
    to 1.970, a fall back to 1.950, a further drop to 1.9485, a rise to
    1.960. *)
Definition falling_closes : Series :=
  map (fun i => Fin (Qred (2 - inject_Z (Z.of_nat i) / 1000
                           - (if Nat.even i then 0 else 2 / 1000))))
      (seq 0 49)
  ++ [Fin 1.97; Fin 1.95; Fin 1.9485; Fin 1.96].

Definition falling_frame : DataFrame := close_frame falling_closes.

(** The bots of the [__main__] blocks. *)
Definition main_bot : Main.QuantTradingBot :=
  {| Main.symbol := "EURUSD"; Main.balance := Fin 10000;
     Main.lot_size := Fin 0.01; Main.stop_loss := Fin 0.0005;
     Main.take_profit := Fin 0.001; Main.position := 0;
     Main.entry_price := Fin 0; Main.trades := [] |}.

Definition revised_bot : MainRevised.QuantTradingBot :=
  {| MainRevised.symbol := "EURUSD"; MainRevised.balance := Fin 10000;
     MainRevised.lot_size := Fin 0.01; MainRevised.stop_loss := Fin 0.0005;
     MainRevised.take_profit := Fin 0.001; MainRevised.position := 0;
     MainRevised.entry_price := Fin 0; MainRevised.trades := [] |}.

Definition main2_bot : Main2.QuantTradingBot :=
  {| Main2.symbol := "EURUSD"; Main2.balance := Fin 10000;
     Main2.risk_per_trade := Fin 0.01; Main2.position := 0;
     Main2.entry_price := Fin 0; Main2.stop_loss := Fin 0;
     Main2.take_profit := Fin 0; Main2.trades := [];
     Main2.lot_size := Fin 0.01 |}.

Definition main3_bot : Main3.AdaptiveTradingBot :=
  {| Main3.symbol := "EURUSD"; Main3.balance := Fin 10000;
     Main3.lot_size := Fin 0.01; Main3.risk_reward_ratio := Fin 2;
     Main3.position := 0; Main3.entry_price := Fin 0;
     Main3.trades := []; Main3.contract_size := Fin 100000 |}.

(** Bars with high and low one above and one below the close. *)
Definition hlc_frame (close : list Z) : DataFrame :=
  {| nrows := length close;
     columns := {[ "Close" := map of_Z close;
                   "High" := map (fun c => of_Z (c + 1)) close;
                   "Low" := map (fun c => of_Z (c - 1)) close ]} |}.

(** 22 closes: up from 100 to 105, down to 91, up to 92, then [last]. *)
Definition turning_closes (last : Z) : list Z :=
  [100; 101; 102; 103; 104; 105; 104; 103; 102; 101; 100;
   99; 98; 97; 96; 95; 94; 93; 92; 91; 92; last].

Definition turning_frame (last : Z) : DataFrame :=
  hlc_frame (turning_closes last).

(** A clustering into three groups cut at [cut1] and [cut2]; its centres
    are the means of the groups. *)
Definition cluster_means (cut1 cut2 : num) (samples : list num) : list num :=
  [mean (filter (fun x => (x <? cut1)%num = true) samples);
   mean (filter (fun x => (cut1 <=? x)%num && (x <? cut2)%num = true) samples);
   mean (filter (fun x => (cut2 <=? x)%num = true) samples)].

Definition three_bars : DataFrame := close_frame [Fin 1.1; Fin 1.2; Fin 1.3].

(** A run of [main.py] and the same run made again right after it. *)
Definition first_run : Outcome Main.QuantTradingBot :=
  Main.run ticking [falling_frame] 0 main_bot 0.

Definition second_run : Outcome Main.QuantTradingBot :=
  Main.run ticking (heap first_run) (ticks first_run) main_bot 0.

(** The same zigzag in whole prices, with highs and lows, for [main2.py]. *)
Definition falling_hlc_frame : DataFrame :=
  hlc_frame (map (fun i => 200 - Z.of_nat i - (if Nat.even i then 0 else 2))
                 (seq 0 49)
             ++ [170; 150; 149; 160]).

(** 16 closes rising by one from 100. *)
Definition rising_closes : Series :=
  map (fun i => of_nat (100 + i)) (seq 0 16).

(** The adaptive bot on the turning series ending at 90: the frame with
    indicators and the thresholds of the clustering cut at 10 and 25. *)
Definition turning_data : DataFrame := (Main3.indicators (turning_frame 90)).1.
Definition turning_oversold : num := Fin (110 # 21).
Definition turning_overbought : num := Fin (9350 # 273).

(** The same with the last close at 192. *)
Definition surging_data : DataFrame := (Main3.indicators (turning_frame 192)).1.

Definition turning_after (upto : nat) : Main3.AdaptiveTradingBot :=
  (Main3.bars ticking turning_data turning_oversold turning_overbought upto
              (main3_bot, 0%nat)).1.

(** Frames that lack a column the bots read. *)
Definition open_only : DataFrame :=
  {| nrows := 2; columns := {[ "Open" := [Fin 1.1; Fin 1.2] ]} |}.

Definition close_high : DataFrame :=
  {| nrows := 2;
     columns := {[ "Close" := [Fin 1.1; Fin 1.2];
                   "High" := [Fin 1.15; Fin 1.25] ]} |}.

(** A bot of [main2.py] with another [risk_per_trade]. *)
Definition main2_with_risk (risk : num) (b : Main2.QuantTradingBot)
  : Main2.QuantTradingBot :=
  {| Main2.symbol := Main2.symbol b;
     Main2.balance := Main2.balance b;
     Main2.risk_per_trade := risk;
     Main2.position := Main2.position b;
     Main2.entry_price := Main2.entry_price b;
     Main2.stop_loss := Main2.stop_loss b;
     Main2.take_profit := Main2.take_profit b;
     Main2.trades := Main2.trades b;
     Main2.lot_size := Main2.lot_size b |}.

(** The bot of [main_revised.py] in the state of a bot of [main.py]. *)
Definition as_revised (b : Main.QuantTradingBot) : MainRevised.QuantTradingBot :=
  {| MainRevised.symbol := Main.symbol b;
     MainRevised.balance := Main.balance b;
     MainRevised.lot_size := Main.lot_size b;
     MainRevised.stop_loss := Main.stop_loss b;
     MainRevised.take_profit := Main.take_profit b;
     MainRevised.position := Main.position b;
     MainRevised.entry_price := Main.entry_price b;
     MainRevised.trades := Main.trades b |}.

(** The ledger [ledger'] is [ledger] with records added whose timestamps
    are readings of the clock taken from reading [t] on and before reading
    [t'], a later record carrying a later reading. *)
Definition stamped_between (now : clock) (t t' : nat)
    (ledger ledger' : list Trade.t) : Prop :=
  exists (new : list Trade.t) (ks : list nat),
    ledger' = ledger ++ new
    /\ map Trade.timestamp new = map now ks
    /\ Forall (fun k => (t <= k < t')%nat) ks
    /\ forall i j ki kj, (i < j)%nat -> ks !! i = Some ki -> ks !! j = Some kj ->
                         (ki < kj)%nat.

(** * Lemmas *)

(** ** Series and frame lemmas *)

Lemma at_lookup (s : Series) i : at_ s i = default NaN (s !! i).
Proof. unfold at_. apply nth_lookup. Qed.

Lemma map_fmap {A B} (f : A -> B) (l : list A) : map f l = f <$> l.
Proof. induction l; simpl; by f_equal. Qed.

Lemma rolling_mean_length w s : length (rolling_mean w s) = length s.
Proof. unfold rolling_mean. by rewrite length_map, length_seq. Qed.

Lemma rolling_mean_at w s i :
  (i < length s)%nat ->
  at_ (rolling_mean w s) i =
    if (S i <? w)%nat then NaN
    else if forallb is_finite (window w i s) then mean (window w i s) else NaN.
Proof.
  intros Hi. rewrite at_lookup. unfold rolling_mean.
  rewrite map_fmap, list_lookup_fmap, lookup_seq_lt by done. done.
Qed.

(** Before [w] values are seen the rolling mean is undefined. *)
Lemma rolling_mean_warmup w s i :
  (S i < w)%nat -> at_ (rolling_mean w s) i = NaN.
Proof.
  intros Hw. destruct (decide (i < length s)%nat) as [Hi|Hi].
  - rewrite rolling_mean_at by done.
    by destruct (Nat.ltb_spec (S i) w); [|lia].
  - rewrite at_lookup, lookup_ge_None_2; [done|].
    rewrite rolling_mean_length. lia.
Qed.

Lemma iloc_set_col_eq c s df i : iloc (set_col c s df) i c = at_ s i.
Proof. unfold iloc, set_col; simpl. by rewrite lookup_insert_eq. Qed.

Lemma iloc_set_col_ne c c' s df i :
  c <> c' -> iloc (set_col c s df) i c' = iloc df i c'.
Proof. intros Hc. unfold iloc, set_col; simpl. by rewrite lookup_insert_ne. Qed.

Lemma nrows_set_col c s df : nrows (set_col c s df) = nrows df.
Proof. done. Qed.

Lemma main_sma50 df close i :
  columns df !! "Close" = Some close ->
  iloc (Main.indicators df).1 i "SMA50" = at_ (rolling_mean 50 close) i.
Proof.
  intros Hc. unfold Main.indicators. rewrite Hc. simpl.
  rewrite iloc_set_col_ne by done. by rewrite iloc_set_col_eq.
Qed.

Lemma main_no_entry_before_50 df close i :
  columns df !! "Close" = Some close -> (S i < 50)%nat ->
  Main.should_enter_trade (iloc (Main.indicators df).1 i)
                          (iloc (Main.indicators df).1 (i - 1)) = 0.
Proof.
  intros Hc Hi. unfold Main.should_enter_trade.
  rewrite (main_sma50 _ _ _ Hc), rolling_mean_warmup by done.
  simpl. by rewrite orb_true_r.
Qed.

Lemma main_flat_no_signal now t self price :
  Main.position self = 0 -> Main.execute_trade now t self price 0 = (self, t).
Proof. intros H. unfold Main.execute_trade. by rewrite H. Qed.

Lemma main_bars_short now df close k self t :
  columns df !! "Close" = Some close -> (k < 50)%nat ->
  Main.position self = 0 ->
  Main.bars now (Main.indicators df).1 k (self, t) = (self, t).
Proof.
  intros Hc Hk Hp. unfold Main.bars. induction k as [|k IH]; [done|].
  rewrite seq_S, fold_left_app, IH by lia. simpl.
  unfold Main.bar. destruct (k =? 0)%nat; [done|]. simpl.
  rewrite Hp. simpl. rewrite (main_no_entry_before_50 _ _ _ Hc) by lia.
  by apply main_flat_no_signal.
Qed.

Lemma copy_lookup_old (h : store) df l :
  (l < length h)%nat -> (copy h df).1 !! l = h !! l.
Proof. intros. simpl. by rewrite lookup_app_l. Qed.

Lemma update_frame_copy h df f :
  update_frame (h ++ [df]) (length h) f = (h ++ [(f df).1], (f df).2).
Proof.
  unfold update_frame. rewrite lookup_app_r, Nat.sub_diag by done. simpl.
  destruct (f df) as [df' e]. simpl. f_equal.
  rewrite insert_app_r_alt, Nat.sub_diag by done. done.
Qed.

Lemma main_run_unfold now h t self pd df :
  h !! pd = Some df ->
  Main.run now h t self pd =
    match (Main.indicators df).2 with
    | None =>
        let st := Main.bars now (Main.indicators df).1
                            (nrows (Main.indicators df).1) (self, t) in
        {| final := st.1; heap := h ++ [(Main.indicators df).1];
           ticks := st.2; raised := None |}
    | Some e => {| final := self; heap := h ++ [(Main.indicators df).1];
                   ticks := t; raised := Some e |}
    end.
Proof.
  intros Hdf. unfold Main.run. rewrite Hdf. unfold copy, Main.calculate_indicators.
  rewrite update_frame_copy.
  destruct (Main.indicators df).2; [done|].
  rewrite lookup_app_r, Nat.sub_diag by done. done.
Qed.

Lemma main_indicators_nrows df : nrows (Main.indicators df).1 = nrows df.
Proof. unfold Main.indicators. by destruct (columns df !! "Close"). Qed.

Lemma main_indicators_raise df :
  (Main.indicators df).2 = None <-> is_Some (columns df !! "Close").
Proof.
  unfold Main.indicators. destruct (columns df !! "Close"); simpl.
  - split; eauto.
  - split; [done|]. by intros [? ?].
Qed.

Lemma main_short_series now h t self pd df :
  h !! pd = Some df -> (nrows df < 50)%nat -> Main.position self = 0 ->
  final (Main.run now h t self pd) = self.
Proof.
  intros Hdf Hn Hp. rewrite (main_run_unfold _ _ _ _ _ _ Hdf).
  destruct (Main.indicators df).2 eqn:He; [done|]. simpl.
  apply main_indicators_raise in He as [close Hc].
  rewrite main_indicators_nrows, (main_bars_short _ _ _ _ _ _ Hc) by done. done.
Qed.

(** ** The same for the other variants *)

Ltac iloc_cols :=
  repeat (rewrite iloc_set_col_ne by done); rewrite ?iloc_set_col_eq.

Lemma main2_indicators_ok df data :
  Main2.indicators df = (data, None) ->
  nrows data = nrows df /\
  exists close, columns df !! "Close" = Some close /\
    forall i, iloc data i "SMA50" = at_ (rolling_mean 50 close) i.
Proof.
  unfold Main2.indicators.
  destruct (columns df !! "Close") as [close|]; [|done]. cbv zeta.
  repeat case_match; try done. intros [= <-]. split; [done|].
  exists close. split; [done|]. intros i. by iloc_cols.
Qed.

Lemma main2_flat_no_signal now t self price lot :
  Main2.position self = 0 ->
  Main2.execute_trade now t self price 0 lot = (self, t).
Proof. intros H. unfold Main2.execute_trade. by rewrite H. Qed.

Lemma main2_bars_short now df data k self t :
  Main2.indicators df = (data, None) -> (S k < 50)%nat ->
  Main2.position self = 0 ->
  Main2.bars now data k (self, t) = (self, t).
Proof.
  intros Hd Hk Hp. apply main2_indicators_ok in Hd as (_ & close & _ & Hs).
  unfold Main2.bars. induction k as [|k IH]; [done|].
  rewrite seq_S, fold_left_app, IH by lia. simpl.
  unfold Main2.bar, Main2.should_enter_trade. simpl.
  rewrite Hs, rolling_mean_warmup by lia. simpl. rewrite orb_true_r, Hp. simpl.
  by apply main2_flat_no_signal.
Qed.

Lemma main2_run_unfold now h t self pd df :
  h !! pd = Some df ->
  Main2.run now h t self pd =
    match (Main2.indicators df).2 with
    | None =>
        let st := Main2.bars now (Main2.indicators df).1
                             (nrows (Main2.indicators df).1 - 1) (self, t) in
        {| final := st.1; heap := h ++ [(Main2.indicators df).1];
           ticks := st.2; raised := None |}
    | Some e => {| final := self; heap := h ++ [(Main2.indicators df).1];
                   ticks := t; raised := Some e |}
    end.
Proof.
  intros Hdf. unfold Main2.run. rewrite Hdf.
  unfold copy, Main2.calculate_indicators. rewrite update_frame_copy.
  destruct (Main2.indicators df).2; [done|].
  rewrite lookup_app_r, Nat.sub_diag by done. done.
Qed.

Lemma main2_short_series now h t self pd df :
  h !! pd = Some df -> (nrows df < 50)%nat -> Main2.position self = 0 ->
  final (Main2.run now h t self pd) = self.
Proof.
  intros Hdf Hn Hp. rewrite (main2_run_unfold _ _ _ _ _ _ Hdf).
  destruct (Main2.indicators df) as [data [e|]] eqn:Hd; [done|]. simpl.
  destruct (main2_indicators_ok _ _ Hd) as [Hr _].
  rewrite (main2_bars_short _ _ _ _ _ _ Hd) by (done || lia). done.
Qed.

Lemma main3_indicators_ok df data :
  Main3.indicators df = (data, None) ->
  nrows data = nrows df /\
  exists close, columns df !! "Close" = Some close /\
    forall i, iloc data i "SMA" = at_ (rolling_mean 20 close) i.
Proof.
  unfold Main3.indicators.
  destruct (columns df !! "Close") as [close|]; [|done]. cbv zeta.
  repeat case_match; try done. intros [= <-]. split; [done|].
  exists close. split; [done|]. intros i. by iloc_cols.
Qed.

Lemma main3_flat_no_signal now t self price sl tp :
  Main3.position self = 0 ->
  Main3.execute_trade now t self price 0 sl tp = (self, t).
Proof. intros H. unfold Main3.execute_trade. by rewrite H. Qed.

Lemma main3_bars_short now df data oversold overbought k self t :
  Main3.indicators df = (data, None) -> (S k < 20)%nat ->
  Main3.position self = 0 ->
  Main3.bars now data oversold overbought k (self, t) = (self, t).
Proof.
  intros Hd Hk Hp. apply main3_indicators_ok in Hd as (_ & close & _ & Hs).
  unfold Main3.bars. induction k as [|k IH]; [done|].
  rewrite seq_S, fold_left_app, IH by lia. simpl.
  unfold Main3.bar, Main3.should_enter_trade. simpl.
  rewrite Hs, rolling_mean_warmup by lia. simpl. rewrite Hp. simpl.
  by apply main3_flat_no_signal.
Qed.

Lemma main3_run_unfold kmeans now h t self pd df :
  h !! pd = Some df ->
  Main3.run kmeans now h t self pd =
    match (Main3.indicators df).2 with
    | None =>
        match Main3.dynamic_rsi_threshold kmeans (Main3.indicators df).1 with
        | Raise e => {| final := self; heap := h ++ [(Main3.indicators df).1];
                        ticks := t; raised := Some e |}
        | Ok (oversold, overbought) =>
            let st := Main3.bars now (Main3.indicators df).1 oversold overbought
                                 (nrows (Main3.indicators df).1 - 1) (self, t) in
            {| final := st.1; heap := h ++ [(Main3.indicators df).1];
               ticks := st.2; raised := None |}
        end
    | Some e => {| final := self; heap := h ++ [(Main3.indicators df).1];
                   ticks := t; raised := Some e |}
    end.
Proof.
  intros Hdf. unfold Main3.run. rewrite Hdf.
  unfold copy, Main3.calculate_indicators. rewrite update_frame_copy.
  destruct (Main3.indicators df).2; [done|].
  rewrite lookup_app_r, Nat.sub_diag by done. done.
Qed.

Lemma main3_short_series kmeans now h t self pd df :
  h !! pd = Some df -> (nrows df < 20)%nat -> Main3.position self = 0 ->
  final (Main3.run kmeans now h t self pd) = self.
Proof.
  intros Hdf Hn Hp. rewrite (main3_run_unfold _ _ _ _ _ _ _ Hdf).
  destruct (Main3.indicators df) as [data [e|]] eqn:Hd; [done|]. simpl.
  destruct (Main3.dynamic_rsi_threshold kmeans data) as [[lo hi]|e]; [|done].
  destruct (main3_indicators_ok _ _ Hd) as [Hr _]. simpl.
  rewrite (main3_bars_short _ _ _ _ _ _ _ _ Hd) by (done || lia). done.
Qed.

Lemma revised_indicators_ok df data :
  MainRevised.indicators df = (data, None) ->
  nrows data = nrows df /\
  exists close, columns df !! "Close" = Some close /\
    forall i, iloc data i "SMA50" = at_ (rolling_mean 50 close) i.
Proof.
  unfold MainRevised.indicators.
  destruct (columns df !! "Close") as [close|]; [|done]. cbv zeta.
  intros [= <-]. split; [done|].
  exists close. split; [done|]. intros i. by iloc_cols.
Qed.

Lemma revised_flat_no_signal now t self price :
  MainRevised.position self = 0 ->
  MainRevised.execute_trade now t self price 0 = (self, t).
Proof. intros H. unfold MainRevised.execute_trade. by rewrite H. Qed.

Lemma revised_bars_short now df data k self t :
  MainRevised.indicators df = (data, None) -> (k < 50)%nat ->
  MainRevised.position self = 0 ->
  MainRevised.bars now data k (self, t) = (self, t).
Proof.
  intros Hd Hk Hp. apply revised_indicators_ok in Hd as (_ & close & _ & Hs).
  unfold MainRevised.bars. induction k as [|k IH]; [done|].
  rewrite seq_S, fold_left_app, IH by lia. simpl.
  unfold MainRevised.bar. destruct (k =? 0)%nat; [done|]. simpl.
  rewrite Hp. simpl. unfold MainRevised.should_enter_trade.
  rewrite Hs, rolling_mean_warmup by lia. simpl. rewrite orb_true_r.
  by apply revised_flat_no_signal.
Qed.

Lemma revised_run_unfold now h t self pd df :
  h !! pd = Some df ->
  MainRevised.run now h t self pd =
    match (MainRevised.indicators df).2 with
    | None =>
        let st := MainRevised.bars now (MainRevised.indicators df).1
                    (nrows (MainRevised.indicators df).1) (self, t) in
        {| final := st.1; heap := <[pd := (MainRevised.indicators df).1]> h;
           ticks := st.2; raised := None |}
    | Some e => {| final := self;
                   heap := <[pd := (MainRevised.indicators df).1]> h;
                   ticks := t; raised := Some e |}
    end.
Proof.
  intros Hdf.
  unfold MainRevised.run, MainRevised.calculate_indicators, update_frame.
  rewrite Hdf. destruct (MainRevised.indicators df) as [data e]. simpl.
  destruct e; [done|].
  rewrite list_lookup_insert_eq by (by eapply lookup_lt_Some). done.
Qed.

Lemma revised_short_series now h t self pd df :
  h !! pd = Some df -> (nrows df < 50)%nat -> MainRevised.position self = 0 ->
  final (MainRevised.run now h t self pd) = self.
Proof.
  intros Hdf Hn Hp. rewrite (revised_run_unfold _ _ _ _ _ _ Hdf).
  destruct (MainRevised.indicators df) as [data [e|]] eqn:Hd; [done|]. simpl.
  destruct (revised_indicators_ok _ _ Hd) as [Hr _].
  rewrite (revised_bars_short _ _ _ _ _ _ Hd) by (done || lia). done.
Qed.

(** ** One transition per bar *)

Lemma ledger_total_snoc b l tr :
  ledger_total b (l ++ [tr]) = (ledger_total b l + Trade.profit_loss tr)%num.
Proof. unfold ledger_total. by rewrite fold_left_app. Qed.

(** Closes a goal [transition _ _ _] whose two views are computed. *)
Ltac pick_transition :=
  simpl;
  first [ by apply Stayed
        | by apply Opened
        | by apply Closed; simpl; eauto ].

Lemma main_execute_transition now t self price signal :
  transition price (view_main self)
             (view_main (Main.execute_trade now t self price signal).1).
Proof.
  unfold Main.execute_trade, Main.close.
  destruct (Z.eqb_spec (Main.position self) 0);
    destruct (Z.eqb_spec signal 0); simpl; try pick_transition.
  repeat case_match; pick_transition.
Qed.

Lemma main_bar_transition now data st i :
  transition (iloc data i "Close") (view_main st.1)
             (view_main (Main.bar now data st i).1).
Proof.
  unfold Main.bar. destruct (i =? 0)%nat; [by apply Stayed|].
  destruct (negb _); apply main_execute_transition.
Qed.

Lemma main2_execute_transition now t self price signal lot :
  transition price (view_main2 self)
             (view_main2 (Main2.execute_trade now t self price signal lot).1).
Proof.
  unfold Main2.execute_trade.
  destruct (Z.eqb_spec (Main2.position self) 0);
    destruct (Z.eqb_spec signal 0); simpl; try pick_transition;
    case_match; pick_transition.
Qed.

Lemma main2_bar_transition now data st i :
  transition (iloc data i "Close") (view_main2 st.1)
             (view_main2 (Main2.bar now data st i).1).
Proof.
  unfold Main2.bar.
  destruct (Main2.should_enter_trade _ _ _) as [sig lot].
  destruct (Main2.position st.1 =? 0); apply main2_execute_transition.
Qed.

Lemma revised_execute_transition now t self price signal :
  transition price (view_revised self)
             (view_revised (MainRevised.execute_trade now t self price signal).1).
Proof.
  unfold MainRevised.execute_trade, MainRevised._record_trade.
  destruct (Z.eqb_spec (MainRevised.position self) 0);
    destruct (Z.eqb_spec signal 0); simpl; try pick_transition.
  case_match; pick_transition.
Qed.

Lemma revised_bar_transition now data st i :
  transition (iloc data i "Close") (view_revised st.1)
             (view_revised (MainRevised.bar now data st i).1).
Proof.
  unfold MainRevised.bar. destruct (i =? 0)%nat; [by apply Stayed|].
  destruct (negb _); apply revised_execute_transition.
Qed.

Lemma main3_execute_transition now t self price signal sl tp :
  transition price (view_main3 self)
             (view_main3 (Main3.execute_trade now t self price signal sl tp).1).
Proof.
  unfold Main3.execute_trade.
  destruct (Z.eqb_spec (Main3.position self) 0);
    destruct (Z.eqb_spec signal 0); simpl; try pick_transition.
  repeat case_match; pick_transition.
Qed.

Lemma main3_bar_transition now data lo hi st i :
  transition (iloc data i "Close") (view_main3 st.1)
             (view_main3 (Main3.bar now data lo hi st i).1).
Proof.
  unfold Main3.bar.
  destruct (Main3.should_enter_trade _ _ _ _ _) as [[sig sl] tp].
  destruct (negb _); apply main3_execute_transition.
Qed.

(** C6: a bar makes at most one transition: it opens a position, or
    closes the open one, or leaves the position state as it is; a bar that
    opens a position (flat before, not flat after) appends no record and
    leaves the balance alone, so it does not close what it opened.  For
    the loop bodies of [main.py], [main2.py] and [main_revised.py], and
    for [main3.py] as well. *)
Theorem one_transition_per_bar :
  (forall now data st i,
      transition (iloc data i "Close") (view_main st.1)
                 (view_main (Main.bar now data st i).1))
  /\ (forall now data st i,
      transition (iloc data i "Close") (view_main2 st.1)
                 (view_main2 (Main2.bar now data st i).1))
  /\ (forall now data st i,
      transition (iloc data i "Close") (view_revised st.1)
                 (view_revised (MainRevised.bar now data st i).1))
  /\ (forall now data oversold overbought st i,
      transition (iloc data i "Close") (view_main3 st.1)
                 (view_main3 (Main3.bar now data oversold overbought st i).1)).
Proof.
  split; [|split; [|split]]; intros.
  - apply main_bar_transition.
  - apply main2_bar_transition.
  - apply revised_bar_transition.
  - apply main3_bar_transition.
Qed.

(** ** [main.py]: the balance is the total of the ledger *)

(** What one call of [execute_trade] does to balance and ledger: nothing,
    or one record appended and its profit or loss added. *)
Lemma main_execute_accounts now t self price signal :
  let self' := (Main.execute_trade now t self price signal).1 in
  (Main.trades self' = Main.trades self
   /\ Main.balance self' = Main.balance self
   /\ (Main.position self = 0 \/ Main.position self' = Main.position self))
  \/ (exists tr,
        Main.position self <> 0 /\ Main.position self' = 0
        /\ Main.trades self' = Main.trades self ++ [tr]
        /\ Main.balance self' = (Main.balance self + Trade.profit_loss tr)%num).
Proof.
  unfold Main.execute_trade, Main.close.
  destruct (Z.eqb_spec (Main.position self) 0);
    destruct (Z.eqb_spec signal 0); simpl; eauto 10.
  repeat case_match; simpl; eauto 10.
Qed.

Lemma main_bars_S now data k st :
  Main.bars now data (S k) st = Main.bar now data (Main.bars now data k st) k.
Proof. unfold Main.bars. by rewrite seq_S, fold_left_app. Qed.

Lemma main_bar_ledger now data st i b0 :
  Main.balance st.1 = ledger_total b0 (Main.trades st.1) ->
  Main.balance (Main.bar now data st i).1
  = ledger_total b0 (Main.trades (Main.bar now data st i).1).
Proof.
  intros Hinv. unfold Main.bar. destruct (i =? 0)%nat; [done|].
  destruct (negb _);
    match goal with
    | |- context [Main.execute_trade ?n ?t ?s ?p ?g] =>
        destruct (main_execute_accounts n t s p g)
          as [(Ht & Hb & _)|(tr & _ & _ & Ht & Hb)]
    end; rewrite Ht, Hb, ?ledger_total_snoc; congruence.
Qed.

Lemma main_bars_ledger now data k st b0 :
  Main.balance st.1 = ledger_total b0 (Main.trades st.1) ->
  Main.balance (Main.bars now data k st).1
  = ledger_total b0 (Main.trades (Main.bars now data k st).1).
Proof.
  intros Hinv. induction k as [|k IH]; [done|].
  rewrite main_bars_S. by apply main_bar_ledger.
Qed.

(** After every run of [main.py] from a bot whose balance accounts for its
    ledger (a new bot does), the final balance accounts for the final
    ledger. *)
Lemma main_run_balance_is_ledger_total now h t self pd b0 :
  Main.balance self = ledger_total b0 (Main.trades self) ->
  let out := Main.run now h t self pd in
  Main.balance (final out) = ledger_total b0 (Main.trades (final out)).
Proof.
  intros Hinv. simpl. destruct (h !! pd) as [df|] eqn:Hdf.
  - rewrite (main_run_unfold _ _ _ _ _ _ Hdf).
    destruct (Main.indicators df).2; [done|]. by apply main_bars_ledger.
  - unfold Main.run. by rewrite Hdf.
Qed.

(** ** [main2.py]: thresholds stay at zero, positions last one bar *)

Lemma main2_bars_S now data k st :
  Main2.bars now data (S k) st
  = Main2.bar now data (Main2.bars now data k st) (S k).
Proof. unfold Main2.bars. by rewrite seq_S, fold_left_app. Qed.

Lemma main2_execute_thresholds now t self price signal lot :
  Main2.stop_loss (Main2.execute_trade now t self price signal lot).1
  = Main2.stop_loss self
  /\ Main2.take_profit (Main2.execute_trade now t self price signal lot).1
     = Main2.take_profit self.
Proof. unfold Main2.execute_trade. by repeat case_match. Qed.

Lemma main2_bar_thresholds now data st i :
  Main2.stop_loss (Main2.bar now data st i).1 = Main2.stop_loss st.1
  /\ Main2.take_profit (Main2.bar now data st i).1 = Main2.take_profit st.1.
Proof.
  unfold Main2.bar. destruct (Main2.should_enter_trade _ _ _).
  case_match; apply main2_execute_thresholds.
Qed.

Lemma main2_bars_thresholds now data k st :
  Main2.stop_loss (Main2.bars now data k st).1 = Main2.stop_loss st.1
  /\ Main2.take_profit (Main2.bars now data k st).1 = Main2.take_profit st.1.
Proof.
  induction k as [|k [IHs IHt]]; [done|]. rewrite main2_bars_S.
  destruct (main2_bar_thresholds now data (Main2.bars now data k st) (S k)).
  split; congruence.
Qed.

Lemma nge_zero_pos q : (0 < q)%Q -> (Fin q >=? Fin 0)%num = true.
Proof. intros Hq. simpl. apply Qle_bool_iff. lra. Qed.

Lemma main2_bar_closes now data st i q :
  Main2.position st.1 <> 0 ->
  Main2.take_profit st.1 = Fin 0 ->
  iloc data i "Close" = Fin q -> (0 < q)%Q ->
  Main2.position (Main2.bar now data st i).1 = 0
  /\ exists tr, Main2.trades (Main2.bar now data st i).1
                = Main2.trades st.1 ++ [tr]
                /\ Trade.exit_price tr = Fin q.
Proof.
  intros Hp Htp Hc Hq. unfold Main2.bar.
  destruct (Main2.should_enter_trade _ _ _) as [sig lot].
  destruct (Z.eqb_spec (Main2.position st.1) 0) as [|_]; [done|].
  unfold Main2.execute_trade.
  destruct (Z.eqb_spec (Main2.position st.1) 0) as [|_]; [done|]. simpl.
  rewrite Hc, Htp, nge_zero_pos by done. simpl. eauto.
Qed.

(** C10: in [main2.py] the stop-loss and the take-profit of a bot that was
    built stay 0 through every bar; so when a position is open after bar
    [k] and bar [k+1] has a positive close, the exit test
    [close >= take_profit] holds there and the position is closed at bar
    [k+1], the record holding that bar's close as exit price. *)
Theorem no_stop_loss_bot_closes_at_next_bar
    now data symbol initial_balance risk_per_trade self t k :
  Main2.__init__ symbol initial_balance risk_per_trade = Ok self ->
  let st := Main2.bars now data k (self, t) in
  Main2.stop_loss st.1 = Fin 0
  /\ Main2.take_profit st.1 = Fin 0
  /\ forall q,
       Main2.position st.1 <> 0 ->
       iloc data (S k) "Close" = Fin q -> (0 < q)%Q ->
       let st' := Main2.bars now data (S k) (self, t) in
       (iloc data (S k) "Close" >=? Main2.take_profit st.1)%num = true
       /\ Main2.position st'.1 = 0
       /\ exists tr, Main2.trades st'.1 = Main2.trades st.1 ++ [tr]
                     /\ Trade.exit_price tr = iloc data (S k) "Close".
Proof.
  intros [= <-] st.
  destruct (main2_bars_thresholds now data k
              ({| Main2.symbol := symbol; Main2.balance := initial_balance;
                  Main2.risk_per_trade := risk_per_trade;
                  Main2.position := 0; Main2.entry_price := Fin 0;
                  Main2.stop_loss := Fin 0; Main2.take_profit := Fin 0;
                  Main2.trades := []; Main2.lot_size := Fin 0.01 |}, t))
    as [Hs Ht].
  simpl in Hs, Ht. split; [done|]. split; [done|].
  intros q Hp Hc Hq st'. subst st st'. rewrite main2_bars_S.
  rewrite Ht, Hc. split; [by apply nge_zero_pos|].
  by apply main2_bar_closes.
Qed.

(** ** The clock only reaches the timestamps *)

Lemma main_execute_untimed now1 now2 t1 t2 s1 s2 price signal :
  main_untimed s1 = main_untimed s2 ->
  main_untimed (Main.execute_trade now1 t1 s1 price signal).1
  = main_untimed (Main.execute_trade now2 t2 s2 price signal).1.
Proof.
  destruct s1, s2. unfold main_untimed. simpl. intros [= -> -> -> -> -> -> -> Htr].
  unfold Main.execute_trade, Main.close. simpl.
  repeat case_match; simpl; rewrite ?map_app, ?Htr; done.
Qed.

Lemma main_untimed_position s1 s2 :
  main_untimed s1 = main_untimed s2 -> Main.position s1 = Main.position s2.
Proof. intros H. by apply (f_equal Main.position) in H. Qed.

Lemma main_bar_untimed now1 now2 data i st1 st2 :
  main_untimed st1.1 = main_untimed st2.1 ->
  main_untimed (Main.bar now1 data st1 i).1
  = main_untimed (Main.bar now2 data st2 i).1.
Proof.
  intros H. unfold Main.bar. destruct (i =? 0)%nat; [done|].
  unfold Main.should_exit_trade.
  rewrite (main_untimed_position _ _ H).
  destruct (negb _); by apply main_execute_untimed.
Qed.

Lemma main_bars_untimed now1 now2 data k st1 st2 :
  main_untimed st1.1 = main_untimed st2.1 ->
  main_untimed (Main.bars now1 data k st1).1
  = main_untimed (Main.bars now2 data k st2).1.
Proof.
  intros H. induction k as [|k IH]; [done|].
  rewrite !main_bars_S. by apply main_bar_untimed.
Qed.

(** [run] leaves every object of the caller's store as it was. *)
Lemma main_run_keeps_store now h t self pd l :
  (l < length h)%nat -> heap (Main.run now h t self pd) !! l = h !! l.
Proof.
  intros Hl. destruct (h !! pd) as [df|] eqn:Hdf.
  - rewrite (main_run_unfold _ _ _ _ _ _ Hdf).
    destruct (Main.indicators df).2; simpl; by rewrite lookup_app_l.
  - unfold Main.run. by rewrite Hdf.
Qed.

Lemma main_run_untimed now1 now2 h1 h2 t1 t2 self pd :
  h1 !! pd = h2 !! pd ->
  main_untimed (final (Main.run now1 h1 t1 self pd))
  = main_untimed (final (Main.run now2 h2 t2 self pd)).
Proof.
  intros Hh. destruct (h1 !! pd) as [df|] eqn:Hdf.
  - rewrite (main_run_unfold _ h1 _ _ _ _ Hdf).
    rewrite (main_run_unfold _ h2 _ _ _ df) by done.
    destruct (Main.indicators df).2; [done|]. by apply main_bars_untimed.
  - unfold Main.run. by rewrite Hdf, <- Hh.
Qed.

Lemma main3_execute_untimed now1 now2 t1 t2 s1 s2 price signal sl tp :
  main3_untimed s1 = main3_untimed s2 ->
  main3_untimed (Main3.execute_trade now1 t1 s1 price signal sl tp).1
  = main3_untimed (Main3.execute_trade now2 t2 s2 price signal sl tp).1.
Proof.
  destruct s1, s2. unfold main3_untimed. simpl. intros [= -> -> -> -> -> -> Htr ->].
  unfold Main3.execute_trade. simpl.
  repeat case_match; simpl; rewrite ?map_app, ?Htr; done.
Qed.

Lemma main3_bars_S now data lo hi k st :
  Main3.bars now data lo hi (S k) st
  = Main3.bar now data lo hi (Main3.bars now data lo hi k st) (S k).
Proof. unfold Main3.bars. by rewrite seq_S, fold_left_app. Qed.

Lemma main3_signals_untimed s1 s2 current previous lo hi :
  main3_untimed s1 = main3_untimed s2 ->
  Main3.should_enter_trade s1 current previous lo hi
  = Main3.should_enter_trade s2 current previous lo hi
  /\ Main3.should_exit_trade s1 current = Main3.should_exit_trade s2 current
  /\ Main3.position s1 = Main3.position s2.
Proof.
  intros H. unfold Main3.should_enter_trade, Main3.should_exit_trade.
  rewrite (f_equal Main3.position H : Main3.position s1 = Main3.position s2).
  by rewrite (f_equal Main3.risk_reward_ratio H
               : Main3.risk_reward_ratio s1 = Main3.risk_reward_ratio s2).
Qed.

Lemma main3_bar_untimed now1 now2 data lo hi i st1 st2 :
  main3_untimed st1.1 = main3_untimed st2.1 ->
  main3_untimed (Main3.bar now1 data lo hi st1 i).1
  = main3_untimed (Main3.bar now2 data lo hi st2 i).1.
Proof.
  intros H. unfold Main3.bar.
  destruct (main3_signals_untimed st1.1 st2.1 (iloc data i)
              (iloc data (i - 1)) lo hi H) as (-> & -> & ->).
  destruct (Main3.should_enter_trade _ _ _ _ _) as [[sig sl] tp].
  destruct (negb _); by apply main3_execute_untimed.
Qed.

Lemma main3_bars_untimed now1 now2 data lo hi k st1 st2 :
  main3_untimed st1.1 = main3_untimed st2.1 ->
  main3_untimed (Main3.bars now1 data lo hi k st1).1
  = main3_untimed (Main3.bars now2 data lo hi k st2).1.
Proof.
  intros H. induction k as [|k IH]; [done|].
  rewrite !main3_bars_S. by apply main3_bar_untimed.
Qed.

Lemma main3_run_keeps_store kmeans now h t self pd l :
  (l < length h)%nat -> heap (Main3.run kmeans now h t self pd) !! l = h !! l.
Proof.
  intros Hl. destruct (h !! pd) as [df|] eqn:Hdf.
  - rewrite (main3_run_unfold _ _ _ _ _ _ _ Hdf).
    repeat case_match; simpl; by rewrite lookup_app_l.
  - unfold Main3.run. by rewrite Hdf.
Qed.

Lemma main3_run_untimed kmeans now1 now2 h1 h2 t1 t2 self pd :
  h1 !! pd = h2 !! pd ->
  main3_untimed (final (Main3.run kmeans now1 h1 t1 self pd))
  = main3_untimed (final (Main3.run kmeans now2 h2 t2 self pd)).
Proof.
  intros Hh. destruct (h1 !! pd) as [df|] eqn:Hdf.
  - rewrite (main3_run_unfold _ _ h1 _ _ _ _ Hdf).
    rewrite (main3_run_unfold _ _ h2 _ _ _ df) by done.
    repeat case_match; try done. by apply main3_bars_untimed.
  - unfold Main3.run. by rewrite Hdf, <- Hh.
Qed.

Lemma main2_execute_untimed now1 now2 t1 t2 s1 s2 price signal lot :
  main2_untimed s1 = main2_untimed s2 ->
  main2_untimed (Main2.execute_trade now1 t1 s1 price signal lot).1
  = main2_untimed (Main2.execute_trade now2 t2 s2 price signal lot).1.
Proof.
  destruct s1, s2. unfold main2_untimed. simpl.
  intros [= -> -> -> -> -> -> -> Htr ->].
  unfold Main2.execute_trade. simpl.
  repeat case_match; simpl; rewrite ?map_app, ?Htr; done.
Qed.

Lemma main2_bar_untimed now1 now2 data i st1 st2 :
  main2_untimed st1.1 = main2_untimed st2.1 ->
  main2_untimed (Main2.bar now1 data st1 i).1
  = main2_untimed (Main2.bar now2 data st2 i).1.
Proof.
  intros H. unfold Main2.bar, Main2.should_enter_trade.
  rewrite (f_equal Main2.position H : Main2.position st1.1 = Main2.position st2.1).
  rewrite (f_equal Main2.lot_size H : Main2.lot_size st1.1 = Main2.lot_size st2.1).
  repeat case_match; by apply main2_execute_untimed.
Qed.

Lemma main2_bars_untimed now1 now2 data k st1 st2 :
  main2_untimed st1.1 = main2_untimed st2.1 ->
  main2_untimed (Main2.bars now1 data k st1).1
  = main2_untimed (Main2.bars now2 data k st2).1.
Proof.
  intros H. induction k as [|k IH]; [done|].
  rewrite !main2_bars_S. by apply main2_bar_untimed.
Qed.

Lemma main2_run_untimed now1 now2 h1 h2 t1 t2 self pd :
  h1 !! pd = h2 !! pd ->
  main2_untimed (final (Main2.run now1 h1 t1 self pd))
  = main2_untimed (final (Main2.run now2 h2 t2 self pd)).
Proof.
  intros Hh. destruct (h1 !! pd) as [df|] eqn:Hdf.
  - rewrite (main2_run_unfold _ h1 _ _ _ _ Hdf).
    rewrite (main2_run_unfold _ h2 _ _ _ df) by done.
    destruct (Main2.indicators df).2; [done|]. by apply main2_bars_untimed.
  - unfold Main2.run. by rewrite Hdf, <- Hh.
Qed.

Lemma revised_execute_untimed now1 now2 t1 t2 s1 s2 price signal :
  revised_untimed s1 = revised_untimed s2 ->
  revised_untimed (MainRevised.execute_trade now1 t1 s1 price signal).1
  = revised_untimed (MainRevised.execute_trade now2 t2 s2 price signal).1.
Proof.
  destruct s1, s2. unfold revised_untimed. simpl.
  intros [= -> -> -> -> -> -> -> Htr].
  unfold MainRevised.execute_trade, MainRevised._record_trade. simpl.
  repeat case_match; simpl; rewrite ?map_app, ?Htr; done.
Qed.

Lemma revised_bars_S now data k st :
  MainRevised.bars now data (S k) st
  = MainRevised.bar now data (MainRevised.bars now data k st) k.
Proof. unfold MainRevised.bars. by rewrite seq_S, fold_left_app. Qed.

Lemma revised_bar_untimed now1 now2 data i st1 st2 :
  revised_untimed st1.1 = revised_untimed st2.1 ->
  revised_untimed (MainRevised.bar now1 data st1 i).1
  = revised_untimed (MainRevised.bar now2 data st2 i).1.
Proof.
  intros H. unfold MainRevised.bar. destruct (i =? 0)%nat; [done|].
  unfold MainRevised.should_exit_trade.
  rewrite (f_equal MainRevised.position H
            : MainRevised.position st1.1 = MainRevised.position st2.1).
  destruct (negb _); by apply revised_execute_untimed.
Qed.

Lemma revised_bars_untimed now1 now2 data k st1 st2 :
  revised_untimed st1.1 = revised_untimed st2.1 ->
  revised_untimed (MainRevised.bars now1 data k st1).1
  = revised_untimed (MainRevised.bars now2 data k st2).1.
Proof.
  intros H. induction k as [|k IH]; [done|].
  rewrite !revised_bars_S. by apply revised_bar_untimed.
Qed.

Lemma revised_run_untimed now1 now2 h1 h2 t1 t2 self pd :
  h1 !! pd = h2 !! pd ->
  revised_untimed (final (MainRevised.run now1 h1 t1 self pd))
  = revised_untimed (final (MainRevised.run now2 h2 t2 self pd)).
Proof.
  intros Hh. destruct (h1 !! pd) as [df|] eqn:Hdf.
  - rewrite (revised_run_unfold _ h1 _ _ _ _ Hdf).
    rewrite (revised_run_unfold _ h2 _ _ _ df) by done.
    destruct (MainRevised.indicators df).2; [done|].
    by apply revised_bars_untimed.
  - unfold MainRevised.run, MainRevised.calculate_indicators, update_frame.
    by rewrite <- Hh, Hdf.
Qed.

(** C7, amended: two runs on the same frame with the same configuration
    (and the same seeded clustering), whatever the clock reads and
    whatever else the store holds, end with the same balance and with
    ledgers equal in every field but the timestamp, which is the wall-clock
    reading at the close.  For the four variants. *)
Theorem rerun_same_ledger_but_timestamps
    (now1 now2 : clock) (h1 h2 : store) (t1 t2 : nat) (price_data : loc) :
  h1 !! price_data = h2 !! price_data ->
  (forall self,
      Main.balance (final (Main.run now1 h1 t1 self price_data))
      = Main.balance (final (Main.run now2 h2 t2 self price_data))
      /\ map untimed (Main.trades (final (Main.run now1 h1 t1 self price_data)))
         = map untimed
             (Main.trades (final (Main.run now2 h2 t2 self price_data))))
  /\ (forall self,
      Main2.balance (final (Main2.run now1 h1 t1 self price_data))
      = Main2.balance (final (Main2.run now2 h2 t2 self price_data))
      /\ map untimed (Main2.trades (final (Main2.run now1 h1 t1 self price_data)))
         = map untimed
             (Main2.trades (final (Main2.run now2 h2 t2 self price_data))))
  /\ (forall kmeans self,
      Main3.balance (final (Main3.run kmeans now1 h1 t1 self price_data))
      = Main3.balance (final (Main3.run kmeans now2 h2 t2 self price_data))
      /\ map untimed
           (Main3.trades (final (Main3.run kmeans now1 h1 t1 self price_data)))
         = map untimed
             (Main3.trades
                (final (Main3.run kmeans now2 h2 t2 self price_data))))
  /\ (forall self,
      MainRevised.balance (final (MainRevised.run now1 h1 t1 self price_data))
      = MainRevised.balance (final (MainRevised.run now2 h2 t2 self price_data))
      /\ map untimed
           (MainRevised.trades
              (final (MainRevised.run now1 h1 t1 self price_data)))
         = map untimed
             (MainRevised.trades
                (final (MainRevised.run now2 h2 t2 self price_data)))).
Proof.
  intros Hh. split; [|split; [|split]].
  - intros self.
    pose proof (main_run_untimed now1 now2 h1 h2 t1 t2 self price_data Hh) as H.
    split; [apply (f_equal Main.balance H)|apply (f_equal Main.trades H)].
  - intros self.
    pose proof (main2_run_untimed now1 now2 h1 h2 t1 t2 self price_data Hh) as H.
    split; [apply (f_equal Main2.balance H)|apply (f_equal Main2.trades H)].
  - intros kmeans self.
    pose proof (main3_run_untimed kmeans now1 now2 h1 h2 t1 t2 self
                  price_data Hh) as H.
    split; [apply (f_equal Main3.balance H)|apply (f_equal Main3.trades H)].
  - intros self.
    pose proof (revised_run_untimed now1 now2 h1 h2 t1 t2 self price_data Hh)
      as H.
    split; [apply (f_equal MainRevised.balance H)
           |apply (f_equal MainRevised.trades H)].
Qed.

Lemma rerun_same_ledger_but_timestamps_witness :
  Main.balance (final first_run) = Main.balance (final second_run)
  /\ map untimed (Main.trades (final first_run))
     = map untimed (Main.trades (final second_run)).
Proof.
  destruct (rerun_same_ledger_but_timestamps ticking ticking [falling_frame]
              (heap first_run) 0%nat (ticks first_run) 0%nat) as [H _].
  - vm_compute. reflexivity.
  - exact (H main_bot).
Defined.

(** ** The oscillator stays in its band *)

Lemma Qeq_bool_pos q : (0 < q)%Q -> Qeq_bool q 0 = false.
Proof.
  intros Hq. destruct (Qeq_bool q 0) eqn:E; [|done].
  apply Qeq_bool_eq in E. lra.
Qed.

Lemma Qltb_pos q : (0 < q)%Q -> Qltb 0 q = true.
Proof.
  intros Hq. unfold Qltb. destruct (Qle_bool q 0) eqn:E; [|done].
  apply Qle_bool_iff in E. lra.
Qed.

Lemma Qltb_spec a b : Qltb a b = true <-> (a < b)%Q.
Proof.
  unfold Qltb. destruct (Qle_bool b a) eqn:E; simpl.
  - apply Qle_bool_iff in E. split; [done|lra].
  - split; [intros _|done]. apply Qnot_le_lt. intros H.
    apply Qle_bool_iff in H. congruence.
Qed.

Lemma Qred_zero q : (q == 0)%Q -> Qred q = 0%Q.
Proof. intros H. by apply Qred_complete in H. Qed.

Lemma Qdiv_nonneg a b : (0 <= a)%Q -> (0 < b)%Q -> (0 <= a / b)%Q.
Proof. intros Ha Hb. apply Qle_shift_div_l; [done|lra]. Qed.

(** The formula on a finite ratio. *)
Lemma rsi_of_ratio a b :
  (0 <= a)%Q -> (0 < b)%Q ->
  exists q, rsi_of (Fin a) (Fin b) = Fin q /\ (0 <= q <= 100)%Q.
Proof.
  intros Ha Hb. unfold rsi_of. simpl. rewrite (Qeq_bool_pos b) by done. simpl.
  pose proof (Qdiv_nonneg a b Ha Hb) as Hr.
  assert (0 < Qred (1 + Qred (a / b)))%Q as Hs.
  { rewrite !Qred_correct. lra. }
  rewrite Qeq_bool_pos by done.
  eexists; split; [done|].
  rewrite !Qred_correct. split.
  - apply (Qle_minus_iff (100 / (1 + a / b)) 100).
    apply Qle_shift_div_r; lra.
  - assert (0 <= 100 / (1 + a / b))%Q; [|lra].
    apply Qdiv_nonneg; lra.
Qed.

Lemma rsi_of_band gain loss :
  nonneg_or_nan gain = true -> nonneg_or_nan loss = true ->
  isna (rsi_of gain loss) = false -> in_band (rsi_of gain loss) = true.
Proof.
  unfold nonneg_or_nan, nonneg.
  destruct gain as [| | |a], loss as [| | |b]; simpl; try done.
  - intros _ _. unfold rsi_of. simpl. by destruct (Qltb b 0).
  - intros Ha%Qle_bool_iff Hb%Qle_bool_iff.
    destruct (Qeq_bool b 0) eqn:Eb.
    + unfold rsi_of, ndiv. rewrite Eb. unfold inf_signed.
      destruct (Qeq_bool a 0); [done|]. by destruct (Qltb 0 a).
    + assert (0 < b)%Q as Hb'.
      { apply Qle_lt_or_eq in Hb as [|Hb]; [done|].
        symmetry in Hb. apply Qeq_eq_bool in Hb. congruence. }
      destruct (rsi_of_ratio a b Ha Hb') as (q & -> & H0 & H100).
      intros _. unfold in_band. simpl.
      apply andb_true_intro; split; by apply Qle_bool_iff.
Qed.

(** The two degenerate averages. *)
Lemma rsi_of_no_loss gain :
  (gain >? Fin 0)%num = true -> rsi_of gain (Fin 0) = Fin 100.
Proof.
  destruct gain as [| | |a]; simpl; try done.
  intros Ha%Qltb_spec. unfold rsi_of; simpl. unfold inf_signed.
  by rewrite Qeq_bool_pos, Qltb_pos.
Qed.

Lemma rsi_of_no_gain loss :
  (loss >? Fin 0)%num = true -> rsi_of (Fin 0) loss = Fin 0.
Proof.
  destruct loss as [| | |b]; simpl; try done.
  intros Hb%Qltb_spec. unfold rsi_of; simpl. rewrite Qeq_bool_pos by done.
  rewrite (Qred_zero (0 / b)) by (unfold Qdiv; lra). done.
Qed.

(** *** The averages of gains and losses are not negative *)

Lemma nonneg_inv x :
  nonneg x = true -> x = PInf \/ exists q, x = Fin q /\ (0 <= q)%Q.
Proof.
  destruct x as [| | |q]; simpl; try done; [by left|].
  intros H%Qle_bool_iff. right. eauto.
Qed.

Lemma nonneg_fin q : (0 <= q)%Q -> nonneg (Fin q) = true.
Proof. intros. by apply Qle_bool_iff. Qed.

Lemma nonneg_or_nan_of_nonneg x : nonneg x = true -> nonneg_or_nan x = true.
Proof. unfold nonneg_or_nan. intros ->. apply orb_true_r. Qed.

Lemma gains_nonneg close : Forall (fun x => nonneg x = true) (gains close).
Proof.
  unfold gains, where_. rewrite map_fmap. apply Forall_fmap, Forall_true.
  intros d. destruct d as [| | |q]; simpl; try done.
  destruct (Qltb 0 q) eqn:E; [|done].
  apply Qltb_spec in E. apply nonneg_fin. lra.
Qed.

Lemma losses_nonneg close : Forall (fun x => nonneg x = true) (losses close).
Proof.
  unfold losses, where_. rewrite !map_fmap.
  apply Forall_fmap, Forall_fmap, Forall_true.
  intros d. destruct d as [| | |q]; simpl; try done.
  destruct (Qltb q 0) eqn:E; [|done].
  apply Qltb_spec in E. simpl. apply nonneg_fin. rewrite Qred_correct. lra.
Qed.

Lemma total_from_nonneg xs a :
  (0 <= a)%Q ->
  Forall (fun x => nonneg x = true) xs -> forallb is_finite xs = true ->
  exists s, fold_left nadd xs (Fin a) = Fin s /\ (0 <= s)%Q.
Proof.
  revert a. induction xs as [|x xs IH]; intros a Ha Hxs Hfin; simpl.
  - eauto.
  - apply Forall_cons in Hxs as [Hx Hxs]. simpl in Hfin.
    apply andb_prop in Hfin as [Hfx Hfin].
    destruct (nonneg_inv x Hx) as [->|(q & -> & Hq)]; [done|]. simpl.
    apply IH; [|done..]. rewrite Qred_correct. lra.
Qed.

Lemma mean_nonneg xs :
  Forall (fun x => nonneg x = true) xs -> forallb is_finite xs = true ->
  nonneg_or_nan (mean xs) = true.
Proof.
  intros Hxs Hfin. unfold mean, total.
  destruct (total_from_nonneg xs 0 ltac:(lra) Hxs Hfin) as (s & -> & Hs).
  unfold of_nat, of_Z. simpl.
  destruct (Qeq_bool (inject_Z (Z.of_nat (length xs))) 0) eqn:E.
  - unfold inf_signed. destruct (Qeq_bool s 0) eqn:Es; [done|].
    rewrite Qltb_pos; [done|].
    apply Qle_lt_or_eq in Hs as [|Hs]; [done|].
    symmetry in Hs. apply Qeq_eq_bool in Hs. congruence.
  - apply nonneg_or_nan_of_nonneg, nonneg_fin. rewrite Qred_correct.
    apply Qdiv_nonneg; [done|].
    assert (0 <= inject_Z (Z.of_nat (length xs)))%Q as Hn.
    { change 0%Q with (inject_Z 0). rewrite <- Zle_Qle. lia. }
    apply Qle_lt_or_eq in Hn as [|Hn]; [done|].
    symmetry in Hn. apply Qeq_eq_bool in Hn. congruence.
Qed.

Lemma Forall_window (P : num -> Prop) w i s :
  Forall P s -> Forall P (window w i s).
Proof.
  intros H. unfold window. by apply Forall_take, Forall_drop.
Qed.

Lemma rolling_mean_nonneg w s i :
  Forall (fun x => nonneg x = true) s ->
  nonneg_or_nan (at_ (rolling_mean w s) i) = true.
Proof.
  intros Hs. destruct (decide (i < length s)%nat) as [Hi|Hi].
  - rewrite rolling_mean_at by done.
    destruct (S i <? w)%nat; [done|].
    destruct (forallb is_finite (window w i s)) eqn:Hfin; [|done].
    apply mean_nonneg; [|done]. by apply Forall_window.
  - rewrite at_lookup, lookup_ge_None_2; [done|].
    rewrite rolling_mean_length. lia.
Qed.

Lemma zip_with_num_at f a b i :
  (i < length a)%nat -> (i < length b)%nat ->
  at_ (zip_with_num f a b) i = f (at_ a i) (at_ b i).
Proof.
  unfold at_. revert b i. induction a as [|x a IH]; intros [|y b] i; simpl;
    try lia.
  destruct i as [|i]; [done|]. intros. apply IH; lia.
Qed.

Lemma zip_with_num_length f a b :
  length (zip_with_num f a b) = Nat.min (length a) (length b).
Proof.
  revert b. induction a as [|x a IH]; intros [|y b]; simpl; try done.
  by rewrite IH.
Qed.

Lemma zip_with_num_beyond f a b i :
  (Nat.min (length a) (length b) <= i)%nat -> at_ (zip_with_num f a b) i = NaN.
Proof.
  intros Hi. rewrite at_lookup, lookup_ge_None_2; [done|].
  by rewrite zip_with_num_length.
Qed.

Lemma nmul_pos_nonneg o x :
  (0 < o)%Q -> nonneg x = true -> nonneg (Fin o * x) = true.
Proof.
  intros Ho Hx. destruct (nonneg_inv x Hx) as [->|(q & -> & Hq)]; simpl.
  - unfold inf_signed. by rewrite Qeq_bool_pos, Qltb_pos.
  - apply nonneg_fin. rewrite Qred_correct. nra.
Qed.

Lemma nadd_nonneg x y :
  nonneg x = true -> nonneg y = true -> nonneg (x + y) = true.
Proof.
  intros Hx Hy.
  destruct (nonneg_inv x Hx) as [->|(a & -> & Ha)],
           (nonneg_inv y Hy) as [->|(b & -> & Hb)]; simpl; try done.
  apply nonneg_fin. rewrite Qred_correct. lra.
Qed.

Lemma ndiv_nonneg_pos x d :
  nonneg x = true -> (0 < d)%Q -> nonneg (x / Fin d) = true.
Proof.
  intros Hx Hd. destruct (nonneg_inv x Hx) as [->|(a & -> & Ha)]; simpl.
  - destruct (Qltb d 0) eqn:E; [|done]. apply Qltb_spec in E. lra.
  - rewrite Qeq_bool_pos by done. apply nonneg_fin.
    rewrite Qred_correct. by apply Qdiv_nonneg.
Qed.

Lemma nonneg_not_nan x : nonneg x = true -> isna x = false.
Proof. by destruct x. Qed.

Section ewm_adjusted.
Variables (alpha : num) (c : Q).
Hypothesis decay : (Fin 1 - alpha)%num = Fin c.
Hypothesis decay_pos : (0 < c)%Q.

Lemma ewm_step_ok st cur :
  ewm_ok st -> nonneg cur = true -> ewm_ok (ewm_step alpha true st cur).
Proof using decay decay_pos.
  intros [Hw (o & Ho & Hpos)] Hcur. unfold ewm_step.
  rewrite (nonneg_not_nan _ Hw), (nonneg_not_nan _ Hcur), decay, Ho. simpl.
  assert (0 < Qred (o * c))%Q as Ho1 by (rewrite Qred_correct; nra).
  assert (0 < Qred (Qred (o * c) + 1))%Q as Hd by (rewrite Qred_correct; lra).
  split; simpl.
  - destruct (nne (weighted st) cur); [|done].
    apply ndiv_nonneg_pos; [|done]. apply nadd_nonneg.
    + by apply nmul_pos_nonneg.
    + apply nmul_pos_nonneg; [lra|done].
  - eauto.
Qed.

Lemma ewm_from_nonneg minp st s :
  ewm_ok st -> Forall (fun x => nonneg x = true) s ->
  Forall (fun x => nonneg_or_nan x = true) (ewm_from alpha true minp st s).
Proof using decay decay_pos.
  revert st. induction s as [|cur s IH]; intros st Hst Hs; simpl; [done|].
  apply Forall_cons in Hs as [Hcur Hs].
  pose proof (ewm_step_ok st cur Hst Hcur) as Hst'.
  constructor; [|by apply IH].
  unfold ewm_out. case_match; [|done].
  apply nonneg_or_nan_of_nonneg, Hst'.
Qed.
End ewm_adjusted.

Lemma at_Forall (P : num -> Prop) (s : Series) i :
  P NaN -> Forall P s -> P (at_ s i).
Proof.
  intros Hnan Hs. rewrite at_lookup. destruct (s !! i) as [x|] eqn:E; [|done].
  simpl. rewrite Forall_forall in Hs. by eapply Hs, list_elem_of_lookup_2.
Qed.

Lemma ewm_mean_adjusted_nonneg s i :
  Forall (fun x => nonneg x = true) s ->
  nonneg_or_nan (at_ (ewm_mean 14 true 14 s) i) = true.
Proof.
  intros Hs. apply (at_Forall (fun x => nonneg_or_nan x = true)); [done|].
  unfold ewm_mean. destruct s as [|x s]; [done|].
  apply Forall_cons in Hs as [Hx Hs]. constructor.
  - unfold ewm_out. case_match; [|done]. by apply nonneg_or_nan_of_nonneg.
  - apply (ewm_from_nonneg (ewm_alpha 14) (13 # 15)); [done|done| |done].
    split; simpl; [done|]. exists 1%Q. split; [done|lra].
Qed.

(** ** The oscillator of [main.py] and of [main_revised.py] *)

Lemma rsi_series_spec (gain loss : Series) i :
  (forall j, nonneg_or_nan (at_ gain j) = true) ->
  (forall j, nonneg_or_nan (at_ loss j) = true) ->
  let rsi := at_ (zip_with_num rsi_of gain loss) i in
  (isna rsi = false -> in_band rsi = true)
  /\ (at_ loss i = Fin 0 -> (at_ gain i >? Fin 0)%num = true -> rsi = Fin 100)
  /\ (at_ gain i = Fin 0 -> (at_ loss i >? Fin 0)%num = true -> rsi = Fin 0).
Proof.
  intros Hg Hl rsi. subst rsi.
  destruct (decide (i < length gain)%nat) as [Hig|Hig];
    [destruct (decide (i < length loss)%nat) as [Hil|Hil]|].
  - rewrite zip_with_num_at by done. split; [|split].
    + by apply rsi_of_band.
    + intros ->. apply rsi_of_no_loss.
    + intros ->. apply rsi_of_no_gain.
  - rewrite zip_with_num_beyond by lia.
    rewrite (at_lookup loss), lookup_ge_None_2 by lia. done.
  - rewrite zip_with_num_beyond by lia.
    rewrite (at_lookup gain), lookup_ge_None_2 by lia. done.
Qed.

Lemma main_indicators_ok df data :
  Main.indicators df = (data, None) ->
  nrows data = nrows df /\
  exists close, columns df !! "Close" = Some close /\
    forall i,
      iloc data i "SMA50" = at_ (rolling_mean 50 close) i
      /\ iloc data i "RSI"
         = at_ (zip_with_num rsi_of (rolling_mean 14 (gains close))
                                    (rolling_mean 14 (losses close))) i.
Proof.
  unfold Main.indicators.
  destruct (columns df !! "Close") as [close|]; [|done]. cbv zeta.
  intros [= <-]. split; [done|].
  exists close. split; [done|]. intros i. split; by iloc_cols.
Qed.

Lemma revised_indicators_rsi df data :
  MainRevised.indicators df = (data, None) ->
  exists close, columns df !! "Close" = Some close /\
    forall i,
      iloc data i "RSI"
      = at_ (zip_with_num rsi_of (ewm_mean 14 true 14 (gains close))
                                 (ewm_mean 14 true 14 (losses close))) i.
Proof.
  unfold MainRevised.indicators.
  destruct (columns df !! "Close") as [close|]; [|done]. cbv zeta.
  intros [= <-]. exists close. split; [done|]. intros i. by iloc_cols.
Qed.

(** C4: wherever the oscillator is defined (not NaN) it lies in [0, 100];
    with a zero average loss and a positive average gain it is exactly
    100, with a zero average gain and a positive average loss exactly 0,
    and it is not NaN in either case.  For the rolling averages of
    [main.py] and for the exponential ones of [main_revised.py], on every
    series of closes and at every index. *)
Theorem rsi_in_band_and_degenerate_cases df close i :
  columns df !! "Close" = Some close ->
  (let rsi := iloc (Main.indicators df).1 i "RSI" in
   let gain := at_ (rolling_mean 14 (gains close)) i in
   let loss := at_ (rolling_mean 14 (losses close)) i in
   (isna rsi = false -> in_band rsi = true)
   /\ (loss = Fin 0 -> (gain >? Fin 0)%num = true ->
       rsi = Fin 100 /\ isna rsi = false)
   /\ (gain = Fin 0 -> (loss >? Fin 0)%num = true ->
       rsi = Fin 0 /\ isna rsi = false))
  /\ (let rsi := iloc (MainRevised.indicators df).1 i "RSI" in
      let avg_gain := at_ (ewm_mean 14 true 14 (gains close)) i in
      let avg_loss := at_ (ewm_mean 14 true 14 (losses close)) i in
      (isna rsi = false -> in_band rsi = true)
      /\ (avg_loss = Fin 0 -> (avg_gain >? Fin 0)%num = true ->
          rsi = Fin 100 /\ isna rsi = false)
      /\ (avg_gain = Fin 0 -> (avg_loss >? Fin 0)%num = true ->
          rsi = Fin 0 /\ isna rsi = false)).
Proof.
  intros Hc. split.
  - destruct (Main.indicators df) as [data e] eqn:Hd.
    assert (e = None) as -> by (unfold Main.indicators in Hd; rewrite Hc in Hd;
                                by injection Hd).
    destruct (main_indicators_ok _ _ Hd) as (_ & close' & Hc' & Hcols).
    assert (close' = close) as -> by congruence.
    simpl. destruct (Hcols i) as [_ ->].
    destruct (rsi_series_spec (rolling_mean 14 (gains close))
                (rolling_mean 14 (losses close)) i) as (Hb & H100 & H0).
    { intros j. apply rolling_mean_nonneg, gains_nonneg. }
    { intros j. apply rolling_mean_nonneg, losses_nonneg. }
    split; [done|]. split; intros H1 H2.
    + by rewrite H100.
    + by rewrite H0.
  - destruct (MainRevised.indicators df) as [data e] eqn:Hd.
    assert (e = None) as ->
        by (unfold MainRevised.indicators in Hd; rewrite Hc in Hd; by injection Hd).
    destruct (revised_indicators_rsi _ _ Hd) as (close' & Hc' & Hcols).
    assert (close' = close) as -> by congruence.
    simpl. rewrite Hcols.
    destruct (rsi_series_spec (ewm_mean 14 true 14 (gains close))
                (ewm_mean 14 true 14 (losses close)) i) as (Hb & H100 & H0).
    { intros j. apply ewm_mean_adjusted_nonneg, gains_nonneg. }
    { intros j. apply ewm_mean_adjusted_nonneg, losses_nonneg. }
    split; [done|]. split; intros H1 H2.
    + by rewrite H100.
    + by rewrite H0.
Qed.

(** ** [main.py]: stop-loss and take-profit fill at the trigger price *)

Lemma main_stop_take_at_trigger now t self price signal tr :
  Main.trades (Main.execute_trade now t self price signal).1
  = Main.trades self ++ [tr] ->
  match Trade.type tr with
  | Some StopLong =>
      Trade.exit_price tr = (Main.entry_price self - Main.stop_loss self)%num
      /\ Trade.profit_loss tr
         = ((Trade.exit_price tr - Main.entry_price self)
            * Main.lot_size self * Fin 100000)%num
  | Some StopShort =>
      Trade.exit_price tr = (Main.entry_price self + Main.stop_loss self)%num
      /\ Trade.profit_loss tr
         = ((Main.entry_price self - Trade.exit_price tr)
            * Main.lot_size self * Fin 100000)%num
  | Some TakeLong =>
      Trade.exit_price tr = (Main.entry_price self + Main.take_profit self)%num
      /\ Trade.profit_loss tr
         = ((Trade.exit_price tr - Main.entry_price self)
            * Main.lot_size self * Fin 100000)%num
  | Some TakeShort =>
      Trade.exit_price tr = (Main.entry_price self - Main.take_profit self)%num
      /\ Trade.profit_loss tr
         = ((Main.entry_price self - Trade.exit_price tr)
            * Main.lot_size self * Fin 100000)%num
  | _ => Trade.exit_price tr = price
  end.
Proof.
  unfold Main.execute_trade, Main.close.
  repeat case_match; simpl; intros Htr;
    try (apply app_inj_tail in Htr as [_ <-]; by simpl);
    exfalso; by apply (f_equal length) in Htr;
    rewrite length_app in Htr; simpl in Htr; lia.
Qed.

(** ** [main3.py]: what [execute_trade] and [run] do with the thresholds *)

(** An entry signal comes with the thresholds of its bar. *)
Lemma main3_entry_thresholds self current_row previous_row oversold overbought :
  (Main3.should_enter_trade self current_row previous_row oversold overbought).1.1
  <> 0 ->
  Main3.should_enter_trade self current_row previous_row oversold overbought
  = ((Main3.should_enter_trade self current_row previous_row
        oversold overbought).1.1,
     (current_row "ATR" * Fin 1.5)%num,
     (current_row "ATR" * Fin 1.5 * Main3.risk_reward_ratio self)%num).
Proof. unfold Main3.should_enter_trade. by repeat case_match. Qed.

(** The close on the exit signal changes the balance and not the ledger;
    the stop-loss and take-profit closes change the ledger and not the
    balance. *)
Lemma main3_execute_accounts now t self price signal stop_loss take_profit :
  Main3.position self <> 0 ->
  let self' :=
    (Main3.execute_trade now t self price signal stop_loss take_profit).1 in
  (signal = 0 ->
   Main3.position self' = 0 /\ Main3.trades self' = Main3.trades self)
  /\ (signal <> 0 -> Main3.balance self' = Main3.balance self).
Proof.
  intros Hp. unfold Main3.execute_trade.
  destruct (Z.eqb_spec (Main3.position self) 0) as [|_]; [done|].
  destruct (Z.eqb_spec signal 0) as [->|Hs]; simpl; [done|].
  split; [done|]. intros _. by repeat case_match.
Qed.

Lemma Qle_bool_total a b : Qle_bool a b || Qle_bool b a = true.
Proof.
  destruct (Qle_bool a b) eqn:E; [done|]. simpl. apply Qle_bool_iff.
  apply Qlt_le_weak, Qnot_le_lt. intros H. apply Qle_bool_iff in H. congruence.
Qed.

(** An open position does not outlast a bar without an entry signal of
    its own: the checks run with the thresholds 0 and 0. *)
Lemma main3_closed_without_entry_signal now data oversold overbought st i p e :
  Main3.position st.1 <> 0 ->
  Main3.should_enter_trade st.1 (iloc data i) (iloc data (i - 1))
    oversold overbought = (0, Fin 0, Fin 0) ->
  iloc data i "Close" = Fin p -> Main3.entry_price st.1 = Fin e ->
  Main3.position (Main3.bar now data oversold overbought st i).1 = 0.
Proof.
  intros Hp He Hc Hentry. unfold Main3.bar. rewrite He, Hc.
  destruct (Z.eqb_spec (Main3.position st.1) 0) as [|_]; [done|]. simpl.
  unfold Main3.execute_trade.
  destruct (Z.eqb_spec (Main3.position st.1) 0) as [|_]; [done|]. simpl.
  destruct (Main3.should_exit_trade st.1 (iloc data i) =? 0); [done|].
  rewrite Hentry. simpl.
  destruct (Main3.position st.1 =? 1); simpl;
    change (Qred (- 0)) with 0%Q.
  - destruct (Qle_bool (Qred (p - e)) 0) eqn:E1; [done|].
    pose proof (Qle_bool_total (Qred (p - e)) 0) as H. rewrite E1 in H.
    simpl in H. by rewrite H.
  - destruct (Qle_bool (Qred (e - p)) 0) eqn:E1; [done|].
    pose proof (Qle_bool_total (Qred (e - p)) 0) as H. rewrite E1 in H.
    simpl in H. by rewrite H.
Qed.

(** ** The turning series under every clustering

    On the turning series the clustering only decides whether bar 20
    opens the long position: it does as soon as the lowest centre is above
    0, the RSI of bar 19 and the least of the samples. *)

Ltac row_value t v := replace t with v by (by vm_compute).

Lemma turning_bars_any_thresholds oversold overbought :
  (Fin 0 <? oversold)%num = true ->
  (Main3.bars ticking turning_data oversold overbought 21
              (main3_bot, 0%nat)).1
  = {| Main3.symbol := "EURUSD"; Main3.balance := Fin 10000;
       Main3.lot_size := Fin 0.01; Main3.risk_reward_ratio := Fin 2;
       Main3.position := 0; Main3.entry_price := Fin 92;
       Main3.trades :=
         [{| Trade.symbol := "EURUSD"; Trade.type := None;
             Trade.entry_price := Fin 92; Trade.exit_price := Fin 90;
             Trade.profit_loss := Fin 0; Trade.lot_size := Fin 0.01;
             Trade.timestamp := 1700000001 |}];
       Main3.contract_size := Fin 100000 |}.
Proof.
  intros Hlo. do 3 rewrite main3_bars_S.
  rewrite (main3_bars_short ticking (turning_frame 90) turning_data)
    by (lia || (vm_compute; reflexivity)).
  assert (Main3.bar ticking turning_data oversold overbought
            (main3_bot, 0%nat) 19 = (main3_bot, 0%nat)) as ->.
  { unfold Main3.bar, Main3.should_enter_trade.
    row_value (iloc turning_data 19 "SMA") (Fin 99).
    row_value (iloc turning_data 19 "RSI") (Fin 0).
    row_value (iloc turning_data 19 "ATR") (Fin 2).
    row_value (iloc turning_data (19 - 1) "RSI") (Fin (50 # 7)).
    row_value (Fin 99 >? iloc turning_data 19 "EMA")%num true.
    row_value (Fin 99 <? iloc turning_data 19 "EMA")%num false.
    simpl. by rewrite andb_false_r. }
  assert (Main3.bar ticking turning_data oversold overbought
            (main3_bot, 0%nat) 20
          = ({| Main3.symbol := "EURUSD"; Main3.balance := Fin 10000;
                Main3.lot_size := Fin 0.01; Main3.risk_reward_ratio := Fin 2;
                Main3.position := 1; Main3.entry_price := Fin 92;
                Main3.trades := []; Main3.contract_size := Fin 100000 |},
             1%nat)) as ->.
  { unfold Main3.bar, Main3.should_enter_trade.
    row_value (iloc turning_data 20 "SMA") (Fin (493 # 5)).
    row_value (iloc turning_data 20 "RSI") (Fin (50 # 7)).
    row_value (iloc turning_data 20 "ATR") (Fin 2).
    row_value (iloc turning_data 20 "Close") (Fin 92).
    row_value (iloc turning_data (20 - 1) "RSI") (Fin 0).
    row_value (Fin (493 # 5) >? iloc turning_data 20 "EMA")%num true.
    by rewrite Hlo. }
  unfold Main3.bar, Main3.should_enter_trade, Main3.should_exit_trade.
  row_value (iloc turning_data 21 "SMA") (Fin (1961 # 20)).
  row_value (iloc turning_data 21 "RSI") (Fin (20 # 3)).
  row_value (iloc turning_data 21 "ATR") (Fin (29 # 14)).
  row_value (iloc turning_data 21 "Close") (Fin 90).
  row_value (iloc turning_data (21 - 1) "RSI") (Fin (50 # 7)).
  row_value (Fin (1961 # 20) >? iloc turning_data 21 "EMA")%num true.
  row_value (Fin (1961 # 20) <? iloc turning_data 21 "EMA")%num false.
  simpl. by rewrite andb_false_r.
Qed.

Lemma surging_bars_any_thresholds oversold overbought :
  (Fin 0 <? oversold)%num = true ->
  (Main3.bars ticking surging_data oversold overbought 21
              (main3_bot, 0%nat)).1
  = {| Main3.symbol := "EURUSD"; Main3.balance := Fin 110000;
       Main3.lot_size := Fin 0.01; Main3.risk_reward_ratio := Fin 2;
       Main3.position := 0; Main3.entry_price := Fin 0;
       Main3.trades := []; Main3.contract_size := Fin 100000 |}.
Proof.
  intros Hlo. do 3 rewrite main3_bars_S.
  rewrite (main3_bars_short ticking (turning_frame 192) surging_data)
    by (lia || (vm_compute; reflexivity)).
  assert (Main3.bar ticking surging_data oversold overbought
            (main3_bot, 0%nat) 19 = (main3_bot, 0%nat)) as ->.
  { unfold Main3.bar, Main3.should_enter_trade.
    row_value (iloc surging_data 19 "SMA") (Fin 99).
    row_value (iloc surging_data 19 "RSI") (Fin 0).
    row_value (iloc surging_data 19 "ATR") (Fin 2).
    row_value (iloc surging_data (19 - 1) "RSI") (Fin (50 # 7)).
    row_value (Fin 99 >? iloc surging_data 19 "EMA")%num true.
    row_value (Fin 99 <? iloc surging_data 19 "EMA")%num false.
    simpl. by rewrite andb_false_r. }
  assert (Main3.bar ticking surging_data oversold overbought
            (main3_bot, 0%nat) 20
          = ({| Main3.symbol := "EURUSD"; Main3.balance := Fin 10000;
                Main3.lot_size := Fin 0.01; Main3.risk_reward_ratio := Fin 2;
                Main3.position := 1; Main3.entry_price := Fin 92;
                Main3.trades := []; Main3.contract_size := Fin 100000 |},
             1%nat)) as ->.
  { unfold Main3.bar, Main3.should_enter_trade.
    row_value (iloc surging_data 20 "SMA") (Fin (493 # 5)).
    row_value (iloc surging_data 20 "RSI") (Fin (50 # 7)).
    row_value (iloc surging_data 20 "ATR") (Fin 2).
    row_value (iloc surging_data 20 "Close") (Fin 92).
    row_value (iloc surging_data (20 - 1) "RSI") (Fin 0).
    row_value (Fin (493 # 5) >? iloc surging_data 20 "EMA")%num true.
    by rewrite Hlo. }
  unfold Main3.bar, Main3.should_exit_trade. simpl Main3.position.
  row_value (iloc surging_data 21 "RSI") (Fin (10100 # 113)).
  row_value (iloc surging_data 21 "Close") (Fin 192).
  destruct (Main3.should_enter_trade _ _ _ _ _) as [[sig sl] tp].
  by vm_compute.
Qed.

(** So the two runs end as stated below under every clustering whose
    lowest centre is above 0. *)
Lemma turning_run_any_clustering kmeans oversold overbought :
  Main3.dynamic_rsi_threshold kmeans turning_data = Ok (oversold, overbought) ->
  (Fin 0 <? oversold)%num = true ->
  Main3.position
    (final (Main3.run kmeans ticking [turning_frame 90] 0 main3_bot 0)) = 0
  /\ Main3.trades
       (final (Main3.run kmeans ticking [turning_frame 90] 0 main3_bot 0))
     = [{| Trade.symbol := "EURUSD"; Trade.type := None;
           Trade.entry_price := Fin 92; Trade.exit_price := Fin 90;
           Trade.profit_loss := Fin 0; Trade.lot_size := Fin 0.01;
           Trade.timestamp := 1700000001 |}].
Proof.
  intros Hk Hlo.
  rewrite (main3_run_unfold kmeans ticking [turning_frame 90] 0%nat main3_bot
             0%nat (turning_frame 90) eq_refl).
  change (Main3.indicators (turning_frame 90)).1 with turning_data.
  replace (Main3.indicators (turning_frame 90)).2 with (@None exn)
    by (by vm_compute).
  rewrite Hk. replace (nrows turning_data - 1)%nat with 21%nat by (by vm_compute).
  cbv beta iota zeta delta [final].
  rewrite (turning_bars_any_thresholds oversold overbought Hlo).
  split; reflexivity.
Qed.

Lemma surging_run_any_clustering kmeans oversold overbought :
  Main3.dynamic_rsi_threshold kmeans surging_data = Ok (oversold, overbought) ->
  (Fin 0 <? oversold)%num = true ->
  Main3.balance
    (final (Main3.run kmeans ticking [turning_frame 192] 0 main3_bot 0))
  = Fin 110000
  /\ Main3.trades
       (final (Main3.run kmeans ticking [turning_frame 192] 0 main3_bot 0))
     = [].
Proof.
  intros Hk Hlo.
  rewrite (main3_run_unfold kmeans ticking [turning_frame 192] 0%nat main3_bot
             0%nat (turning_frame 192) eq_refl).
  change (Main3.indicators (turning_frame 192)).1 with surging_data.
  replace (Main3.indicators (turning_frame 192)).2 with (@None exn)
    by (by vm_compute).
  rewrite Hk. replace (nrows surging_data - 1)%nat with 21%nat by (by vm_compute).
  cbv beta iota zeta delta [final].
  rewrite (surging_bars_any_thresholds oversold overbought Hlo).
  split; reflexivity.
Qed.

(** * The claims *)

(** C1 (the code breaks it): the final balance is the initial balance plus
    the profits and losses of the ledger.  In [main3.py] a close on the
    exit signal adds its profit to the balance and appends no record: on
    the turning series ending at 192 the long position opened at bar 20
    (close 92) is closed at bar 21 by the RSI above 70, the balance goes
    from 10000 to 110000 and the ledger stays empty. *)
Theorem adaptive_signal_close_leaves_ledger_empty :
  Main3.__init__ "EURUSD" (Fin 10000) (Fin 0.01) (Fin 2) (Fin 100000) = Ok main3_bot
  /\ raised (Main3.run (cluster_means (Fin 25) (Fin 60)) ticking
                       [turning_frame 192] 0 main3_bot 0) = None
  /\ Main3.balance (final (Main3.run (cluster_means (Fin 25) (Fin 60)) ticking
                                     [turning_frame 192] 0 main3_bot 0))
     = Fin 110000
  /\ Main3.trades (final (Main3.run (cluster_means (Fin 25) (Fin 60)) ticking
                                    [turning_frame 192] 0 main3_bot 0))
     = []
  /\ Main3.balance (final (Main3.run (cluster_means (Fin 25) (Fin 60)) ticking
                                     [turning_frame 192] 0 main3_bot 0))
     <> ledger_total (Fin 10000)
          (Main3.trades
             (final (Main3.run (cluster_means (Fin 25) (Fin 60)) ticking
                               [turning_frame 192] 0 main3_bot 0))).
Proof. vm_compute. repeat split; discriminate. Qed.

(** C2 (the code breaks it): a take-profit close fills at the trigger
    price.  In [main_revised.py] the short position entered at 1.95 on the
    falling series is closed by the take-profit rule at bar 51, and the
    record holds the exit price 1.951 (entry plus take-profit) and the
    loss -1, where the trigger price is 1.949 and the profit 1. *)
Theorem revised_short_take_profit_fills_above_entry :
  MainRevised.__init__ "EURUSD" (Fin 10000) (Fin 0.01) (Fin 0.0005) (Fin 0.001)
  = Ok revised_bot
  /\ raised (MainRevised.run ticking [falling_frame] 0 revised_bot 0) = None
  /\ MainRevised.trades
       (final (MainRevised.run ticking [falling_frame] 0 revised_bot 0))
     = [{| Trade.symbol := "EURUSD"; Trade.type := Some TakeShort;
           Trade.entry_price := Fin 1.95; Trade.exit_price := Fin 1.951;
           Trade.profit_loss := Fin (-1); Trade.lot_size := Fin 0.01;
           Trade.timestamp := 1700000002 |}]
  /\ (Fin 1.95 - Fin 0.001)%num = Fin 1.949
  /\ ((Fin 1.95 - Fin 1.949) * Fin 0.01 * Fin 100000)%num = Fin 1.
Proof. vm_compute. done. Qed.

(** The same series through [main.py]: the fill is at the trigger price. *)
Example main_short_take_profit_fills_at_trigger :
  Main.trades (final first_run)
  = [{| Trade.symbol := "EURUSD"; Trade.type := Some TakeShort;
        Trade.entry_price := Fin 1.95; Trade.exit_price := Fin 1.949;
        Trade.profit_loss := Fin 1; Trade.lot_size := Fin 0.01;
        Trade.timestamp := 1700000002 |}].
Proof. vm_compute. done. Qed.

(** C3 (the code breaks it): stop-loss and take-profit are fixed at entry
    and used until the position closes.  In [main3.py], on the turning
    series ending at 90, the long position is opened at bar 20 at 92 with
    stop-loss 3 (1.5 times the ATR 2) and take-profit 6; at bar 21 the
    close is 90, above 92 - 3 and below 92 + 6, yet the checks run with
    the thresholds 0 and 0 that bar 21 returns and the position is closed
    with a recorded loss 0. *)
Theorem adaptive_thresholds_not_kept_after_entry :
  Main3.dynamic_rsi_threshold (cluster_means (Fin 10) (Fin 25)) turning_data
  = Ok (turning_oversold, turning_overbought)
  /\ iloc turning_data 20 "ATR" = Fin 2
  /\ Main3.should_enter_trade (turning_after 19) (iloc turning_data 20)
       (iloc turning_data 19) turning_oversold turning_overbought
     = (1, Fin 3, Fin 6)
  /\ Main3.position (turning_after 20) = 1
  /\ Main3.entry_price (turning_after 20) = Fin 92
  /\ iloc turning_data 21 "Close" = Fin 90
  /\ (Fin 90 - Fin 92 <=? - Fin 3)%num = false
  /\ (Fin 90 - Fin 92 >=? Fin 6)%num = false
  /\ Main3.should_enter_trade (turning_after 20) (iloc turning_data 21)
       (iloc turning_data 20) turning_oversold turning_overbought
     = (0, Fin 0, Fin 0)
  /\ Main3.position (turning_after 21) = 0
  /\ Main3.trades (turning_after 21)
     = [{| Trade.symbol := "EURUSD"; Trade.type := None;
           Trade.entry_price := Fin 92; Trade.exit_price := Fin 90;
           Trade.profit_loss := Fin 0; Trade.lot_size := Fin 0.01;
           Trade.timestamp := 1700000001 |}]
  /\ final (Main3.run (cluster_means (Fin 10) (Fin 25)) ticking
                      [turning_frame 90] 0 main3_bot 0)
     = turning_after 21.
Proof. vm_compute. done. Qed.

(** C7, counterexample: the second of two runs on the same frame with the
    same configuration records another timestamp. *)
Lemma rerun_records_other_timestamps :
  Main.trades (final first_run) <> Main.trades (final second_run).
Proof. vm_compute. discriminate. Qed.

(** C9 (the code breaks it): [run] leaves the caller's frame as it was.
    [main_revised.py] computes the indicators on the caller's frame: after
    the run the frame of three bars holds three more columns. *)
Theorem revised_run_adds_columns_to_caller_frame :
  heap (MainRevised.run ticking [three_bars] 0 revised_bot 0) !! 0%nat
  = Some {| nrows := 3;
            columns := {[ "Close" := [Fin 1.1; Fin 1.2; Fin 1.3];
                          "SMA20" := [NaN; NaN; NaN];
                          "SMA50" := [NaN; NaN; NaN];
                          "RSI" := [NaN; NaN; NaN] ]} |}
  /\ heap (MainRevised.run ticking [three_bars] 0 revised_bot 0) !! 0%nat
     <> Some three_bars.
Proof. split; [by vm_compute|]. vm_compute. discriminate. Qed.

(** [main.py] on the same store: the caller's frame is as before (here
    and, by [main_run_keeps_store], in every run). *)
Example main_run_keeps_three_bars :
  heap (Main.run ticking [three_bars] 0 main_bot 0) !! 0%nat = Some three_bars.
Proof. by rewrite main_run_keeps_store by (simpl; lia). Qed.

(** ** Runs that cannot raise *)

Lemma main_run_completes now h t self pd df :
  h !! pd = Some df -> is_Some (columns df !! "Close") ->
  raised (Main.run now h t self pd) = None.
Proof.
  intros Hdf Hc. rewrite (main_run_unfold _ _ _ _ _ _ Hdf).
  apply main_indicators_raise in Hc. by rewrite Hc.
Qed.

Lemma revised_run_completes now h t self pd df :
  h !! pd = Some df -> is_Some (columns df !! "Close") ->
  raised (MainRevised.run now h t self pd) = None.
Proof.
  intros Hdf [close Hc]. rewrite (revised_run_unfold _ _ _ _ _ _ Hdf).
  unfold MainRevised.indicators. by rewrite Hc.
Qed.

Lemma main2_run_completes now h t self pd df :
  h !! pd = Some df ->
  is_Some (columns df !! "Close") -> is_Some (columns df !! "High") ->
  is_Some (columns df !! "Low") ->
  raised (Main2.run now h t self pd) = None.
Proof.
  intros Hdf [close Hc] [high Hh] [low Hl].
  rewrite (main2_run_unfold _ _ _ _ _ _ Hdf).
  unfold Main2.indicators. rewrite Hc. cbv zeta.
  unfold set_col at 1 2 3 4 5 6 7 8 9 10 11 12 13 14; simpl columns.
  rewrite !lookup_insert_ne, Hh, Hl by done. done.
Qed.

(** C8, counterexample: a lot size of -1 and a contract size of 0 are
    accepted by the constructors, and the run of a bot that was built
    raises on a series of three bars. *)
Lemma constructors_accept_nonpositive_sizes :
  Main.__init__ "EURUSD" (Fin 10000) (Fin (-1)) (Fin 0.0005) (Fin 0.001)
  = Ok {| Main.symbol := "EURUSD"; Main.balance := Fin 10000;
          Main.lot_size := Fin (-1); Main.stop_loss := Fin 0.0005;
          Main.take_profit := Fin 0.001; Main.position := 0;
          Main.entry_price := Fin 0; Main.trades := [] |}
  /\ Main3.__init__ "EURUSD" (Fin 10000) (Fin 0.01) (Fin 2) (Fin 0)
     = Ok {| Main3.symbol := "EURUSD"; Main3.balance := Fin 10000;
             Main3.lot_size := Fin 0.01; Main3.risk_reward_ratio := Fin 2;
             Main3.position := 0; Main3.entry_price := Fin 0;
             Main3.trades := []; Main3.contract_size := Fin 0 |}
  /\ raised (Main3.run (cluster_means (Fin 30) (Fin 70)) ticking
                       [hlc_frame [100; 101; 102]] 0 main3_bot 0)
     = Some ValueError.
Proof. by vm_compute. Qed.

(** C8, amended: no constructor checks its arguments, so construction
    succeeds whatever the lot size and the contract size are; and the runs
    of [main.py], [main_revised.py] and [main2.py] on a frame that has the
    columns they read complete without raising. *)
Theorem construction_unchecked_and_fixed_risk_runs_complete :
  (forall symbol balance lot sl tp,
      exists self, Main.__init__ symbol balance lot sl tp = Ok self
                   /\ Main.lot_size self = lot)
  /\ (forall symbol balance risk,
      exists self, Main2.__init__ symbol balance risk = Ok self)
  /\ (forall symbol balance lot ratio contract,
      exists self, Main3.__init__ symbol balance lot ratio contract = Ok self
                   /\ Main3.lot_size self = lot
                   /\ Main3.contract_size self = contract)
  /\ (forall symbol balance lot sl tp,
      exists self, MainRevised.__init__ symbol balance lot sl tp = Ok self
                   /\ MainRevised.lot_size self = lot)
  /\ (forall now h t price_data df,
      h !! price_data = Some df -> is_Some (columns df !! "Close") ->
      (forall self, raised (Main.run now h t self price_data) = None)
      /\ (forall self, raised (MainRevised.run now h t self price_data) = None)
      /\ (is_Some (columns df !! "High") -> is_Some (columns df !! "Low") ->
          forall self, raised (Main2.run now h t self price_data) = None)).
Proof.
  repeat split; eauto using main_run_completes, revised_run_completes,
    main2_run_completes.
Qed.

Lemma construction_unchecked_and_fixed_risk_runs_complete_witness :
  raised (Main.run ticking [falling_hlc_frame] 0 main_bot 0) = None
  /\ raised (MainRevised.run ticking [falling_hlc_frame] 0 revised_bot 0) = None
  /\ raised (Main2.run ticking [falling_hlc_frame] 0 main2_bot 0) = None.
Proof.
  destruct construction_unchecked_and_fixed_risk_runs_complete
    as (_ & _ & _ & _ & H).
  destruct (H ticking [falling_hlc_frame] 0%nat 0%nat falling_hlc_frame)
    as (H1 & H2 & H3).
  - reflexivity.
  - eexists. vm_compute. reflexivity.
  - split; [apply H1|split; [apply H2|apply H3]].
    + eexists. vm_compute. reflexivity.
    + eexists. vm_compute. reflexivity.
Defined.

(** C5: on a series shorter than the largest window of the variant (50
    bars for the bots on SMA50, 20 for the adaptive bot) every entry signal
    is flat, and a run of a flat bot leaves the bot as it was: no position
    opened, nothing appended to the ledger. *)
Theorem short_series_opens_no_trade now h t price_data df :
  h !! price_data = Some df ->
  ((nrows df < 50)%nat ->
   (forall self, Main.position self = 0 ->
                 final (Main.run now h t self price_data) = self)
   /\ (forall self, Main2.position self = 0 ->
                    final (Main2.run now h t self price_data) = self)
   /\ (forall self, MainRevised.position self = 0 ->
                    final (MainRevised.run now h t self price_data) = self)
   /\ (forall data i, Main.indicators df = (data, None) -> (i < nrows df)%nat ->
         isna (iloc data i "SMA50") = true
         /\ Main.should_enter_trade (iloc data i) (iloc data (i - 1)) = 0)
   /\ (forall data self i,
         Main2.indicators df = (data, None) -> (i < nrows df)%nat ->
         (Main2.should_enter_trade self (iloc data i) (iloc data (i - 1))).1 = 0)
   /\ (forall data i,
         MainRevised.indicators df = (data, None) -> (i < nrows df)%nat ->
         MainRevised.should_enter_trade (iloc data i) (iloc data (i - 1)) = 0))
  /\ ((nrows df < 20)%nat ->
      (forall kmeans self, Main3.position self = 0 ->
         final (Main3.run kmeans now h t self price_data) = self)
      /\ (forall data self oversold overbought i,
            Main3.indicators df = (data, None) -> (i < nrows df)%nat ->
            isna (iloc data i "SMA") = true
            /\ Main3.should_enter_trade self (iloc data i) (iloc data (i - 1))
                 oversold overbought = (0, Fin 0, Fin 0))).
Proof.
  intros Hdf. split; intros Hn.
  - split; [|split; [|split; [|split; [|split]]]].
    + intros self Hp. by eapply main_short_series.
    + intros self Hp. by eapply main2_short_series.
    + intros self Hp. by eapply revised_short_series.
    + intros data i Hd Hi.
      destruct (main_indicators_ok _ _ Hd) as (_ & close & _ & Hs).
      unfold Main.should_enter_trade.
      destruct (Hs i) as [-> _]. rewrite rolling_mean_warmup by lia.
      simpl. by rewrite orb_true_r.
    + intros data self i Hd Hi.
      destruct (main2_indicators_ok _ _ Hd) as (_ & close & _ & Hs).
      unfold Main2.should_enter_trade.
      rewrite Hs, rolling_mean_warmup by lia. simpl. by rewrite orb_true_r.
    + intros data i Hd Hi.
      destruct (revised_indicators_ok _ _ Hd) as (_ & close & _ & Hs).
      unfold MainRevised.should_enter_trade.
      rewrite Hs, rolling_mean_warmup by lia. simpl. by rewrite orb_true_r.
  - split.
    + intros kmeans self Hp. by eapply main3_short_series.
    + intros data self lo hi i Hd Hi.
      destruct (main3_indicators_ok _ _ Hd) as (_ & close & _ & Hs).
      unfold Main3.should_enter_trade.
      by rewrite Hs, rolling_mean_warmup by lia.
Qed.

Lemma short_series_opens_no_trade_witness :
  final (Main.run ticking [three_bars] 0 main_bot 0) = main_bot
  /\ final (Main3.run (cluster_means (Fin 30) (Fin 70)) ticking
                      [hlc_frame [100; 101; 102]] 0 main3_bot 0) = main3_bot.
Proof.
  split.
  - apply (short_series_opens_no_trade ticking [three_bars] 0%nat 0%nat
             three_bars eq_refl); [simpl; lia|reflexivity].
  - apply (short_series_opens_no_trade ticking [hlc_frame [100; 101; 102]]
             0%nat 0%nat (hlc_frame [100; 101; 102]) eq_refl);
      [simpl; lia|reflexivity].
Defined.

Lemma no_stop_loss_bot_closes_at_next_bar_witness :
  Main2.position
    (Main2.bars ticking (Main2.indicators falling_hlc_frame).1 50
                (main2_bot, 0%nat)).1 = -1
  /\ Main2.position
       (Main2.bars ticking (Main2.indicators falling_hlc_frame).1 51
                   (main2_bot, 0%nat)).1 = 0.
Proof.
  split; [vm_compute; reflexivity|].
  refine (proj1 (proj2 (proj2 (proj2
            (no_stop_loss_bot_closes_at_next_bar ticking
               (Main2.indicators falling_hlc_frame).1 "EURUSD" (Fin 10000)
               (Fin 0.01) main2_bot 0%nat 50%nat eq_refl)) 149%Q _ _ _))).
  - vm_compute. discriminate.
  - vm_compute. reflexivity.
  - reflexivity.
Defined.

Lemma rsi_in_band_and_degenerate_cases_witness :
  iloc (Main.indicators (close_frame rising_closes)).1 14 "RSI" = Fin 100
  /\ iloc (MainRevised.indicators
             (close_frame (map of_Z (turning_closes 91)))).1 19 "RSI"
     <> Fin 0
  /\ in_band (iloc (MainRevised.indicators
                      (close_frame (map of_Z (turning_closes 91)))).1 19 "RSI")
     = true.
Proof.
  split; [|split].
  - refine (proj1 (proj1 (proj2 (proj1
              (rsi_in_band_and_degenerate_cases (close_frame rising_closes)
                 rising_closes 14 eq_refl))) _ _));
      vm_compute; reflexivity.
  - vm_compute. discriminate.
  - refine (proj1 (proj2
              (rsi_in_band_and_degenerate_cases
                 (close_frame (map of_Z (turning_closes 91)))
                 (map of_Z (turning_closes 91)) 19 eq_refl)) _).
    vm_compute. reflexivity.
Defined.

(** * Further properties of the four bots *)

(** ** What every bar keeps, every run keeps *)

Lemma main_run_invariant (P : Main.QuantTradingBot -> Prop) now h t self pd :
  P self ->
  (forall data st i, P st.1 -> P (Main.bar now data st i).1) ->
  P (final (Main.run now h t self pd)).
Proof.
  intros H0 Hbar. destruct (h !! pd) as [df|] eqn:Hdf.
  - rewrite (main_run_unfold _ _ _ _ _ _ Hdf).
    destruct (Main.indicators df).2; [done|]. simpl.
    generalize (nrows (Main.indicators df).1). intros n.
    induction n as [|n IH]; [done|]. rewrite main_bars_S. by apply Hbar.
  - unfold Main.run. by rewrite Hdf.
Qed.

Lemma main2_run_invariant (P : Main2.QuantTradingBot -> Prop) now h t self pd :
  P self ->
  (forall data st i, P st.1 -> P (Main2.bar now data st i).1) ->
  P (final (Main2.run now h t self pd)).
Proof.
  intros H0 Hbar. destruct (h !! pd) as [df|] eqn:Hdf.
  - rewrite (main2_run_unfold _ _ _ _ _ _ Hdf).
    destruct (Main2.indicators df).2; [done|]. simpl.
    generalize (nrows (Main2.indicators df).1 - 1)%nat. intros n.
    induction n as [|n IH]; [done|]. rewrite main2_bars_S. by apply Hbar.
  - unfold Main2.run. by rewrite Hdf.
Qed.

Lemma main3_run_invariant (P : Main3.AdaptiveTradingBot -> Prop)
    kmeans now h t self pd :
  P self ->
  (forall data lo hi st i, P st.1 -> P (Main3.bar now data lo hi st i).1) ->
  P (final (Main3.run kmeans now h t self pd)).
Proof.
  intros H0 Hbar. destruct (h !! pd) as [df|] eqn:Hdf.
  - rewrite (main3_run_unfold _ _ _ _ _ _ _ Hdf).
    destruct (Main3.indicators df).2; [done|].
    destruct (Main3.dynamic_rsi_threshold _ _) as [[lo hi]|e]; [|done]. simpl.
    generalize (nrows (Main3.indicators df).1 - 1)%nat. intros n.
    induction n as [|n IH]; [done|]. rewrite main3_bars_S. by apply Hbar.
  - unfold Main3.run. by rewrite Hdf.
Qed.

Lemma revised_run_invariant (P : MainRevised.QuantTradingBot -> Prop)
    now h t self pd :
  P self ->
  (forall data st i, P st.1 -> P (MainRevised.bar now data st i).1) ->
  P (final (MainRevised.run now h t self pd)).
Proof.
  intros H0 Hbar. destruct (h !! pd) as [df|] eqn:Hdf.
  - rewrite (revised_run_unfold _ _ _ _ _ _ Hdf).
    destruct (MainRevised.indicators df).2; [done|]. simpl.
    generalize (nrows (MainRevised.indicators df).1). intros n.
    induction n as [|n IH]; [done|]. rewrite revised_bars_S. by apply Hbar.
  - unfold MainRevised.run, MainRevised.calculate_indicators, update_frame.
    by rewrite Hdf.
Qed.

(** ** The balance accounts for the ledger *)

Lemma main2_execute_accounts now t self price signal lot :
  let self' := (Main2.execute_trade now t self price signal lot).1 in
  (Main2.trades self' = Main2.trades self
   /\ Main2.balance self' = Main2.balance self)
  \/ (exists tr,
        Main2.position self <> 0 /\ Main2.position self' = 0
        /\ Main2.trades self' = Main2.trades self ++ [tr]
        /\ Main2.balance self' = (Main2.balance self + Trade.profit_loss tr)%num).
Proof.
  unfold Main2.execute_trade.
  destruct (Z.eqb_spec (Main2.position self) 0);
    destruct (Z.eqb_spec signal 0); simpl; eauto 10;
    case_match; simpl; eauto 10.
Qed.

Lemma revised_execute_accounts now t self price signal :
  let self' := (MainRevised.execute_trade now t self price signal).1 in
  (MainRevised.trades self' = MainRevised.trades self
   /\ MainRevised.balance self' = MainRevised.balance self)
  \/ (exists tr,
        MainRevised.position self <> 0 /\ MainRevised.position self' = 0
        /\ MainRevised.trades self' = MainRevised.trades self ++ [tr]
        /\ MainRevised.balance self'
           = (MainRevised.balance self + Trade.profit_loss tr)%num).
Proof.
  unfold MainRevised.execute_trade, MainRevised._record_trade.
  destruct (Z.eqb_spec (MainRevised.position self) 0);
    destruct (Z.eqb_spec signal 0); simpl; eauto 10.
  case_match; simpl; eauto 10.
Qed.

(** X1: in [main.py], [main2.py] and [main_revised.py], after every run
    of a bot whose balance is the total of its ledger over some starting
    balance (a new bot is one, over its initial balance), the balance is
    again the total of the ledger over that starting balance: every close
    appends one record and adds that record's profit or loss. *)
Theorem balance_follows_ledger (now : clock) (h : store) (t : nat)
    (price_data : loc) (initial_balance : num) :
  (forall self,
      Main.balance self = ledger_total initial_balance (Main.trades self) ->
      Main.balance (final (Main.run now h t self price_data))
      = ledger_total initial_balance
          (Main.trades (final (Main.run now h t self price_data))))
  /\ (forall self,
      Main2.balance self = ledger_total initial_balance (Main2.trades self) ->
      Main2.balance (final (Main2.run now h t self price_data))
      = ledger_total initial_balance
          (Main2.trades (final (Main2.run now h t self price_data))))
  /\ (forall self,
      MainRevised.balance self
      = ledger_total initial_balance (MainRevised.trades self) ->
      MainRevised.balance (final (MainRevised.run now h t self price_data))
      = ledger_total initial_balance
          (MainRevised.trades
             (final (MainRevised.run now h t self price_data)))).
Proof.
  split; [|split]; intros self Hinv.
  - by apply main_run_balance_is_ledger_total.
  - apply (main2_run_invariant
             (fun s => Main2.balance s
                       = ledger_total initial_balance (Main2.trades s)));
      [done|].
    intros data st i H. unfold Main2.bar.
    destruct (Main2.should_enter_trade _ _ _) as [sig lot].
    destruct (Main2.position st.1 =? 0);
      match goal with
      | |- context [Main2.execute_trade ?n ?t ?s ?p ?g ?l] =>
          destruct (main2_execute_accounts n t s p g l)
            as [(Ht & Hb)|(tr & _ & _ & Ht & Hb)]
      end; rewrite Ht, Hb, ?ledger_total_snoc; congruence.
  - apply (revised_run_invariant
             (fun s => MainRevised.balance s
                       = ledger_total initial_balance (MainRevised.trades s)));
      [done|].
    intros data st i H. unfold MainRevised.bar.
    destruct (i =? 0)%nat; [done|].
    destruct (negb _);
      match goal with
      | |- context [MainRevised.execute_trade ?n ?t ?s ?p ?g] =>
          destruct (revised_execute_accounts n t s p g)
            as [(Ht & Hb)|(tr & _ & _ & Ht & Hb)]
      end; rewrite Ht, Hb, ?ledger_total_snoc; congruence.
Qed.

Lemma balance_follows_ledger_witness :
  Main.balance (final first_run)
  = ledger_total (Fin 10000) (Main.trades (final first_run)).
Proof.
  destruct (balance_follows_ledger ticking [falling_frame] 0%nat 0%nat
              (Fin 10000)) as [H _].
  exact (H main_bot eq_refl).
Defined.

(** ** The ledger only grows and the configuration stays *)

Lemma main_execute_keeps now t self price signal :
  let self' := (Main.execute_trade now t self price signal).1 in
  Main.trades self `prefix_of` Main.trades self'
  /\ Main.symbol self' = Main.symbol self
  /\ Main.lot_size self' = Main.lot_size self
  /\ Main.stop_loss self' = Main.stop_loss self
  /\ Main.take_profit self' = Main.take_profit self.
Proof.
  unfold Main.execute_trade, Main.close.
  repeat case_match; simpl; repeat split; try done; by apply prefix_app_r.
Qed.

Lemma main2_bar_keeps now data st i :
  let self' := (Main2.bar now data st i).1 in
  Main2.trades st.1 `prefix_of` Main2.trades self'
  /\ Main2.symbol self' = Main2.symbol st.1
  /\ Main2.risk_per_trade self' = Main2.risk_per_trade st.1
  /\ Main2.lot_size self' = Main2.lot_size st.1
  /\ Main2.stop_loss self' = Main2.stop_loss st.1
  /\ Main2.take_profit self' = Main2.take_profit st.1.
Proof.
  unfold Main2.bar, Main2.should_enter_trade, Main2.execute_trade.
  repeat case_match; simplify_eq; simpl; repeat split; try done;
    by apply prefix_app_r.
Qed.

Lemma main3_execute_keeps now t self price signal sl tp :
  let self' := (Main3.execute_trade now t self price signal sl tp).1 in
  Main3.trades self `prefix_of` Main3.trades self'
  /\ Main3.symbol self' = Main3.symbol self
  /\ Main3.lot_size self' = Main3.lot_size self
  /\ Main3.risk_reward_ratio self' = Main3.risk_reward_ratio self
  /\ Main3.contract_size self' = Main3.contract_size self.
Proof.
  unfold Main3.execute_trade.
  repeat case_match; simpl; repeat split; try done; by apply prefix_app_r.
Qed.

Lemma revised_execute_keeps now t self price signal :
  let self' := (MainRevised.execute_trade now t self price signal).1 in
  MainRevised.trades self `prefix_of` MainRevised.trades self'
  /\ MainRevised.symbol self' = MainRevised.symbol self
  /\ MainRevised.lot_size self' = MainRevised.lot_size self
  /\ MainRevised.stop_loss self' = MainRevised.stop_loss self
  /\ MainRevised.take_profit self' = MainRevised.take_profit self.
Proof.
  unfold MainRevised.execute_trade, MainRevised._record_trade.
  repeat case_match; simpl; repeat split; try done; by apply prefix_app_r.
Qed.

(** X2: a run only appends to the ledger (the records the bot had are a
    prefix of the records it ends with) and never changes the bot's
    configuration: symbol, lot size, and the thresholds or ratios given at
    construction.  For the four files. *)
Theorem run_appends_and_keeps_configuration
    (now : clock) (h : store) (t : nat) (price_data : loc) :
  (forall self,
      let self' := final (Main.run now h t self price_data) in
      Main.trades self `prefix_of` Main.trades self'
      /\ Main.symbol self' = Main.symbol self
      /\ Main.lot_size self' = Main.lot_size self
      /\ Main.stop_loss self' = Main.stop_loss self
      /\ Main.take_profit self' = Main.take_profit self)
  /\ (forall self,
      let self' := final (Main2.run now h t self price_data) in
      Main2.trades self `prefix_of` Main2.trades self'
      /\ Main2.symbol self' = Main2.symbol self
      /\ Main2.risk_per_trade self' = Main2.risk_per_trade self
      /\ Main2.lot_size self' = Main2.lot_size self
      /\ Main2.stop_loss self' = Main2.stop_loss self
      /\ Main2.take_profit self' = Main2.take_profit self)
  /\ (forall kmeans self,
      let self' := final (Main3.run kmeans now h t self price_data) in
      Main3.trades self `prefix_of` Main3.trades self'
      /\ Main3.symbol self' = Main3.symbol self
      /\ Main3.lot_size self' = Main3.lot_size self
      /\ Main3.risk_reward_ratio self' = Main3.risk_reward_ratio self
      /\ Main3.contract_size self' = Main3.contract_size self)
  /\ (forall self,
      let self' := final (MainRevised.run now h t self price_data) in
      MainRevised.trades self `prefix_of` MainRevised.trades self'
      /\ MainRevised.symbol self' = MainRevised.symbol self
      /\ MainRevised.lot_size self' = MainRevised.lot_size self
      /\ MainRevised.stop_loss self' = MainRevised.stop_loss self
      /\ MainRevised.take_profit self' = MainRevised.take_profit self).
Proof.
  split; [|split; [|split]].
  - intros self. cbv zeta.
    apply (main_run_invariant
             (fun s => Main.trades self `prefix_of` Main.trades s
                       /\ Main.symbol s = Main.symbol self
                       /\ Main.lot_size s = Main.lot_size self
                       /\ Main.stop_loss s = Main.stop_loss self
                       /\ Main.take_profit s = Main.take_profit self));
      [done|].
    intros data st i (Hp & H1 & H2 & H3 & H4). unfold Main.bar.
    destruct (i =? 0)%nat; [done|].
    destruct (negb _);
      match goal with
      | |- context [Main.execute_trade ?n ?t ?s ?p ?g] =>
          destruct (main_execute_keeps n t s p g) as (Kp & K1 & K2 & K3 & K4)
      end; (split; [by etrans|]); repeat split; congruence.
  - intros self. cbv zeta.
    apply (main2_run_invariant
             (fun s => Main2.trades self `prefix_of` Main2.trades s
                       /\ Main2.symbol s = Main2.symbol self
                       /\ Main2.risk_per_trade s = Main2.risk_per_trade self
                       /\ Main2.lot_size s = Main2.lot_size self
                       /\ Main2.stop_loss s = Main2.stop_loss self
                       /\ Main2.take_profit s = Main2.take_profit self));
      [done|].
    intros data st i (Hp & H1 & H2 & H3 & H4 & H5).
    destruct (main2_bar_keeps now data st i) as (Kp & K1 & K2 & K3 & K4 & K5).
    (split; [by etrans|]); repeat split; congruence.
  - intros kmeans self. cbv zeta.
    apply (main3_run_invariant
             (fun s => Main3.trades self `prefix_of` Main3.trades s
                       /\ Main3.symbol s = Main3.symbol self
                       /\ Main3.lot_size s = Main3.lot_size self
                       /\ Main3.risk_reward_ratio s = Main3.risk_reward_ratio self
                       /\ Main3.contract_size s = Main3.contract_size self));
      [done|].
    intros data lo hi st i (Hp & H1 & H2 & H3 & H4). unfold Main3.bar.
    destruct (Main3.should_enter_trade _ _ _ _ _) as [[sig sl] tp].
    destruct (negb _);
      match goal with
      | |- context [Main3.execute_trade ?n ?t ?s ?p ?g ?a ?b] =>
          destruct (main3_execute_keeps n t s p g a b)
            as (Kp & K1 & K2 & K3 & K4)
      end; (split; [by etrans|]); repeat split; congruence.
  - intros self. cbv zeta.
    apply (revised_run_invariant
             (fun s => MainRevised.trades self `prefix_of` MainRevised.trades s
                       /\ MainRevised.symbol s = MainRevised.symbol self
                       /\ MainRevised.lot_size s = MainRevised.lot_size self
                       /\ MainRevised.stop_loss s = MainRevised.stop_loss self
                       /\ MainRevised.take_profit s
                          = MainRevised.take_profit self)); [done|].
    intros data st i (Hp & H1 & H2 & H3 & H4). unfold MainRevised.bar.
    destruct (i =? 0)%nat; [done|].
    destruct (negb _);
      match goal with
      | |- context [MainRevised.execute_trade ?n ?t ?s ?p ?g] =>
          destruct (revised_execute_keeps n t s p g)
            as (Kp & K1 & K2 & K3 & K4)
      end; (split; [by etrans|]); repeat split; congruence.
Qed.

(** ** The position is a side or flat *)

Lemma main_enter_range current previous :
  -1 <= Main.should_enter_trade current previous <= 1.
Proof. unfold Main.should_enter_trade. repeat case_match; lia. Qed.

Lemma revised_enter_range current previous :
  -1 <= MainRevised.should_enter_trade current previous <= 1.
Proof. unfold MainRevised.should_enter_trade. repeat case_match; lia. Qed.

Lemma main_bar_position now data st i :
  -1 <= Main.position st.1 <= 1 ->
  -1 <= Main.position (Main.bar now data st i).1 <= 1.
Proof.
  intros H. unfold Main.bar. destruct (i =? 0)%nat; [done|].
  pose proof (main_enter_range (iloc data i) (iloc data (i - 1))).
  unfold Main.execute_trade, Main.close.
  repeat case_match; simpl; lia.
Qed.

Lemma main2_bar_position now data st i :
  -1 <= Main2.position st.1 <= 1 ->
  -1 <= Main2.position (Main2.bar now data st i).1 <= 1.
Proof.
  intros H. unfold Main2.bar, Main2.should_enter_trade, Main2.execute_trade.
  repeat case_match; simplify_eq; simpl; lia.
Qed.

Lemma main3_bar_position now data lo hi st i :
  -1 <= Main3.position st.1 <= 1 ->
  -1 <= Main3.position (Main3.bar now data lo hi st i).1 <= 1.
Proof.
  intros H. unfold Main3.bar, Main3.should_enter_trade, Main3.execute_trade.
  repeat case_match; simplify_eq; simpl; lia.
Qed.

Lemma revised_bar_position now data st i :
  -1 <= MainRevised.position st.1 <= 1 ->
  -1 <= MainRevised.position (MainRevised.bar now data st i).1 <= 1.
Proof.
  intros H. unfold MainRevised.bar. destruct (i =? 0)%nat; [done|].
  pose proof (revised_enter_range (iloc data i) (iloc data (i - 1))).
  unfold MainRevised.execute_trade, MainRevised._record_trade.
  repeat case_match; simpl; lia.
Qed.

(** X3: the position of a bot that is flat, long or short (0, 1 or -1)
    is again 0, 1 or -1 after every run; a new bot is flat.  For the four
    files. *)
Theorem run_keeps_position_a_side_or_flat
    (now : clock) (h : store) (t : nat) (price_data : loc) :
  (forall self, -1 <= Main.position self <= 1 ->
     -1 <= Main.position (final (Main.run now h t self price_data)) <= 1)
  /\ (forall self, -1 <= Main2.position self <= 1 ->
     -1 <= Main2.position (final (Main2.run now h t self price_data)) <= 1)
  /\ (forall kmeans self, -1 <= Main3.position self <= 1 ->
     -1 <= Main3.position (final (Main3.run kmeans now h t self price_data))
     <= 1)
  /\ (forall self, -1 <= MainRevised.position self <= 1 ->
     -1 <= MainRevised.position
             (final (MainRevised.run now h t self price_data)) <= 1).
Proof.
  split; [|split; [|split]].
  - intros self H.
    apply (main_run_invariant (fun s => -1 <= Main.position s <= 1)); [done|].
    intros. by apply main_bar_position.
  - intros self H.
    apply (main2_run_invariant (fun s => -1 <= Main2.position s <= 1)); [done|].
    intros. by apply main2_bar_position.
  - intros kmeans self H.
    apply (main3_run_invariant (fun s => -1 <= Main3.position s <= 1)); [done|].
    intros. by apply main3_bar_position.
  - intros self H.
    apply (revised_run_invariant (fun s => -1 <= MainRevised.position s <= 1));
      [done|].
    intros. by apply revised_bar_position.
Qed.

Lemma run_keeps_position_a_side_or_flat_witness :
  -1 <= Main.position (final first_run) <= 1.
Proof.
  destruct (run_keeps_position_a_side_or_flat ticking [falling_frame]
              0%nat 0%nat) as [H _].
  apply (H main_bot). simpl. lia.
Defined.

(** ** What a run does to the store *)

Lemma columns_set_col c s df :
  columns (set_col c s df) = <[c := s]> (columns df).
Proof. done. Qed.

(** Rewrites the lookups in a frame built by [set_col]. *)
Ltac cols :=
  repeat first
    [ rewrite columns_set_col
    | rewrite lookup_insert_eq
    | rewrite lookup_insert_ne by done ].

Lemma main2_indicators_raised df :
  (Main2.indicators df).2
  = match columns df !! "Close", columns df !! "High", columns df !! "Low" with
    | None, _, _ => Some (KeyError "Close")
    | Some _, None, _ => Some (KeyError "High")
    | Some _, Some _, None => Some (KeyError "Low")
    | Some _, Some _, Some _ => None
    end.
Proof.
  unfold Main2.indicators.
  destruct (columns df !! "Close") as [close|]; [|done]. cbv zeta. cols.
  destruct (columns df !! "High"); [|done].
  by destruct (columns df !! "Low").
Qed.

Lemma main3_indicators_raised df :
  (Main3.indicators df).2
  = match columns df !! "Close", columns df !! "High", columns df !! "Low" with
    | None, _, _ => Some (KeyError "Close")
    | Some _, None, _ => Some (KeyError "High")
    | Some _, Some _, None => Some (KeyError "Low")
    | Some _, Some _, Some _ => None
    end.
Proof.
  unfold Main3.indicators.
  destruct (columns df !! "Close") as [close|]; [|done]. cbv zeta. cols.
  destruct (columns df !! "High"); [|done].
  by destruct (columns df !! "Low").
Qed.

(** X4: the runs of [main.py], [main2.py] and [main3.py] work on a copy:
    the store after the run is the store before it with new objects
    appended, so every frame the caller holds is as it was, also when the
    run raises. *)
Theorem run_on_copy_keeps_caller_store
    (now : clock) (h : store) (t : nat) (price_data : loc) :
  (forall self, h `prefix_of` heap (Main.run now h t self price_data))
  /\ (forall self, h `prefix_of` heap (Main2.run now h t self price_data))
  /\ (forall kmeans self,
        h `prefix_of` heap (Main3.run kmeans now h t self price_data)).
Proof.
  split; [|split]; intros; destruct (h !! price_data) as [df|] eqn:Hdf.
  - rewrite (main_run_unfold _ _ _ _ _ _ Hdf).
    case_match; by apply prefix_app_r.
  - unfold Main.run. by rewrite Hdf.
  - rewrite (main2_run_unfold _ _ _ _ _ _ Hdf).
    case_match; by apply prefix_app_r.
  - unfold Main2.run. by rewrite Hdf.
  - rewrite (main3_run_unfold _ _ _ _ _ _ _ Hdf).
    repeat case_match; by apply prefix_app_r.
  - unfold Main3.run. by rewrite Hdf.
Qed.

(** X5: a run on a frame without the column [Close] raises
    [KeyError('Close')] before anything else happens: the bot is as it
    was and the clock is not read.  With [Close] present, [main2.py] and
    [main3.py] raise [KeyError('High')] when [High] is missing and
    [KeyError('Low')] when only [Low] is, again with the bot as it was. *)
Theorem run_raises_key_error_on_missing_column
    (now : clock) (h : store) (t : nat) (price_data : loc) (df : DataFrame) :
  h !! price_data = Some df ->
  (columns df !! "Close" = None ->
   (forall self,
       let out := Main.run now h t self price_data in
       raised out = Some (KeyError "Close") /\ final out = self /\ ticks out = t)
   /\ (forall self,
       let out := Main2.run now h t self price_data in
       raised out = Some (KeyError "Close") /\ final out = self /\ ticks out = t)
   /\ (forall kmeans self,
       let out := Main3.run kmeans now h t self price_data in
       raised out = Some (KeyError "Close") /\ final out = self /\ ticks out = t)
   /\ (forall self,
       let out := MainRevised.run now h t self price_data in
       raised out = Some (KeyError "Close") /\ final out = self
       /\ ticks out = t /\ heap out = h))
  /\ (is_Some (columns df !! "Close") -> columns df !! "High" = None ->
      (forall self,
          let out := Main2.run now h t self price_data in
          raised out = Some (KeyError "High") /\ final out = self
          /\ ticks out = t)
      /\ (forall kmeans self,
          let out := Main3.run kmeans now h t self price_data in
          raised out = Some (KeyError "High") /\ final out = self
          /\ ticks out = t))
  /\ (is_Some (columns df !! "Close") -> is_Some (columns df !! "High") ->
      columns df !! "Low" = None ->
      (forall self,
          let out := Main2.run now h t self price_data in
          raised out = Some (KeyError "Low") /\ final out = self
          /\ ticks out = t)
      /\ (forall kmeans self,
          let out := Main3.run kmeans now h t self price_data in
          raised out = Some (KeyError "Low") /\ final out = self
          /\ ticks out = t)).
Proof.
  intros Hdf. split; [|split].
  - intros Hc. split; [|split; [|split]]; intros; subst out.
    + rewrite (main_run_unfold _ _ _ _ _ _ Hdf).
      unfold Main.indicators. by rewrite Hc.
    + rewrite (main2_run_unfold _ _ _ _ _ _ Hdf).
      rewrite main2_indicators_raised, Hc. done.
    + rewrite (main3_run_unfold _ _ _ _ _ _ _ Hdf).
      rewrite main3_indicators_raised, Hc. done.
    + rewrite (revised_run_unfold _ _ _ _ _ _ Hdf).
      unfold MainRevised.indicators. rewrite Hc. simpl.
      repeat split. by apply list_insert_id.
  - intros [close Hc] Hh. split; intros; subst out.
    + rewrite (main2_run_unfold _ _ _ _ _ _ Hdf).
      by rewrite main2_indicators_raised, Hc, Hh.
    + rewrite (main3_run_unfold _ _ _ _ _ _ _ Hdf).
      by rewrite main3_indicators_raised, Hc, Hh.
  - intros [close Hc] [high Hh] Hl. split; intros; subst out.
    + rewrite (main2_run_unfold _ _ _ _ _ _ Hdf).
      by rewrite main2_indicators_raised, Hc, Hh, Hl.
    + rewrite (main3_run_unfold _ _ _ _ _ _ _ Hdf).
      by rewrite main3_indicators_raised, Hc, Hh, Hl.
Qed.

Lemma run_raises_key_error_on_missing_column_witness :
  raised (Main.run ticking [open_only] 0 main_bot 0) = Some (KeyError "Close")
  /\ raised (Main2.run ticking [three_bars] 0 main2_bot 0)
     = Some (KeyError "High")
  /\ raised (Main3.run (cluster_means (Fin 30) (Fin 70)) ticking [close_high]
                       0 main3_bot 0)
     = Some (KeyError "Low").
Proof.
  split; [|split].
  - destruct (run_raises_key_error_on_missing_column ticking [open_only]
                0%nat 0%nat open_only eq_refl) as [H _].
    destruct (H eq_refl) as [H1 _]. apply (H1 main_bot).
  - destruct (run_raises_key_error_on_missing_column ticking [three_bars]
                0%nat 0%nat three_bars eq_refl) as (_ & H & _).
    destruct H as [H1 _]; [by eexists|reflexivity|]. apply (H1 main2_bot).
  - destruct (run_raises_key_error_on_missing_column ticking [close_high]
                0%nat 0%nat close_high eq_refl) as (_ & _ & H).
    destruct H as [_ H1]; [by eexists|by eexists|reflexivity|].
    apply (H1 (cluster_means (Fin 30) (Fin 70)) main3_bot).
Defined.

(** ** Computing the indicators twice *)

(** Drops the inserts that write a value the map already holds. *)
Ltac same_columns :=
  repeat (rewrite insert_id by (by cols)); try done.

Lemma frame_eq df1 df2 :
  nrows df1 = nrows df2 -> columns df1 = columns df2 -> df1 = df2.
Proof. destruct df1, df2; simpl; by intros -> ->. Qed.

Lemma main_indicators_twice df :
  Main.indicators (Main.indicators df).1 = Main.indicators df.
Proof.
  unfold Main.indicators at 2.
  destruct (columns df !! "Close") as [close|] eqn:Hc; simpl.
  - unfold Main.indicators. cols. rewrite Hc. f_equal.
    apply frame_eq; [done|]. cols. same_columns.
  - unfold Main.indicators. by rewrite Hc.
Qed.

Lemma revised_indicators_twice df :
  MainRevised.indicators (MainRevised.indicators df).1 = MainRevised.indicators df.
Proof.
  unfold MainRevised.indicators at 2.
  destruct (columns df !! "Close") as [close|] eqn:Hc; simpl.
  - unfold MainRevised.indicators. cols. rewrite Hc. f_equal.
    apply frame_eq; [done|]. cols. same_columns.
  - unfold MainRevised.indicators. by rewrite Hc.
Qed.

Lemma main2_indicators_twice df :
  Main2.indicators (Main2.indicators df).1 = Main2.indicators df.
Proof.
  unfold Main2.indicators at 2.
  destruct (columns df !! "Close") as [close|] eqn:Hc; simpl;
    [|unfold Main2.indicators; by rewrite Hc].
  cols. destruct (columns df !! "High") as [high|] eqn:Hh; simpl;
    [destruct (columns df !! "Low") as [low|] eqn:Hl; simpl|];
    unfold Main2.indicators; cols; rewrite Hc; cbv zeta; cols;
    rewrite Hh, ?Hl; f_equal; apply frame_eq; try done; cols; same_columns.
Qed.

Lemma main3_indicators_twice df :
  Main3.indicators (Main3.indicators df).1 = Main3.indicators df.
Proof.
  unfold Main3.indicators at 2.
  destruct (columns df !! "Close") as [close|] eqn:Hc; simpl;
    [|unfold Main3.indicators; by rewrite Hc].
  cols. destruct (columns df !! "High") as [high|] eqn:Hh; simpl;
    [destruct (columns df !! "Low") as [low|] eqn:Hl; simpl|];
    unfold Main3.indicators; cols; rewrite Hc; cbv zeta; cols;
    rewrite Hh, ?Hl; f_equal; apply frame_eq; try done; cols; same_columns.
Qed.

Lemma update_frame_twice h l f :
  (forall df, f (f df).1 = f df) ->
  update_frame (update_frame h l f).1 l f = update_frame h l f.
Proof.
  intros Hf. unfold update_frame at 2 3.
  destruct (h !! l) as [df|] eqn:Hdf.
  - destruct (f df) as [df' e] eqn:Hfd. simpl. unfold update_frame.
    rewrite list_lookup_insert_eq by (by eapply lookup_lt_Some).
    pose proof (Hf df) as H. rewrite Hfd in H. simpl in H. rewrite H.
    by rewrite list_insert_insert_eq.
  - simpl. unfold update_frame. by rewrite Hdf.
Qed.

(** X6: [calculate_indicators] is idempotent: called again on the frame it
    has updated it leaves the store as it is and raises what it raised,
    since every column it sets is computed from columns it does not set.
    For the four files. *)
Theorem calculate_indicators_twice (h : store) (data : loc) :
  Main.calculate_indicators (Main.calculate_indicators h data).1 data
  = Main.calculate_indicators h data
  /\ Main2.calculate_indicators (Main2.calculate_indicators h data).1 data
     = Main2.calculate_indicators h data
  /\ Main3.calculate_indicators (Main3.calculate_indicators h data).1 data
     = Main3.calculate_indicators h data
  /\ MainRevised.calculate_indicators
       (MainRevised.calculate_indicators h data).1 data
     = MainRevised.calculate_indicators h data.
Proof.
  repeat split; apply update_frame_twice.
  - apply main_indicators_twice.
  - apply main2_indicators_twice.
  - apply main3_indicators_twice.
  - apply revised_indicators_twice.
Qed.

(** ** [main_revised.py]: the caller's frame after a run *)

(** X7: in the store [main_revised.py] changes the caller's frame and
    nothing else, and in that frame the columns [SMA20], [SMA50] and [RSI]
    and nothing else: the number of rows, [Close] and every other column
    are as before. *)
Theorem revised_run_touches_three_columns
    (now : clock) (h : store) (t : nat)
    (self : MainRevised.QuantTradingBot) (price_data : loc) :
  let out := MainRevised.run now h t self price_data in
  length (heap out) = length h
  /\ (forall l, l <> price_data -> heap out !! l = h !! l)
  /\ (forall df, h !! price_data = Some df ->
        exists df', heap out !! price_data = Some df'
                    /\ nrows df' = nrows df
                    /\ forall c, c <> "SMA20" -> c <> "SMA50" -> c <> "RSI" ->
                                 columns df' !! c = columns df !! c).
Proof.
  intros out. subst out. destruct (h !! price_data) as [df|] eqn:Hdf.
  - rewrite (revised_run_unfold _ _ _ _ _ _ Hdf).
    assert (heap
              match (MainRevised.indicators df).2 with
              | Some e =>
                  {| final := self;
                     heap := <[price_data := (MainRevised.indicators df).1]> h;
                     ticks := t; raised := Some e |}
              | None =>
                  let st := MainRevised.bars now (MainRevised.indicators df).1
                              (nrows (MainRevised.indicators df).1) (self, t) in
                  {| final := st.1;
                     heap := <[price_data := (MainRevised.indicators df).1]> h;
                     ticks := st.2; raised := None |}
              end
            = <[price_data := (MainRevised.indicators df).1]> h) as ->
        by (by case_match).
    split; [by rewrite length_insert|]. split.
    + intros l Hl. by rewrite list_lookup_insert_ne.
    + intros df0 [= <-]. exists (MainRevised.indicators df).1.
      split; [by rewrite list_lookup_insert_eq by (by eapply lookup_lt_Some)|].
      unfold MainRevised.indicators.
      destruct (columns df !! "Close"); simpl; [|done].
      split; [done|]. intros c H1 H2 H3. by cols.
  - unfold MainRevised.run, MainRevised.calculate_indicators, update_frame.
    rewrite Hdf. simpl. repeat split; try done.
Qed.

Lemma revised_run_touches_three_columns_witness :
  exists df', heap (MainRevised.run ticking [three_bars] 0 revised_bot 0) !! 0%nat
              = Some df'
              /\ nrows df' = 3%nat
              /\ columns df' !! "Close" = Some [Fin 1.1; Fin 1.2; Fin 1.3].
Proof.
  destruct (revised_run_touches_three_columns ticking [three_bars] 0%nat
              revised_bot 0%nat) as (_ & _ & H).
  destruct (H three_bars eq_refl) as (df' & H1 & H2 & H3).
  exists df'. split; [exact H1|]. split; [exact H2|].
  rewrite H3 by discriminate. reflexivity.
Defined.

(** X8: [main_revised.py] run again on the frame its first run has left
    behind computes the same indicators: the frame is not changed again
    and the second run ends with the same balance and the same ledger but
    for the timestamps. *)
Theorem revised_rerun_on_updated_frame
    (now1 now2 : clock) (h : store) (t1 t2 : nat)
    (self : MainRevised.QuantTradingBot) (price_data : loc) :
  let first := MainRevised.run now1 h t1 self price_data in
  let second := MainRevised.run now2 (heap first) t2 self price_data in
  heap second = heap first
  /\ raised second = raised first
  /\ MainRevised.balance (final second) = MainRevised.balance (final first)
  /\ map untimed (MainRevised.trades (final second))
     = map untimed (MainRevised.trades (final first)).
Proof.
  intros first second.
  assert (heap second = heap first /\ raised second = raised first
          /\ revised_untimed (final second) = revised_untimed (final first))
    as (Hh & Hr & Hf).
  { subst first second. destruct (h !! price_data) as [df|] eqn:Hdf.
    - rewrite (revised_run_unfold now1 _ _ _ _ _ Hdf).
      set (df1 := (MainRevised.indicators df).1).
      assert (<[price_data := df1]> h !! price_data = Some df1) as Hdf1
          by (by rewrite list_lookup_insert_eq by (by eapply lookup_lt_Some)).
      pose proof (revised_indicators_twice df) as Htw. fold df1 in Htw.
      destruct (MainRevised.indicators df).2 as [e|] eqn:He; simpl.
      + rewrite (revised_run_unfold now2 _ _ _ _ _ Hdf1), Htw. fold df1.
        rewrite He. simpl. by rewrite list_insert_insert_eq.
      + rewrite (revised_run_unfold now2 _ _ _ _ _ Hdf1), Htw. fold df1.
        rewrite He. simpl. rewrite list_insert_insert_eq.
        repeat split. by apply revised_bars_untimed.
    - unfold MainRevised.run, MainRevised.calculate_indicators, update_frame.
      rewrite Hdf. simpl. by rewrite Hdf. }
  repeat split; [done|done|apply (f_equal MainRevised.balance Hf)
                |apply (f_equal MainRevised.trades Hf)].
Qed.

(** ** [main3.py]: too few samples for the clustering *)

Lemma shift1_length (s : Series) : length (shift1 s) = length s.
Proof.
  destruct s as [|x s]; [done|]. unfold shift1.
  rewrite removelast_firstn_len. cbn [length]. rewrite length_take.
  cbn [length]. lia.
Qed.

Lemma diff_length (s : Series) : length (diff s) = length s.
Proof. unfold diff. rewrite zip_with_num_length, shift1_length. lia. Qed.

Lemma gains_length close : length (gains close) = length close.
Proof. unfold gains, where_. by rewrite length_map, diff_length. Qed.

Lemma losses_length close : length (losses close) = length close.
Proof. unfold losses, where_. by rewrite !length_map, diff_length. Qed.

(** The oscillator on rolling averages over [w] bars: as long as the
    series, undefined on the first [w - 1] bars. *)
Lemma rolling_rsi_length w close :
  length (zip_with_num rsi_of (rolling_mean w (gains close))
                              (rolling_mean w (losses close)))
  = length close.
Proof.
  rewrite zip_with_num_length, !rolling_mean_length, gains_length,
    losses_length. lia.
Qed.

Lemma rolling_rsi_warmup w close i :
  (S i < w)%nat ->
  at_ (zip_with_num rsi_of (rolling_mean w (gains close))
                           (rolling_mean w (losses close))) i = NaN.
Proof.
  intros Hw. destruct (decide (i < length close)%nat) as [Hi|Hi].
  - rewrite zip_with_num_at
      by (by rewrite rolling_mean_length, ?gains_length, ?losses_length).
    by rewrite rolling_mean_warmup.
  - rewrite zip_with_num_beyond; [done|].
    rewrite !rolling_mean_length, gains_length, losses_length. lia.
Qed.

Lemma dropna_all_nan (s : Series) :
  (forall i, at_ s i = NaN) -> dropna s = [].
Proof.
  unfold dropna. induction s as [|x s IH]; intros H; [done|].
  pose proof (H 0%nat) as H0. unfold at_ in H0. simpl in H0. subst x.
  rewrite filter_cons_False by done. apply IH. intros i. apply (H (S i)).
Qed.

Lemma dropna_after_warmup (s : Series) k :
  (forall i, (i < k)%nat -> at_ s i = NaN) ->
  (length (dropna s) <= length s - k)%nat.
Proof.
  intros Hk. rewrite <- (take_drop k s) at 1. unfold dropna.
  rewrite filter_app.
  assert (filter (fun x => isna x = false) (take k s) = []) as ->.
  { apply dropna_all_nan. intros i. rewrite at_lookup, lookup_take.
    case_decide; [|done]. rewrite <- at_lookup. by apply Hk. }
  simpl. etrans; [apply length_filter|]. by rewrite length_drop.
Qed.

Lemma main3_indicators_rsi df close high low :
  columns df !! "Close" = Some close ->
  columns df !! "High" = Some high -> columns df !! "Low" = Some low ->
  (Main3.indicators df).2 = None
  /\ columns (Main3.indicators df).1 !! "RSI"
     = Some (zip_with_num rsi_of (rolling_mean 14 (gains close))
                                 (rolling_mean 14 (losses close))).
Proof.
  intros Hc Hh Hl. unfold Main3.indicators. rewrite Hc. cbv zeta. cols.
  rewrite Hh, Hl. cbn [fst snd]. split; [done|]. by cols.
Qed.

(** X9: [main3.py] on a frame that has its three columns and fewer than
    16 bars raises [ValueError]: the RSI is undefined on the first 13
    bars, so fewer than three samples reach the clustering.  The bot is as
    it was and the clock is not read. *)
Theorem adaptive_run_raises_below_16_bars
    (kmeans : list num -> list num) (now : clock) (h : store) (t : nat)
    (self : Main3.AdaptiveTradingBot) (price_data : loc)
    (df : DataFrame) (close : Series) :
  h !! price_data = Some df ->
  columns df !! "Close" = Some close ->
  is_Some (columns df !! "High") -> is_Some (columns df !! "Low") ->
  (length close < 16)%nat ->
  let out := Main3.run kmeans now h t self price_data in
  raised out = Some ValueError /\ final out = self /\ ticks out = t.
Proof.
  intros Hdf Hc [high Hh] [low Hl] Hn out. subst out.
  rewrite (main3_run_unfold _ _ _ _ _ _ _ Hdf).
  destruct (main3_indicators_rsi df close high low Hc Hh Hl) as [-> Hrsi].
  unfold Main3.dynamic_rsi_threshold. rewrite Hrsi.
  pose proof (dropna_after_warmup
                (zip_with_num rsi_of (rolling_mean 14 (gains close))
                                     (rolling_mean 14 (losses close))) 13
                ltac:(intros i Hi; apply rolling_rsi_warmup; lia)) as Hlen.
  rewrite rolling_rsi_length in Hlen.
  destruct (Nat.ltb_spec
              (length (dropna (zip_with_num rsi_of
                                 (rolling_mean 14 (gains close))
                                 (rolling_mean 14 (losses close))))) 3);
    [done|lia].
Qed.

Lemma adaptive_run_raises_below_16_bars_witness :
  raised (Main3.run (cluster_means (Fin 30) (Fin 70)) ticking
                    [hlc_frame [100; 101; 102]] 0 main3_bot 0)
  = Some ValueError.
Proof.
  refine (proj1 (adaptive_run_raises_below_16_bars
                   (cluster_means (Fin 30) (Fin 70)) ticking
                   [hlc_frame [100; 101; 102]] 0%nat main3_bot 0%nat
                   (hlc_frame [100; 101; 102]) (map of_Z [100; 101; 102])
                   eq_refl eq_refl _ _ _)).
  - by eexists.
  - by eexists.
  - simpl. lia.
Defined.

(** ** [main3.py]: the thresholds are the least and the greatest centre *)

Lemma nle_refl x : isna x = false -> (x <=? x)%num = true.
Proof. destruct x; simpl; try done. intros _. apply Qle_bool_iff. lra. Qed.

Lemma nle_trans x y z :
  (x <=? y)%num = true -> (y <=? z)%num = true -> (x <=? z)%num = true.
Proof.
  destruct x, y, z; simpl; try done.
  intros H1%Qle_bool_iff H2%Qle_bool_iff. apply Qle_bool_iff. lra.
Qed.

Lemma nle_not_nan x y :
  (x <=? y)%num = true -> isna x = false /\ isna y = false.
Proof. by destruct x, y. Qed.

Lemma nlt_nle x y : (x <? y)%num = true -> (x <=? y)%num = true.
Proof.
  destruct x, y; simpl; try done.
  intros H%Qltb_spec. apply Qle_bool_iff. lra.
Qed.

Lemma nlt_false_nle x y :
  isna x = false -> isna y = false ->
  (x <? y)%num = false -> (y <=? x)%num = true.
Proof.
  destruct x, y; simpl; try done. intros _ _ H. unfold Qltb in H.
  by destruct (Qle_bool q0 q).
Qed.

Lemma insert_sorted_length x l :
  length (Main3.insert_sorted x l) = S (length l).
Proof. induction l as [|y l IH]; simpl; [done|]. case_match; simpl; lia. Qed.

Lemma sorted_length l : length (Main3.sorted l) = length l.
Proof.
  induction l as [|x l IH]; simpl; [done|].
  by rewrite insert_sorted_length, IH.
Qed.

Lemma sorted_three x y z lo mid hi :
  isna x = false -> isna y = false -> isna z = false ->
  Main3.sorted [x; y; z] = [lo; mid; hi] ->
  (lo <=? mid)%num = true /\ (mid <=? hi)%num = true
  /\ forall c, c ∈ [lo; mid; hi] <-> c ∈ [x; y; z].
Proof.
  intros Hx Hy Hz. unfold Main3.sorted. simpl.
  destruct (z <? y)%num eqn:Ezy; simpl;
    destruct (z <? x)%num eqn:Ezx; simpl;
    destruct (y <? x)%num eqn:Eyx; simpl; rewrite ?Ezx; intros [= <- <- <-];
    (split; [first [by apply nlt_nle|by apply nlt_false_nle]|]);
    (split; [first [by apply nlt_nle|by apply nlt_false_nle]|]);
    intros c; rewrite !elem_of_cons; tauto.
Qed.

(** X10: when [dynamic_rsi_threshold] returns, the clustering has given
    three centres, and if none of them is NaN the two thresholds are the
    least and the greatest of them: every centre lies between [oversold]
    and [overbought], and both are centres. *)
Theorem thresholds_are_extreme_centres
    (kmeans : list num -> list num) (data : DataFrame)
    (oversold overbought : num) :
  Main3.dynamic_rsi_threshold kmeans data = Ok (oversold, overbought) ->
  exists rsi,
    columns data !! "RSI" = Some rsi
    /\ (3 <= length (dropna rsi))%nat
    /\ length (kmeans (dropna rsi)) = 3%nat
    /\ (Forall (fun c => isna c = false) (kmeans (dropna rsi)) ->
        oversold ∈ kmeans (dropna rsi) /\ overbought ∈ kmeans (dropna rsi)
        /\ forall c, c ∈ kmeans (dropna rsi) ->
                     (oversold <=? c)%num = true
                     /\ (c <=? overbought)%num = true).
Proof.
  unfold Main3.dynamic_rsi_threshold.
  destruct (columns data !! "RSI") as [rsi|]; [|done].
  destruct (Nat.ltb_spec (length (dropna rsi)) 3) as [|Hlen]; [done|].
  destruct (Main3.sorted (kmeans (dropna rsi))) as [|lo [|mid [|hi [|]]]] eqn:Hs;
    try done.
  intros [= <- <-]. exists rsi. split; [done|]. split; [done|].
  pose proof (sorted_length (kmeans (dropna rsi))) as Hl. rewrite Hs in Hl.
  split; [done|]. intros Hnan.
  destruct (kmeans (dropna rsi)) as [|x [|y [|z [|]]]]; try done.
  apply Forall_cons in Hnan as [Hx Hnan]. apply Forall_cons in Hnan as [Hy Hnan].
  apply Forall_cons in Hnan as [Hz _].
  destruct (sorted_three x y z lo mid hi Hx Hy Hz Hs) as (H1 & H2 & Hmem).
  destruct (nle_not_nan _ _ H1) as [Hlo _].
  destruct (nle_not_nan _ _ H2) as [_ Hhi].
  split; [apply (proj1 (Hmem lo)); rewrite !elem_of_cons; auto|].
  split; [apply (proj1 (Hmem hi)); rewrite !elem_of_cons; auto|].
  intros c Hc. apply (proj2 (Hmem c)) in Hc. rewrite !elem_of_cons in Hc.
  destruct Hc as [->|[->|[->|Hc]]]; [| | |by apply elem_of_nil in Hc].
  - split; [by apply nle_refl|by eapply nle_trans].
  - by split.
  - split; [by eapply nle_trans|by apply nle_refl].
Qed.

Lemma thresholds_are_extreme_centres_witness :
  (turning_oversold <=? turning_overbought)%num = true.
Proof.
  destruct (thresholds_are_extreme_centres (cluster_means (Fin 10) (Fin 25))
              turning_data turning_oversold turning_overbought)
    as (rsi & Hrsi & _ & _ & H).
  - vm_compute. reflexivity.
  - assert (rsi = default [] (columns turning_data !! "RSI")) as ->
        by (by rewrite Hrsi).
    destruct H as (H1 & _ & H3).
    + vm_compute. repeat constructor.
    + eapply nle_trans; [apply (H3 _ H1)|apply (H3 _ H1)].
Defined.

(** ** What a run reads of the caller's frame *)

Lemma fold_left_ext {A B} (f g : A -> B -> A) (l : list B) (a : A) :
  (forall a b, f a b = g a b) -> fold_left f l a = fold_left g l a.
Proof.
  intros H. revert a. induction l as [|b l IH]; intros a; [done|].
  simpl. by rewrite H, IH.
Qed.

Lemma main_bar_reads now d d' st i :
  columns d !! "Close" = columns d' !! "Close" ->
  columns d !! "SMA20" = columns d' !! "SMA20" ->
  columns d !! "SMA50" = columns d' !! "SMA50" ->
  columns d !! "RSI" = columns d' !! "RSI" ->
  Main.bar now d st i = Main.bar now d' st i.
Proof.
  intros H1 H2 H3 H4.
  unfold Main.bar, Main.should_enter_trade, Main.should_exit_trade, iloc.
  by rewrite H1, H2, H3, H4.
Qed.

Lemma revised_bar_reads now d d' st i :
  columns d !! "Close" = columns d' !! "Close" ->
  columns d !! "SMA20" = columns d' !! "SMA20" ->
  columns d !! "SMA50" = columns d' !! "SMA50" ->
  columns d !! "RSI" = columns d' !! "RSI" ->
  MainRevised.bar now d st i = MainRevised.bar now d' st i.
Proof.
  intros H1 H2 H3 H4.
  unfold MainRevised.bar, MainRevised.should_enter_trade,
    MainRevised.should_exit_trade, iloc.
  by rewrite H1, H2, H3, H4.
Qed.

Lemma main3_bar_reads now d d' lo hi st i :
  columns d !! "Close" = columns d' !! "Close" ->
  columns d !! "SMA" = columns d' !! "SMA" ->
  columns d !! "EMA" = columns d' !! "EMA" ->
  columns d !! "RSI" = columns d' !! "RSI" ->
  columns d !! "ATR" = columns d' !! "ATR" ->
  Main3.bar now d lo hi st i = Main3.bar now d' lo hi st i.
Proof.
  intros H1 H2 H3 H4 H5.
  unfold Main3.bar, Main3.should_enter_trade, Main3.should_exit_trade, iloc.
  by rewrite H1, H2, H3, H4, H5.
Qed.

Lemma main_indicators_reads df df' :
  columns df !! "Close" = columns df' !! "Close" ->
  (Main.indicators df).2 = (Main.indicators df').2
  /\ ((Main.indicators df).2 = None ->
      forall c, c ∈ ["Close"; "SMA20"; "SMA50"; "RSI"] ->
        columns (Main.indicators df).1 !! c
        = columns (Main.indicators df').1 !! c).
Proof.
  intros H. unfold Main.indicators. rewrite <- H.
  destruct (columns df !! "Close") as [close|] eqn:E; cbn [fst snd]; [|done].
  split; [done|]. intros _ c Hc. rewrite !elem_of_cons in Hc.
  destruct Hc as [->|[->|[->|[->|Hc]]]]; [cols; congruence..|].
  by apply elem_of_nil in Hc.
Qed.

Lemma revised_indicators_reads df df' :
  columns df !! "Close" = columns df' !! "Close" ->
  (MainRevised.indicators df).2 = (MainRevised.indicators df').2
  /\ ((MainRevised.indicators df).2 = None ->
      forall c, c ∈ ["Close"; "SMA20"; "SMA50"; "RSI"] ->
        columns (MainRevised.indicators df).1 !! c
        = columns (MainRevised.indicators df').1 !! c).
Proof.
  intros H. unfold MainRevised.indicators. rewrite <- H.
  destruct (columns df !! "Close") as [close|] eqn:E; cbn [fst snd]; [|done].
  split; [done|]. intros _ c Hc. rewrite !elem_of_cons in Hc.
  destruct Hc as [->|[->|[->|[->|Hc]]]]; [cols; congruence..|].
  by apply elem_of_nil in Hc.
Qed.

Lemma main3_indicators_reads df df' :
  columns df !! "Close" = columns df' !! "Close" ->
  columns df !! "High" = columns df' !! "High" ->
  columns df !! "Low" = columns df' !! "Low" ->
  (Main3.indicators df).2 = (Main3.indicators df').2
  /\ ((Main3.indicators df).2 = None ->
      forall c, c ∈ ["Close"; "SMA"; "EMA"; "RSI"; "ATR"] ->
        columns (Main3.indicators df).1 !! c
        = columns (Main3.indicators df').1 !! c).
Proof.
  intros Hc Hh Hl. unfold Main3.indicators. rewrite <- Hc.
  destruct (columns df !! "Close") as [close|] eqn:E; cbn [fst snd]; [|done].
  cbv zeta. cols. rewrite <- Hh, <- Hl.
  destruct (columns df !! "High") as [high|]; [|done].
  destruct (columns df !! "Low") as [low|]; [|done]. cbn [fst snd].
  split; [done|]. intros _ c Hin. rewrite !elem_of_cons in Hin.
  destruct Hin as [->|[->|[->|[->|[->|Hin]]]]]; [cols; congruence..|].
  by apply elem_of_nil in Hin.
Qed.

(** X11: a run reads the price columns only.  On two frames with the
    same number of rows and the same [Close] column, whatever else they
    hold (other columns, or [SMA20], [SMA50] and [RSI] columns left by an
    earlier call), [main.py] and [main_revised.py] end with the same bot,
    the same number of clock readings and the same exception; so does
    [main3.py] when [High] and [Low] are the same too. *)
Theorem run_reads_only_price_columns
    (now : clock) (h h' : store) (t : nat) (price_data price_data' : loc)
    (df df' : DataFrame) :
  h !! price_data = Some df -> h' !! price_data' = Some df' ->
  nrows df = nrows df' ->
  columns df !! "Close" = columns df' !! "Close" ->
  (forall self,
      let out := Main.run now h t self price_data in
      let out' := Main.run now h' t self price_data' in
      final out = final out' /\ ticks out = ticks out'
      /\ raised out = raised out')
  /\ (forall self,
        let out := MainRevised.run now h t self price_data in
        let out' := MainRevised.run now h' t self price_data' in
        final out = final out' /\ ticks out = ticks out'
        /\ raised out = raised out')
  /\ (columns df !! "High" = columns df' !! "High" ->
      columns df !! "Low" = columns df' !! "Low" ->
      forall kmeans self,
        let out := Main3.run kmeans now h t self price_data in
        let out' := Main3.run kmeans now h' t self price_data' in
        final out = final out' /\ ticks out = ticks out'
        /\ raised out = raised out').
Proof.
  intros Hdf Hdf' Hn Hc. split; [|split].
  - intros self out out'. subst out out'.
    rewrite (main_run_unfold _ _ _ _ _ _ Hdf), (main_run_unfold _ _ _ _ _ _ Hdf').
    destruct (main_indicators_reads df df' Hc) as [He Hcols]. rewrite <- He.
    destruct (Main.indicators df).2 eqn:E; [done|]. cbv zeta. cbn [final ticks raised].
    rewrite !main_indicators_nrows, <- Hn. unfold Main.bars.
    rewrite (fold_left_ext (Main.bar now (Main.indicators df).1)
                           (Main.bar now (Main.indicators df').1)); [done|].
    intros st i. apply main_bar_reads; apply Hcols; try done;
      rewrite !elem_of_cons; auto.
  - intros self out out'. subst out out'.
    rewrite (revised_run_unfold _ _ _ _ _ _ Hdf),
      (revised_run_unfold _ _ _ _ _ _ Hdf').
    destruct (revised_indicators_reads df df' Hc) as [He Hcols]. rewrite <- He.
    destruct (MainRevised.indicators df).2 eqn:E; [done|]. cbv zeta.
    cbn [final ticks raised].
    assert (nrows (MainRevised.indicators df).1
            = nrows (MainRevised.indicators df').1) as ->.
    { unfold MainRevised.indicators.
      destruct (columns df !! "Close"), (columns df' !! "Close"); done. }
    unfold MainRevised.bars.
    rewrite (fold_left_ext (MainRevised.bar now (MainRevised.indicators df).1)
                           (MainRevised.bar now (MainRevised.indicators df').1));
      [done|].
    intros st i. apply revised_bar_reads; apply Hcols; try done;
      rewrite !elem_of_cons; auto.
  - intros Hh Hl kmeans self out out'. subst out out'.
    rewrite (main3_run_unfold _ _ _ _ _ _ _ Hdf),
      (main3_run_unfold _ _ _ _ _ _ _ Hdf').
    destruct (main3_indicators_reads df df' Hc Hh Hl) as [He Hcols].
    rewrite <- He.
    destruct (Main3.indicators df).2 eqn:E; [done|].
    assert (Main3.dynamic_rsi_threshold kmeans (Main3.indicators df').1
            = Main3.dynamic_rsi_threshold kmeans (Main3.indicators df).1) as ->.
    { unfold Main3.dynamic_rsi_threshold. rewrite <- (Hcols eq_refl "RSI"); [done|].
      rewrite !elem_of_cons; auto 10. }
    destruct (Main3.dynamic_rsi_threshold kmeans (Main3.indicators df).1)
      as [[lo hi]|e]; [|done].
    cbv zeta. cbn [final ticks raised].
    assert (nrows (Main3.indicators df).1 = nrows (Main3.indicators df').1) as ->.
    { unfold Main3.indicators.
      destruct (columns df !! "Close"), (columns df' !! "Close"); try done;
        cbv zeta; cols; repeat case_match; done. }
    unfold Main3.bars.
    rewrite (fold_left_ext (Main3.bar now (Main3.indicators df).1 lo hi)
                           (Main3.bar now (Main3.indicators df').1 lo hi));
      [done|].
    intros st i. apply main3_bar_reads; apply Hcols; try done;
      rewrite !elem_of_cons; auto 10.
Qed.

Lemma run_reads_only_price_columns_witness :
  let df := hlc_frame [100; 101; 102] in
  let df' := set_col "Volume" [Fin 5; Fin 6; Fin 7]
               (set_col "RSI" [Fin 50; Fin 50; Fin 50] df) in
  final (Main.run ticking [df] 0 main_bot 0%nat)
  = final (Main.run ticking [df; df'] 0 main_bot 1%nat)
  /\ raised (Main3.run (cluster_means (Fin 10) (Fin 25)) ticking [df] 0
                       main3_bot 0%nat)
     = raised (Main3.run (cluster_means (Fin 10) (Fin 25)) ticking [df; df'] 0
                         main3_bot 1%nat).
Proof.
  intros df df'.
  destruct (run_reads_only_price_columns ticking [df] [df; df'] 0 0 1 df df')
    as (H1 & _ & H3); [reflexivity|reflexivity|reflexivity| |].
  - vm_compute. reflexivity.
  - split.
    + exact (proj1 (H1 main_bot)).
    + refine (proj2 (proj2 (H3 _ _ (cluster_means (Fin 10) (Fin 25)) main3_bot)));
        vm_compute; reflexivity.
Defined.

(** ** [main2.py]: what the trades do not depend on *)

Lemma fold_left_sim {A B} (R : A -> A -> Prop) (f g : A -> B -> A)
    (l : list B) (a a' : A) :
  R a a' -> (forall a a' b, R a a' -> R (f a b) (g a' b)) ->
  R (fold_left f l a) (fold_left g l a').
Proof.
  intros Ha H. revert a a' Ha. induction l as [|b l IH]; intros a a' Ha; [done|].
  simpl. by apply IH, H.
Qed.

Lemma main2_bar_reads now d d' st i :
  columns d !! "Close" = columns d' !! "Close" ->
  columns d !! "SMA20" = columns d' !! "SMA20" ->
  columns d !! "SMA50" = columns d' !! "SMA50" ->
  columns d !! "RSI" = columns d' !! "RSI" ->
  Main2.bar now d st i = Main2.bar now d' st i.
Proof.
  intros H1 H2 H3 H4. unfold Main2.bar, Main2.should_enter_trade, iloc.
  by rewrite H1, H2, H3, H4.
Qed.

Lemma main2_bar_risk now d risk st i :
  Main2.bar now d (main2_with_risk risk st.1, st.2) i
  = (main2_with_risk risk (Main2.bar now d st i).1, (Main2.bar now d st i).2).
Proof.
  destruct st as [self t].
  unfold Main2.bar, Main2.should_enter_trade, Main2.execute_trade. simpl.
  repeat case_match; simplify_eq; done.
Qed.

Lemma main2_indicators_reads df df' :
  columns df !! "Close" = columns df' !! "Close" ->
  is_Some (columns df !! "High") -> is_Some (columns df !! "Low") ->
  is_Some (columns df' !! "High") -> is_Some (columns df' !! "Low") ->
  (Main2.indicators df).2 = (Main2.indicators df').2
  /\ ((Main2.indicators df).2 = None ->
      forall c, c ∈ ["Close"; "SMA20"; "SMA50"; "RSI"] ->
        columns (Main2.indicators df).1 !! c
        = columns (Main2.indicators df').1 !! c).
Proof.
  intros Hc [high Hh] [low Hl] [high' Hh'] [low' Hl'].
  unfold Main2.indicators. rewrite <- Hc.
  destruct (columns df !! "Close") as [close|] eqn:E; cbn [fst snd]; [|done].
  cbv zeta. cols. rewrite Hh, Hl, Hh', Hl'. cbn [fst snd].
  split; [done|]. intros _ c Hin. rewrite !elem_of_cons in Hin.
  destruct Hin as [->|[->|[->|[->|Hin]]]]; [cols; congruence..|].
  by apply elem_of_nil in Hin.
Qed.

Lemma main2_indicators_nrows df : nrows (Main2.indicators df).1 = nrows df.
Proof.
  unfold Main2.indicators. destruct (columns df !! "Close"); [|done].
  cbv zeta. cols. by repeat case_match.
Qed.

(** X12: [main2.py] computes [EMA12], [EMA26], [MACD], [Signal] and [ATR]
    and keeps [risk_per_trade], but its trades depend on none of them.
    On two frames with the same rows and the same [Close] column, both
    with a [High] and a [Low] column of whatever values, and for bots
    that differ in [risk_per_trade] only, the runs end with the same bot
    up to [risk_per_trade], after the same number of clock readings. *)
Theorem main2_trades_ignore_ranges_and_risk
    (now : clock) (h h' : store) (t : nat) (price_data price_data' : loc)
    (df df' : DataFrame) (self : Main2.QuantTradingBot) (risk : num) :
  h !! price_data = Some df -> h' !! price_data' = Some df' ->
  nrows df = nrows df' ->
  columns df !! "Close" = columns df' !! "Close" ->
  is_Some (columns df !! "High") -> is_Some (columns df !! "Low") ->
  is_Some (columns df' !! "High") -> is_Some (columns df' !! "Low") ->
  let out := Main2.run now h t self price_data in
  let out' := Main2.run now h' t (main2_with_risk risk self) price_data' in
  final out' = main2_with_risk risk (final out)
  /\ ticks out' = ticks out /\ raised out' = raised out.
Proof.
  intros Hdf Hdf' Hn Hc Hh Hl Hh' Hl' out out'. subst out out'.
  rewrite (main2_run_unfold _ _ _ _ _ _ Hdf),
    (main2_run_unfold _ _ _ _ _ _ Hdf').
  destruct (main2_indicators_reads df df' Hc Hh Hl Hh' Hl') as [He Hcols].
  rewrite <- He. destruct (Main2.indicators df).2 eqn:E; [done|].
  cbv zeta. cbn [final ticks raised].
  rewrite !main2_indicators_nrows, <- Hn. unfold Main2.bars.
  pose proof (fold_left_sim
    (fun st st' : Main2.QuantTradingBot * nat =>
       st' = (main2_with_risk risk st.1, st.2))
    (Main2.bar now (Main2.indicators df).1)
    (Main2.bar now (Main2.indicators df').1)
    (seq 1 (nrows df - 1)) (self, t) (main2_with_risk risk self, t)) as H.
  cbv beta in H. rewrite H; [done|done|].
  intros st st' i ->. rewrite main2_bar_risk. symmetry.
  rewrite (main2_bar_reads now _ (Main2.indicators df').1); [done|..];
    apply Hcols; try done; rewrite !elem_of_cons; auto.
Qed.

Lemma main2_trades_ignore_ranges_and_risk_witness :
  let df := hlc_frame [100; 101; 102] in
  let df' := set_col "High" [Fin 200; Fin 300; Fin 400] df in
  Main2.trades (final (Main2.run ticking [df; df'] 0
                         (main2_with_risk (Fin 0.5) main2_bot) 1%nat))
  = Main2.trades (final (Main2.run ticking [df] 0 main2_bot 0%nat)).
Proof.
  intros df df'.
  destruct (main2_trades_ignore_ranges_and_risk ticking [df] [df; df'] 0 0 1
              df df' main2_bot (Fin 0.5)) as (H & _ & _);
    [reflexivity|reflexivity|reflexivity|vm_compute; reflexivity
    |by eexists|by eexists|by eexists|by eexists|].
  by rewrite H.
Defined.

(** ** A series of closes that never moves *)

Lemma Forall_shift1 (P : num -> Prop) (s : Series) :
  P NaN -> Forall P s -> Forall P (shift1 s).
Proof.
  intros Hnan Hs. destruct s as [|x s]; [done|]. unfold shift1.
  constructor; [done|]. rewrite removelast_firstn_len. by apply Forall_take.
Qed.

Lemma zip_with_num_Forall (P Q R : num -> Prop) f (xs ys : Series) :
  (forall x y, P x -> Q y -> R (f x y)) ->
  Forall P xs -> Forall Q ys -> Forall R (zip_with_num f xs ys).
Proof.
  intros Hf Hx. revert ys. induction Hx as [|x xs Hx _ IH]; intros [|y ys] Hy;
    simpl; try constructor.
  - apply Forall_cons in Hy as [Hy _]. by apply Hf.
  - apply Forall_cons in Hy as [_ Hy]. by apply IH.
Qed.

Lemma diff_flat n c :
  Forall (fun d => d = NaN \/ d = Fin 0) (diff (replicate n (Fin c))).
Proof.
  unfold diff.
  apply (zip_with_num_Forall (fun x => x = Fin c)
                             (fun y => y = NaN \/ y = Fin c)).
  - intros x y -> [->| ->]; simpl; [by left|right].
    f_equal. apply Qred_zero. ring.
  - by apply Forall_replicate.
  - apply Forall_shift1; [by left|]. apply Forall_replicate. by right.
Qed.

Lemma gains_flat n c :
  Forall (fun x => x = Fin 0) (gains (replicate n (Fin c))).
Proof.
  unfold gains, where_. rewrite map_fmap. apply Forall_fmap.
  eapply Forall_impl; [apply diff_flat|]. by intros d [->| ->].
Qed.

Lemma losses_flat n c :
  Forall (fun x => x = Fin 0) (losses (replicate n (Fin c))).
Proof.
  unfold losses, where_. rewrite !map_fmap. apply Forall_fmap, Forall_fmap.
  eapply Forall_impl; [apply diff_flat|]. by intros d [->| ->].
Qed.

Lemma total_zeros xs : Forall (fun x => x = Fin 0) xs -> total xs = Fin 0.
Proof.
  unfold total. induction 1 as [|x xs -> _ IH]; [done|]. simpl.
  by change (Qred (0 + 0)) with 0%Q.
Qed.

Lemma mean_zeros xs :
  Forall (fun x => x = Fin 0) xs -> mean xs = NaN \/ mean xs = Fin 0.
Proof.
  intros H. unfold mean. rewrite (total_zeros _ H). unfold of_nat, of_Z. simpl.
  destruct (Qeq_bool _ 0); [by left|right]. by f_equal.
Qed.

Lemma rolling_mean_zeros w s :
  Forall (fun x => x = Fin 0) s ->
  Forall (fun x => x = NaN \/ x = Fin 0) (rolling_mean w s).
Proof.
  intros Hs. unfold rolling_mean. rewrite map_fmap. apply Forall_fmap.
  apply Forall_true. intros i. simpl.
  destruct (S i <? w)%nat; [by left|].
  destruct (forallb is_finite (window w i s)); [|by left].
  by apply mean_zeros, Forall_window.
Qed.

Lemma ewm_from_zeros alpha adjust minp st s :
  weighted st = Fin 0 -> Forall (fun x => x = Fin 0) s ->
  Forall (fun x => x = NaN \/ x = Fin 0) (ewm_from alpha adjust minp st s).
Proof.
  intros Hw Hs. revert st Hw. induction Hs as [|x s -> _ IH]; intros st Hw;
    [done|].
  assert (weighted (ewm_step alpha adjust st (Fin 0)) = Fin 0) as Hw'.
  { unfold ewm_step. by rewrite Hw. }
  simpl. constructor; [|by apply IH].
  unfold ewm_out. rewrite Hw'. case_match; [by right|by left].
Qed.

Lemma ewm_mean_zeros span adjust minp s :
  Forall (fun x => x = Fin 0) s ->
  Forall (fun x => x = NaN \/ x = Fin 0) (ewm_mean span adjust minp s).
Proof.
  intros Hs. unfold ewm_mean. destruct Hs as [|x s -> Hs]; [done|].
  constructor; [|by apply ewm_from_zeros].
  unfold ewm_out. simpl. case_match; [by right|by left].
Qed.

(** Without a move there is neither an average gain nor an average
    loss, and the oscillator is [0 / 0]. *)
Lemma rsi_undefined (gain loss : Series) i :
  Forall (fun x => x = NaN \/ x = Fin 0) gain ->
  Forall (fun x => x = NaN \/ x = Fin 0) loss ->
  at_ (zip_with_num rsi_of gain loss) i = NaN.
Proof.
  intros Hg Hl. apply (at_Forall (fun x => x = NaN)); [done|].
  eapply zip_with_num_Forall; [|exact Hg|exact Hl].
  by intros x y [->| ->] [->| ->].
Qed.

Lemma main2_indicators_rsi df data :
  Main2.indicators df = (data, None) ->
  exists close, columns df !! "Close" = Some close /\
    forall i,
      iloc data i "RSI"
      = at_ (zip_with_num rsi_of (rolling_mean 10 (gains close))
                                 (rolling_mean 10 (losses close))) i.
Proof.
  unfold Main2.indicators.
  destruct (columns df !! "Close") as [close|]; [|done]. cbv zeta.
  repeat case_match; try done. intros [= <-].
  exists close. split; [done|]. intros i. by iloc_cols.
Qed.

Lemma main_bars_undefined_rsi now data k self t :
  (forall i, iloc data i "RSI" = NaN) -> Main.position self = 0 ->
  Main.bars now data k (self, t) = (self, t).
Proof.
  intros Hrsi Hp. unfold Main.bars. induction k as [|k IH]; [done|].
  rewrite seq_S, fold_left_app, IH. simpl.
  unfold Main.bar. destruct (k =? 0)%nat; [done|]. simpl. rewrite Hp. simpl.
  unfold Main.should_enter_trade. rewrite Hrsi. simpl. rewrite orb_true_r.
  by apply main_flat_no_signal.
Qed.

Lemma revised_bars_undefined_rsi now data k self t :
  (forall i, iloc data i "RSI" = NaN) -> MainRevised.position self = 0 ->
  MainRevised.bars now data k (self, t) = (self, t).
Proof.
  intros Hrsi Hp. unfold MainRevised.bars. induction k as [|k IH]; [done|].
  rewrite seq_S, fold_left_app, IH. simpl.
  unfold MainRevised.bar. destruct (k =? 0)%nat; [done|]. simpl. rewrite Hp.
  simpl. unfold MainRevised.should_enter_trade. rewrite Hrsi. simpl.
  rewrite orb_true_r. by apply revised_flat_no_signal.
Qed.

Lemma main2_bars_undefined_rsi now data k self t :
  (forall i, iloc data i "RSI" = NaN) -> Main2.position self = 0 ->
  Main2.bars now data k (self, t) = (self, t).
Proof.
  intros Hrsi Hp. unfold Main2.bars. induction k as [|k IH]; [done|].
  rewrite seq_S, fold_left_app, IH. simpl.
  unfold Main2.bar, Main2.should_enter_trade. simpl. rewrite Hrsi. simpl.
  rewrite orb_true_r, Hp. simpl. by apply main2_flat_no_signal.
Qed.

(** X13: on closes that never move there is no average gain and no
    average loss, the RSI is [0 / 0] on every bar, and no bot trades:
    a flat bot of [main.py], [main_revised.py] or [main2.py] comes out of
    the run as it went in, without a clock reading; [main3.py] finds no
    RSI sample to cluster and raises [ValueError], whatever the number of
    bars. *)
Theorem flat_closes_never_trade
    (now : clock) (h : store) (t : nat) (price_data : loc) (df : DataFrame)
    (n : nat) (c : Q) :
  h !! price_data = Some df ->
  columns df !! "Close" = Some (replicate n (Fin c)) ->
  (forall self, Main.position self = 0 ->
     let out := Main.run now h t self price_data in
     final out = self /\ ticks out = t /\ raised out = None)
  /\ (forall self, MainRevised.position self = 0 ->
        let out := MainRevised.run now h t self price_data in
        final out = self /\ ticks out = t /\ raised out = None)
  /\ (is_Some (columns df !! "High") -> is_Some (columns df !! "Low") ->
      (forall self, Main2.position self = 0 ->
         let out := Main2.run now h t self price_data in
         final out = self /\ ticks out = t /\ raised out = None)
      /\ (forall kmeans self,
            let out := Main3.run kmeans now h t self price_data in
            final out = self /\ ticks out = t
            /\ raised out = Some ValueError)).
Proof.
  intros Hdf Hc. split; [|split; [|intros [high Hh] [low Hl]; split]].
  - intros self Hp out. subst out. rewrite (main_run_unfold _ _ _ _ _ _ Hdf).
    destruct (Main.indicators df) as [data e] eqn:E.
    assert (e = None) as ->.
    { unfold Main.indicators in E. rewrite Hc in E. by injection E. }
    destruct (main_indicators_ok _ _ E) as (_ & close & Hclose & Hi).
    simplify_eq. cbn [fst snd]. cbv zeta. cbn [final ticks raised].
    rewrite main_bars_undefined_rsi; [done| |done].
    intros i. rewrite (proj2 (Hi i)).
    apply rsi_undefined; apply rolling_mean_zeros;
      [apply gains_flat|apply losses_flat].
  - intros self Hp out. subst out. rewrite (revised_run_unfold _ _ _ _ _ _ Hdf).
    destruct (MainRevised.indicators df) as [data e] eqn:E.
    assert (e = None) as ->.
    { unfold MainRevised.indicators in E. rewrite Hc in E. by injection E. }
    destruct (revised_indicators_rsi _ _ E) as (close & Hclose & Hi).
    simplify_eq. cbn [fst snd]. cbv zeta. cbn [final ticks raised].
    rewrite revised_bars_undefined_rsi; [done| |done].
    intros i. rewrite Hi.
    apply rsi_undefined; apply ewm_mean_zeros;
      [apply gains_flat|apply losses_flat].
  - intros self Hp out. subst out. rewrite (main2_run_unfold _ _ _ _ _ _ Hdf).
    destruct (Main2.indicators df) as [data e] eqn:E.
    assert (e = None) as ->.
    { pose proof (main2_indicators_raised df) as H.
      rewrite E, Hc, Hh, Hl in H. done. }
    destruct (main2_indicators_rsi _ _ E) as (close & Hclose & Hi).
    simplify_eq. cbn [fst snd]. cbv zeta. cbn [final ticks raised].
    rewrite main2_bars_undefined_rsi; [done| |done].
    intros i. rewrite Hi.
    apply rsi_undefined; apply rolling_mean_zeros;
      [apply gains_flat|apply losses_flat].
  - intros kmeans self out. subst out.
    rewrite (main3_run_unfold _ _ _ _ _ _ _ Hdf).
    destruct (main3_indicators_rsi df _ _ _ Hc Hh Hl) as [-> Hrsi].
    unfold Main3.dynamic_rsi_threshold. rewrite Hrsi.
    rewrite dropna_all_nan; [done|].
    intros i. apply rsi_undefined; apply rolling_mean_zeros;
      [apply gains_flat|apply losses_flat].
Qed.

Lemma flat_closes_never_trade_witness :
  final (Main.run ticking [hlc_frame (replicate 60 100)] 0 main_bot 0%nat)
  = main_bot
  /\ raised (Main3.run (cluster_means (Fin 10) (Fin 25)) ticking
                       [hlc_frame (replicate 60 100)] 0 main3_bot 0%nat)
     = Some ValueError.
Proof.
  destruct (flat_closes_never_trade ticking [hlc_frame (replicate 60 100)] 0 0
              (hlc_frame (replicate 60 100)) 60 100) as (H1 & _ & H3);
    [reflexivity|vm_compute; reflexivity|].
  split.
  - apply (H1 main_bot). reflexivity.
  - destruct H3 as [_ H3]; [by eexists|by eexists|]. apply H3.
Defined.

(** ** The loop body of [main_revised.py] against that of [main.py] *)

Lemma revised_should_exit_same self current :
  MainRevised.should_exit_trade (as_revised self) current
  = Main.should_exit_trade self current.
Proof.
  unfold MainRevised.should_exit_trade, Main.should_exit_trade. simpl.
  destruct (Z.eqb_spec (Main.position self) 0) as [E0|E0],
    (Z.eqb_spec (Main.position self) 1) as [E1|E1],
    (Z.eqb_spec (Main.position self) (-1)) as [E2|E2];
    simpl; repeat case_match; try done; lia.
Qed.

Lemma stop_take_exclusive x sl tp :
  (- sl <? tp)%num = true -> (x <=? - sl)%num = true -> (x >=? tp)%num = false.
Proof.
  unfold nge. destruct x, sl, tp; simpl; try done.
  rewrite Qltb_spec, Qle_bool_iff, Qred_correct. intros H1 H2.
  apply not_true_is_false. rewrite Qle_bool_iff. lra.
Qed.

Lemma nadd_nneg x y : (x + - y)%num = (x - y)%num.
Proof.
  destruct x, y; simpl; try done. f_equal. apply Qred_complete.
  rewrite Qred_correct. unfold Qminus. reflexivity.
Qed.

Lemma revised_execute_agrees now t self price signal :
  Main.position self = 0 \/ Main.position self = 1 ->
  (- Main.stop_loss self <? Main.take_profit self)%num = true ->
  MainRevised.execute_trade now t (as_revised self) price signal
  = (as_revised (Main.execute_trade now t self price signal).1,
     (Main.execute_trade now t self price signal).2).
Proof.
  intros Hp Hx. unfold MainRevised.execute_trade, Main.execute_trade.
  unfold MainRevised._record_trade, Main.close, Main.closed_trade. simpl.
  destruct Hp as [-> | ->]; simpl.
  - by destruct (signal =? 0).
  - destruct (signal =? 0); [done|]. simpl.
    destruct (price - Main.entry_price self <=? - Main.stop_loss self)%num
      eqn:Hs.
    + by rewrite (stop_take_exclusive _ _ _ Hx Hs), nadd_nneg.
    + simpl.
      by destruct (price - Main.entry_price self >=? Main.take_profit self)%num.
Qed.

(** X14: what [main_revised.py] kept of [main.py].  The two
    [should_enter_trade] are the same function of the rows and the two
    [should_exit_trade] the same function of position and row; on a flat
    or a long bot whose stop-loss trigger lies below its take-profit
    trigger, [execute_trade] (with [_record_trade]) and the whole loop body
    do in [main_revised.py] what they do in [main.py]: same bot, same
    record, same clock readings. *)
Theorem revised_agrees_with_main_off_shorts
    (now : clock) (t : nat) (self : Main.QuantTradingBot) :
  (forall current previous,
      MainRevised.should_enter_trade current previous
      = Main.should_enter_trade current previous)
  /\ (forall current,
        MainRevised.should_exit_trade (as_revised self) current
        = Main.should_exit_trade self current)
  /\ (Main.position self = 0 \/ Main.position self = 1 ->
      (- Main.stop_loss self <? Main.take_profit self)%num = true ->
      (forall price signal,
          MainRevised.execute_trade now t (as_revised self) price signal
          = (as_revised (Main.execute_trade now t self price signal).1,
             (Main.execute_trade now t self price signal).2))
      /\ (forall data i,
            MainRevised.bar now data (as_revised self, t) i
            = (as_revised (Main.bar now data (self, t) i).1,
               (Main.bar now data (self, t) i).2))).
Proof.
  split; [done|]. split; [apply revised_should_exit_same|].
  intros Hp Hx. split; [intros; by apply revised_execute_agrees|].
  intros data i. unfold MainRevised.bar, Main.bar.
  destruct (i =? 0)%nat; [done|]. cbn [fst snd]. cbv zeta.
  change (MainRevised.position (as_revised self)) with (Main.position self).
  rewrite revised_should_exit_same.
  destruct (negb (Main.position self =? 0)); by apply revised_execute_agrees.
Qed.

Lemma revised_agrees_with_main_off_shorts_witness :
  let held := (Main.execute_trade ticking 0 main_bot (Fin 1.1) 1).1 in
  MainRevised.execute_trade ticking 1 (as_revised held) (Fin 1.0994) 1
  = (as_revised (Main.execute_trade ticking 1 held (Fin 1.0994) 1).1,
     (Main.execute_trade ticking 1 held (Fin 1.0994) 1).2).
Proof.
  intros held.
  destruct (revised_agrees_with_main_off_shorts ticking 1 held) as (_ & _ & H).
  destruct H as [H _]; [right; reflexivity|vm_compute; reflexivity|].
  apply H.
Defined.

(** ** [main3.py]: the stop and target distances *)

Lemma nonneg_or_nan_inv x :
  nonneg_or_nan x = true -> x = NaN \/ nonneg x = true.
Proof. unfold nonneg_or_nan. destruct x; simpl; auto. Qed.

Lemma nlt_nonneg x y :
  nonneg x = true -> (x <? y)%num = true -> nonneg y = true.
Proof.
  unfold nonneg. destruct x, y; simpl; try done.
  rewrite Qltb_spec, !Qle_bool_iff. lra.
Qed.

Lemma max_skipna_nonneg x y z :
  nonneg_or_nan x = true -> nonneg_or_nan y = true -> nonneg_or_nan z = true ->
  nonneg_or_nan (max_skipna [x; y; z]) = true.
Proof.
  assert (forall acc v, nonneg_or_nan acc = true -> nonneg_or_nan v = true ->
            nonneg_or_nan (if isna v then acc
                           else if isna acc then v
                           else if (acc <? v)%num then v else acc) = true)
    as Hstep.
  { intros acc v Ha Hv. destruct (isna v); [done|].
    destruct (isna acc); [done|]. by destruct (acc <? v)%num. }
  intros Hx Hy Hz. unfold max_skipna. simpl. auto.
Qed.

Lemma row_max_nonneg a b c :
  Forall (fun x => nonneg_or_nan x = true) a ->
  Forall (fun x => nonneg_or_nan x = true) b ->
  Forall (fun x => nonneg_or_nan x = true) c ->
  Forall (fun x => nonneg_or_nan x = true) (Main3.row_max a b c).
Proof.
  intros Ha. revert b c. induction Ha as [|x a Hx _ IH]; intros b c Hb Hc;
    [done|].
  destruct Hb as [|y b Hy Hb]; [done|]. destruct Hc as [|z c Hz Hc]; [done|].
  cbn [Main3.row_max]. constructor; [by apply max_skipna_nonneg|by apply IH].
Qed.

Lemma range_nonneg high low :
  Forall2 (fun hi lo => (lo <=? hi)%num = true) high low ->
  Forall (fun x => nonneg_or_nan x = true) (zip_with_num nsub high low).
Proof.
  induction 1 as [|hi lo high low Hle _ IH]; [done|]. simpl.
  constructor; [|done].
  destruct hi as [| | |a], lo as [| | |b]; simpl in *; try done.
  apply Qle_bool_iff in Hle. unfold nonneg_or_nan, nonneg. simpl.
  apply Qle_bool_iff. rewrite Qred_correct. lra.
Qed.

Lemma nabs_nonneg (s : Series) :
  Forall (fun x => nonneg_or_nan x = true) (map nabs s).
Proof.
  rewrite map_fmap. apply Forall_fmap, Forall_true. intros [| | |q]; try done.
  unfold nonneg_or_nan, nonneg. simpl. apply Qle_bool_iff.
  rewrite Qred_correct. apply Qabs_nonneg.
Qed.

Lemma finite_nonneg (xs : list num) :
  Forall (fun x => nonneg_or_nan x = true) xs -> forallb is_finite xs = true ->
  Forall (fun x => nonneg x = true) xs.
Proof.
  induction 1 as [|x xs Hx _ IH]; [done|]. simpl.
  intros [Hfin Hrest]%andb_prop. constructor; [|by apply IH].
  apply nonneg_or_nan_inv in Hx as [->|Hx]; done.
Qed.

Lemma rolling_mean_nonneg_or_nan w s i :
  Forall (fun x => nonneg_or_nan x = true) s ->
  nonneg_or_nan (at_ (rolling_mean w s) i) = true.
Proof.
  intros Hs. apply (at_Forall (fun x => nonneg_or_nan x = true)); [done|].
  unfold rolling_mean. rewrite map_fmap. apply Forall_fmap, Forall_true.
  intros j. simpl. destruct (S j <? w)%nat; [done|].
  destruct (forallb is_finite (window w j s)) eqn:Hfin; [|done].
  apply mean_nonneg; [|done].
  apply finite_nonneg; [|done]. by apply Forall_window.
Qed.

Lemma nmul_nonneg_pos x o :
  nonneg x = true -> (0 < o)%Q -> nonneg (x * Fin o) = true.
Proof.
  intros Hx Ho. destruct (nonneg_inv x Hx) as [->|(q & -> & Hq)]; simpl.
  - unfold inf_signed. by rewrite Qeq_bool_pos, Qltb_pos.
  - apply nonneg_fin. rewrite Qred_correct. nra.
Qed.

Lemma main3_indicators_atr df close high low i :
  columns df !! "Close" = Some close ->
  columns df !! "High" = Some high -> columns df !! "Low" = Some low ->
  iloc (Main3.indicators df).1 i "ATR"
  = at_ (rolling_mean 14
           (Main3.row_max (zip_with_num nsub high low)
              (map nabs (zip_with_num nsub high (shift1 close)))
              (map nabs (zip_with_num nsub low (shift1 close))))) i.
Proof.
  intros Hc Hh Hl. unfold Main3.indicators. rewrite Hc. cbv zeta. cols.
  rewrite Hh, Hl. cbn [fst snd]. unfold iloc. by cols.
Qed.

(** X15: on bars whose low is not above their high, the stop distance
    that [should_enter_trade] of [main3.py] returns is a number that is
    not negative, on every bar and whatever the signal; so is the
    take-profit distance when [risk_reward_ratio] is a positive number. *)
Theorem adaptive_distances_not_negative
    (self : Main3.AdaptiveTradingBot) (df : DataFrame)
    (close high low : Series) :
  columns df !! "Close" = Some close ->
  columns df !! "High" = Some high -> columns df !! "Low" = Some low ->
  Forall2 (fun hi lo => (lo <=? hi)%num = true) high low ->
  forall (i : nat) (previous_row : Row) (oversold overbought : num),
    let data := (Main3.indicators df).1 in
    let '(signal, stop_loss, take_profit) :=
      Main3.should_enter_trade self (iloc data i) previous_row
                               oversold overbought in
    nonneg stop_loss = true
    /\ (forall q, Main3.risk_reward_ratio self = Fin q -> (0 < q)%Q ->
          nonneg take_profit = true).
Proof.
  intros Hc Hh Hl Hrange i previous_row oversold overbought data.
  assert (nonneg_or_nan (iloc data i "ATR") = true) as Hatr.
  { subst data. rewrite (main3_indicators_atr _ _ _ _ _ Hc Hh Hl).
    apply rolling_mean_nonneg_or_nan, row_max_nonneg;
      [by apply range_nonneg|apply nabs_nonneg..]. }
  unfold Main3.should_enter_trade.
  destruct (isna (iloc data i "SMA") || isna (iloc data i "RSI")
            || isna (iloc data i "ATR")) eqn:Hna; [done|].
  apply orb_false_elim in Hna as [_ Hna].
  apply nonneg_or_nan_inv in Hatr as [Hatr|Hatr]; [by rewrite Hatr in Hna|].
  assert (nonneg (iloc data i "ATR" * Fin 1.5) = true) as Hsl
      by (by apply nmul_nonneg_pos).
  assert (forall q, Main3.risk_reward_ratio self = Fin q -> (0 < q)%Q ->
            nonneg (iloc data i "ATR" * Fin 1.5
                    * Main3.risk_reward_ratio self) = true) as Htp.
  { intros q -> Hq. by apply nmul_nonneg_pos. }
  cbv zeta. repeat case_match; simplify_eq; try done.
Qed.

Lemma adaptive_distances_not_negative_witness :
  let r := Main3.should_enter_trade main3_bot (iloc turning_data 21)
             (iloc turning_data 20) turning_oversold turning_overbought in
  nonneg r.1.2 = true /\ nonneg r.2 = true.
Proof.
  intros r.
  pose proof (adaptive_distances_not_negative main3_bot (turning_frame 90)
                (map of_Z (turning_closes 90))
                (map (fun c => of_Z (c + 1)) (turning_closes 90))
                (map (fun c => of_Z (c - 1)) (turning_closes 90))) as H.
  specialize (H ltac:(vm_compute; reflexivity) ltac:(vm_compute; reflexivity)
                ltac:(vm_compute; reflexivity)
                ltac:(repeat constructor)
                21%nat (iloc turning_data 20) turning_oversold
                turning_overbought).
  cbv zeta in H.
  change (Main3.indicators (turning_frame 90)).1 with turning_data in H.
  fold r in H. destruct r as [[signal stop_loss] take_profit].
  destruct H as [H1 H2]. split; [exact H1|].
  apply (H2 2%Q); reflexivity.
Defined.

(** ** The timestamps of the ledger *)

Lemma stamped_between_start now t ledger : stamped_between now t t ledger ledger.
Proof.
  exists [], []. rewrite app_nil_r. by repeat split.
Qed.

Lemma stamped_between_step now t0 t1 t2 l0 l1 l2 :
  stamped_between now t0 t1 l0 l1 -> (t0 <= t1)%nat -> (t1 <= t2)%nat ->
  l2 = l1
  \/ (exists tr k, l2 = l1 ++ [tr] /\ Trade.timestamp tr = now k
                   /\ (t1 <= k < t2)%nat) ->
  stamped_between now t0 t2 l0 l2.
Proof.
  intros (new & ks & -> & Hts & Hin & Hinc) H01 H12 [->|(tr & k & -> & Hk & Hr)].
  - exists new, ks. repeat split; try done.
    eapply Forall_impl; [exact Hin|]. simpl. lia.
  - exists (new ++ [tr]), (ks ++ [k]). split; [by rewrite app_assoc|].
    split; [by rewrite !map_app, Hts; simpl; rewrite Hk|]. split.
    + apply Forall_app. split.
      * eapply Forall_impl; [exact Hin|]. simpl. lia.
      * constructor; [lia|done].
    + intros i j ki kj Hij Hi Hj.
      destruct (decide (j < length ks)%nat) as [Hj'|Hj'].
      * rewrite lookup_app_l in Hi, Hj by lia. exact (Hinc i j ki kj Hij Hi Hj).
      * rewrite lookup_app_r in Hj by lia.
        destruct (j - length ks)%nat eqn:E; [|by simpl in Hj].
        simpl in Hj. simplify_eq.
        assert (i < length ks)%nat as Hi' by lia.
        rewrite lookup_app_l in Hi by done.
        rewrite Forall_forall in Hin.
        pose proof (Hin ki (list_elem_of_lookup_2 _ _ _ Hi)). lia.
Qed.

Lemma main_execute_stamps now t self price signal :
  let st' := Main.execute_trade now t self price signal in
  (t <= st'.2)%nat
  /\ (Main.trades st'.1 = Main.trades self
      \/ exists tr k, Main.trades st'.1 = Main.trades self ++ [tr]
                      /\ Trade.timestamp tr = now k /\ (t <= k < st'.2)%nat).
Proof.
  unfold Main.execute_trade, Main.close, Main.closed_trade.
  repeat case_match; simpl; (split; [lia|]); try (by left);
    right; eexists _, (S t); simpl; (split; [done|]); (split; [done|lia]).
Qed.

Lemma revised_execute_stamps now t self price signal :
  let st' := MainRevised.execute_trade now t self price signal in
  (t <= st'.2)%nat
  /\ (MainRevised.trades st'.1 = MainRevised.trades self
      \/ exists tr k, MainRevised.trades st'.1 = MainRevised.trades self ++ [tr]
                      /\ Trade.timestamp tr = now k /\ (t <= k < st'.2)%nat).
Proof.
  unfold MainRevised.execute_trade, MainRevised._record_trade.
  repeat case_match; simpl; (split; [lia|]); try (by left);
    right; eexists _, (S t); simpl; (split; [done|]); (split; [done|lia]).
Qed.

Lemma main2_execute_stamps now t self price signal lot :
  let st' := Main2.execute_trade now t self price signal lot in
  (t <= st'.2)%nat
  /\ (Main2.trades st'.1 = Main2.trades self
      \/ exists tr k, Main2.trades st'.1 = Main2.trades self ++ [tr]
                      /\ Trade.timestamp tr = now k /\ (t <= k < st'.2)%nat).
Proof.
  unfold Main2.execute_trade.
  repeat case_match; simpl; (split; [lia|]); try (by left);
    right; eexists _, (S t); simpl; (split; [done|]); (split; [done|lia]).
Qed.

Lemma main3_execute_stamps now t self price signal sl tp :
  let st' := Main3.execute_trade now t self price signal sl tp in
  (t <= st'.2)%nat
  /\ (Main3.trades st'.1 = Main3.trades self
      \/ exists tr k, Main3.trades st'.1 = Main3.trades self ++ [tr]
                      /\ Trade.timestamp tr = now k /\ (t <= k < st'.2)%nat).
Proof.
  unfold Main3.execute_trade, Main3.closed_trade.
  repeat case_match; simpl; (split; [lia|]); try (by left);
    right; eexists _, t; simpl; (split; [done|]); (split; [done|lia]).
Qed.

Lemma main_run_state_invariant (P : Main.QuantTradingBot * nat -> Prop)
    now h t self pd :
  P (self, t) ->
  (forall data st i, P st -> P (Main.bar now data st i)) ->
  P (final (Main.run now h t self pd), ticks (Main.run now h t self pd)).
Proof.
  intros H0 Hbar. destruct (h !! pd) as [df|] eqn:Hdf.
  - rewrite (main_run_unfold _ _ _ _ _ _ Hdf).
    destruct (Main.indicators df).2; [done|]. simpl.
    rewrite <- surjective_pairing.
    generalize (nrows (Main.indicators df).1). intros n.
    induction n as [|n IH]; [done|]. rewrite main_bars_S. by apply Hbar.
  - unfold Main.run. by rewrite Hdf.
Qed.

Lemma main2_run_state_invariant (P : Main2.QuantTradingBot * nat -> Prop)
    now h t self pd :
  P (self, t) ->
  (forall data st i, P st -> P (Main2.bar now data st i)) ->
  P (final (Main2.run now h t self pd), ticks (Main2.run now h t self pd)).
Proof.
  intros H0 Hbar. destruct (h !! pd) as [df|] eqn:Hdf.
  - rewrite (main2_run_unfold _ _ _ _ _ _ Hdf).
    destruct (Main2.indicators df).2; [done|]. simpl.
    rewrite <- surjective_pairing.
    generalize (nrows (Main2.indicators df).1 - 1)%nat. intros n.
    induction n as [|n IH]; [done|]. rewrite main2_bars_S. by apply Hbar.
  - unfold Main2.run. by rewrite Hdf.
Qed.

Lemma main3_run_state_invariant (P : Main3.AdaptiveTradingBot * nat -> Prop)
    kmeans now h t self pd :
  P (self, t) ->
  (forall data lo hi st i, P st -> P (Main3.bar now data lo hi st i)) ->
  P (final (Main3.run kmeans now h t self pd),
     ticks (Main3.run kmeans now h t self pd)).
Proof.
  intros H0 Hbar. destruct (h !! pd) as [df|] eqn:Hdf.
  - rewrite (main3_run_unfold _ _ _ _ _ _ _ Hdf).
    destruct (Main3.indicators df).2; [done|].
    destruct (Main3.dynamic_rsi_threshold _ _) as [[lo hi]|e]; [|done]. simpl.
    rewrite <- surjective_pairing.
    generalize (nrows (Main3.indicators df).1 - 1)%nat. intros n.
    induction n as [|n IH]; [done|]. rewrite main3_bars_S. by apply Hbar.
  - unfold Main3.run. by rewrite Hdf.
Qed.

Lemma revised_run_state_invariant
    (P : MainRevised.QuantTradingBot * nat -> Prop) now h t self pd :
  P (self, t) ->
  (forall data st i, P st -> P (MainRevised.bar now data st i)) ->
  P (final (MainRevised.run now h t self pd),
     ticks (MainRevised.run now h t self pd)).
Proof.
  intros H0 Hbar. destruct (h !! pd) as [df|] eqn:Hdf.
  - rewrite (revised_run_unfold _ _ _ _ _ _ Hdf).
    destruct (MainRevised.indicators df).2; [done|]. simpl.
    rewrite <- surjective_pairing.
    generalize (nrows (MainRevised.indicators df).1). intros n.
    induction n as [|n IH]; [done|]. rewrite revised_bars_S. by apply Hbar.
  - unfold MainRevised.run, MainRevised.calculate_indicators, update_frame.
    by rewrite Hdf.
Qed.

(** X16: the timestamps in the ledger are readings of the wall clock
    taken during the run that appended the records, not times of the bars:
    the records a run adds carry readings made after the run started and
    before it ended, each record a later reading than the record before
    it.  For the four files. *)
Theorem run_stamps_ledger_with_clock_readings
    (now : clock) (h : store) (t : nat) (price_data : loc) :
  (forall self,
      let out := Main.run now h t self price_data in
      (t <= ticks out)%nat
      /\ stamped_between now t (ticks out)
           (Main.trades self) (Main.trades (final out)))
  /\ (forall self,
        let out := Main2.run now h t self price_data in
        (t <= ticks out)%nat
        /\ stamped_between now t (ticks out)
             (Main2.trades self) (Main2.trades (final out)))
  /\ (forall kmeans self,
        let out := Main3.run kmeans now h t self price_data in
        (t <= ticks out)%nat
        /\ stamped_between now t (ticks out)
             (Main3.trades self) (Main3.trades (final out)))
  /\ (forall self,
        let out := MainRevised.run now h t self price_data in
        (t <= ticks out)%nat
        /\ stamped_between now t (ticks out)
             (MainRevised.trades self) (MainRevised.trades (final out))).
Proof.
  split; [|split; [|split]].
  - intros self out. subst out.
    apply (main_run_state_invariant
             (fun st => (t <= st.2)%nat
                        /\ stamped_between now t st.2 (Main.trades self)
                             (Main.trades st.1)));
      [split; [done|apply stamped_between_start]|].
    intros data st i [Ht Hs]. unfold Main.bar.
    destruct (i =? 0)%nat; [done|]. cbv zeta.
    destruct (negb _);
      match goal with
      | |- context [Main.execute_trade ?n ?t ?s ?p ?g] =>
          destruct (main_execute_stamps n t s p g) as [Hle Hcase]
      end; (split; [lia|]); by eapply stamped_between_step.
  - intros self out. subst out.
    apply (main2_run_state_invariant
             (fun st => (t <= st.2)%nat
                        /\ stamped_between now t st.2 (Main2.trades self)
                             (Main2.trades st.1)));
      [split; [done|apply stamped_between_start]|].
    intros data st i [Ht Hs]. unfold Main2.bar. cbv zeta.
    destruct (Main2.should_enter_trade _ _ _) as [sig lot].
    destruct (Main2.position st.1 =? 0);
      match goal with
      | |- context [Main2.execute_trade ?n ?t ?s ?p ?g ?l] =>
          destruct (main2_execute_stamps n t s p g l) as [Hle Hcase]
      end; (split; [lia|]); by eapply stamped_between_step.
  - intros kmeans self out. subst out.
    apply (main3_run_state_invariant
             (fun st => (t <= st.2)%nat
                        /\ stamped_between now t st.2 (Main3.trades self)
                             (Main3.trades st.1)));
      [split; [done|apply stamped_between_start]|].
    intros data lo hi st i [Ht Hs]. unfold Main3.bar. cbv zeta.
    destruct (Main3.should_enter_trade _ _ _ _ _) as [[sig sl] tp].
    destruct (negb _);
      match goal with
      | |- context [Main3.execute_trade ?n ?t ?s ?p ?g ?a ?b] =>
          destruct (main3_execute_stamps n t s p g a b) as [Hle Hcase]
      end; (split; [lia|]); by eapply stamped_between_step.
  - intros self out. subst out.
    apply (revised_run_state_invariant
             (fun st => (t <= st.2)%nat
                        /\ stamped_between now t st.2 (MainRevised.trades self)
                             (MainRevised.trades st.1)));
      [split; [done|apply stamped_between_start]|].
    intros data st i [Ht Hs]. unfold MainRevised.bar.
    destruct (i =? 0)%nat; [done|]. cbv zeta.
    destruct (negb _);
      match goal with
      | |- context [MainRevised.execute_trade ?n ?t ?s ?p ?g] =>
          destruct (revised_execute_stamps n t s p g) as [Hle Hcase]
      end; (split; [lia|]); by eapply stamped_between_step.
Qed.
